(** * Route handlers of the document Q&A tool: a shallow embedding

    The repository's server side is five Next.js route files.  Each exports
    async handlers that validate the request, call the Gemini SDK, in two
    places poll a long-running remote job, and shape a JSON response.

    - [Upload]      : src/app/api/upload/route.ts                 (POST)
    - [ImportRoute] : src/app/api/file-search-stores/[storeName]/import/route.ts (POST)
    - [FilesRoute]  : src/app/api/files/route.ts                  (DELETE)
    - [StoresRoute] : the store route (POST/GET/DELETE file)      (DELETE)
    - [Query]       : the query route (POST, with optional slides export)
    - [Deck]        : the two slide helpers of the query route
    - [SlidesRoute] : the slides route (POST), built on the same helpers
    - [Client]      : the upload and the query component of the page, and
                      the routes wired behind their requests

    A handler is a computation in a small effect monad [M]: it appends the
    external calls it performs (and the [setTimeout] waits) to a log and
    either yields a value or throws.  What a remote call answers is not
    decided by this code: each handler takes the remote's behaviour as a
    function, and every theorem quantifies over it. *)

From Stdlib Require Import String Ascii List Bool Arith ZArith QArith Lia.
From Stdlib Require Import DecimalString DecimalNat.
From Stdlib Require Finite.
Import ListNotations.
Local Open Scope string_scope.
Local Open Scope list_scope.
Local Close Scope Q_scope.
Local Set Warnings "-register-all".

(** ** JavaScript values *)

Module Js.

(** A value as [JSON.parse] yields it, plus [undefined] for a missing
    property.  Finite doubles are rationals; an object lists each of its
    keys once. *)
Inductive jsval : Type :=
| JUndefined
| JNull
| JBool (b : bool)
| JNum (q : Q)
| JStr (s : string)
| JArr (items : list jsval)
| JObj (fields : list (string * jsval)).

Definition nonempty (s : string) : bool :=
  match s with EmptyString => false | String _ _ => true end.

(** ToBoolean: what [!x], [if (x)] and [x || y] test. *)
Definition truthy (v : jsval) : bool :=
  match v with
  | JUndefined | JNull => false
  | JBool b => b
  | JNum q => negb (Qeq_bool q 0)
  | JStr s => nonempty s
  | JArr _ | JObj _ => true
  end.

(** [o?.field || ...] on an optional string: undefined and "" are both falsy. *)
Definition truthy_str (o : option string) : bool :=
  match o with Some s => nonempty s | None => false end.

Definition truthy_flag (o : option bool) : bool :=
  match o with Some b => b | None => false end.

Fixpoint lookup {A : Type} (key : string) (l : list (string * A)) : option A :=
  match l with
  | [] => None
  | (k, v) :: rest => if String.eqb k key then Some v else lookup key rest
  end.

(** Property read [v.key] for a key that no built-in prototype defines. *)
Definition prop (key : string) (v : jsval) : jsval :=
  match v with
  | JObj fields => match lookup key fields with Some x => x | None => JUndefined end
  | _ => JUndefined
  end.

(** [v.length]: strings and arrays have one, an object may carry the key. *)
Definition length_of (v : jsval) : jsval :=
  match v with
  | JStr s => JNum (inject_Z (Z.of_nat (String.length s)))
  | JArr items => JNum (inject_Z (Z.of_nat (List.length items)))
  | JObj _ => prop "length" v
  | _ => JUndefined
  end.

(** [v === 0] *)
Definition is_zero (v : jsval) : bool :=
  match v with JNum q => Qeq_bool q 0 | _ => false end.

(** [v === s] for a string literal [s] *)
Definition is_string (s : string) (v : jsval) : bool :=
  match v with JStr s' => String.eqb s' s | _ => false end.

(** [haystack.includes(needle)] on strings. *)
Fixpoint includes (needle haystack : string) : bool :=
  String.prefix needle haystack
  || match haystack with
     | EmptyString => false
     | String _ rest => includes needle rest
     end.

(** String(v); only values that are not already strings need the engine. *)
Definition to_string (String_of : jsval -> string) (v : jsval) : string :=
  match v with JStr s => s | _ => String_of v end.

(** [const { key } = body]: destructuring null or undefined throws. *)
Definition destructurable (body : jsval) : bool :=
  match body with JUndefined | JNull => false | _ => true end.

(** [a || b] on strings already read as options. *)
Definition or_else (o : option string) (d : string) : string :=
  match o with
  | Some s => if nonempty s then s else d
  | None => d
  end.

End Js.
Export Js.

(** ** What the remote services hand back *)

Module Sdk.

(** [FileState] of @google/genai. *)
Inductive FileState := STATE_UNSPECIFIED | PROCESSING | ACTIVE | FAILED.

Definition FileState_eqb (a b : FileState) : bool :=
  match a, b with
  | STATE_UNSPECIFIED, STATE_UNSPECIFIED
  | PROCESSING, PROCESSING
  | ACTIVE, ACTIVE
  | FAILED, FAILED => true
  | _, _ => false
  end.

Record FileStatus := {
  status_message : option string;
  status_code : option Z
}.

(** The SDK's [File]; every field is optional there. *)
Record GFile := {
  file_name : option string;
  file_displayName : option string;
  file_mimeType : option string;
  file_sizeBytes : option string;
  file_uri : option string;
  file_state : option FileState;
  file_error : option FileStatus
}.

(** [currentFile.state === "..."] *)
Definition state_is (s : FileState) (f : GFile) : bool :=
  match file_state f with
  | Some s' => FileState_eqb s' s
  | None => false
  end.

(** The SDK's long-running [Operation]. *)
Record Operation := {
  op_name : option string;
  op_done : option bool;
  op_error : jsval;
  op_response : jsval
}.

Record UriHolder := { uri : option string }.

Record GroundingChunk := {
  web : option UriHolder;
  retrievedContext : option UriHolder;
  confidenceScore : option Q
}.

Record GroundingMetadata := { groundingChunks : option (list GroundingChunk) }.

Record Candidate := { groundingMetadata : option GroundingMetadata }.

Record GenerateContentResponse := {
  text : option string;
  candidates : option (list Candidate)
}.

End Sdk.
Export Sdk.

(** ** Effects: a call log and exceptions *)

Module Eff.

(** A thrown value: an [Error] instance with its message, or anything else. *)
Inductive exn := JsError (message : string) | NonError.

Inductive res (A : Type) : Type :=
| Ok (a : A)
| Throw (e : exn).
Arguments Ok {A} a.
Arguments Throw {A} e.

(** The browser-side [File] behind a form field and the [Blob] made of it. *)
Record Blob := { blob_bytes : string; blob_type : string }.

(** What a handler does that the outside can observe: the local timer and
    the calls to the external services.  The two status re-fetches are
    logged with what they answered. *)
Inductive event : Type :=
| Sleep (ms : Z)
| FilesUpload (file : Blob) (displayName mimeType : string)
| FilesGet (name : string) (answer : res GFile)
| FilesDelete (name : string)
| StoresImportFile (fileSearchStoreName : string) (fileName : jsval)
| OperationsGet (operation : Operation) (answer : res Operation)
| StoresDelete (name : string) (force : bool)
| GenerateContent (model contents : string) (fileSearchStoreNames : list jsval).

(** The status re-fetches among the calls. *)
Definition is_refresh (e : event) : bool :=
  match e with FilesGet _ _ | OperationsGet _ _ => true | _ => false end.

Definition refresh_calls (t : list event) : nat :=
  List.length (filter is_refresh t).

(** A polling log with a fixed delay [d]: turns of "wait [d], re-fetch",
    closed at most by one more wait whose re-fetch was never issued. *)
Inductive paced (d : Z) : list event -> Prop :=
| paced_done : paced d []
| paced_wait : paced d [Sleep d]
| paced_turn e t : is_refresh e = true -> paced d t -> paced d (Sleep d :: e :: t).

Definition M (A : Type) : Type := list event * res A.

Definition ret {A} (a : A) : M A := ([], Ok a).

Definition throw {A} (e : exn) : M A := ([], Throw e).

Definition bind {A B} (m : M A) (k : A -> M B) : M B :=
  match m with
  | (t, Ok a) => let (t', r) := k a in (t ++ t', r)
  | (t, Throw e) => (t, Throw e)
  end.

(** A value or exception computed without any call. *)
Definition lift {A} (r : res A) : M A := ([], r).

(** [await] of an external call: log it, then take the remote's answer. *)
Definition call {A} (e : event) (answer : res A) : M A := ([e], answer).

(** [await new Promise((resolve) => setTimeout(resolve, ms))] *)
Definition sleep (ms : Z) : M unit := ([Sleep ms], Ok tt).

(** [try { body } catch (error) { return handler(error) }] around a whole
    handler: the outcome is always a response. *)
Definition try_catch {R} (body : M R) (handler : exn -> R) : list event * R :=
  match body with
  | (t, Ok r) => (t, r)
  | (t, Throw e) => (t, handler e)
  end.

(** [error instanceof Error ? error.message : fallback] *)
Definition message_or (fallback : string) (e : exn) : string :=
  match e with JsError m => m | NonError => fallback end.

Module Notations.
  Notation "x <- m ;; k" := (bind m (fun x => k))
    (at level 61, m at next level, right associativity).
  Notation "m ;;; k" := (bind m (fun _ => k))
    (at level 61, right associativity).
End Notations.

End Eff.
Export Eff.
Import Eff.Notations.

(** ** Responses *)

Module Http.

(** The [file] object of a successful upload response. *)
Record FileInfo := {
  info_name : option string;
  info_uri : option string;
  info_mimeType : option string;
  info_sizeBytes : option string;
  info_displayName : option string
}.

Record Citation := {
  segment : string;
  cite_confidenceScore : option Q
}.

Record Slide := {
  slide_title : string;
  bulletPoints : list string;
  notes : string;
  slide_citations : option (list string)
}.

Record SlideContent := {
  deck_title : string;
  deck_subtitle : string;
  slides : list Slide
}.

Record SlidesInfo := {
  presentationId : string;
  presentationUrl : string;
  slideCount : nat;
  slides_title : string;
  preview : list Slide
}.

(** The JSON bodies the handlers send. *)
Inductive Body : Type :=
| ErrorBody (error : string)
| UploadOk (file : FileInfo)
| ImportOk (importedFile : jsval) (operationName : option string)
| DeletedOk (message : string)
| QueryOk (answer : string) (citations : list Citation) (slides : option SlidesInfo).

Record Response := { status : Z; body : Body }.

(** [NextResponse.json(body, { status })]; the status defaults to 200. *)
Definition json (st : Z) (b : Body) : Response := {| status := st; body := b |}.

Definition is_success (r : Response) : bool :=
  match body r with ErrorBody _ => false | _ => true end.

(** A request turned down on its input alone: status 400, an error body,
    and nothing at all in the log. *)
Definition rejected (outcome : list event * Response) : Prop :=
  fst outcome = []
  /\ status (snd outcome) = 400%Z
  /\ is_success (snd outcome) = false.

End Http.
Export Http.

(** ** POST /api/upload *)

Module Upload.

Record WebFile := { web_name : string; web_type : string; web_bytes : string }.

(** [FormDataEntryValue]: a file or a plain string field. *)
Inductive FormEntry := EntryFile (f : WebFile) | EntryString (s : string).

Record Request := { formData : res (list (string * FormEntry)) }.

Definition maxAttempts : nat := 30.

(** How the [while] loop is left: it falls through to the code after it, or
    the handler returns from inside it. *)
Inductive loop_exit : Type :=
| Fell (currentFile : GFile) (attempts : nat)
| Returned (r : Response).

(** [currentFile.error?.message || "File processing failed"] *)
Definition failure_message (f : GFile) : string :=
  or_else
    match file_error f with Some e => status_message e | None => None end
    "File processing failed".

Definition file_info (f : GFile) : FileInfo :=
  {| info_name := file_name f;
     info_uri := file_uri f;
     info_mimeType := file_mimeType f;
     info_sizeBytes := file_sizeBytes f;
     info_displayName := file_displayName f |}.

Definition on_error (e : exn) : Response :=
  json 500 (ErrorBody (message_or "Failed to upload file" e)).

Section Handler.

(** [ai.files.upload] and the [n]-th [ai.files.get] of the request. *)
Variable files_upload : Blob -> string -> string -> res GFile.
Variable files_get : nat -> string -> res GFile.
(** The engine's TypeError text for calling a method a value lacks. *)
Variable not_a_function : string -> string.

(** [while (currentFile.state === "PROCESSING" && attempts < maxAttempts)].
    [fuel] bounds the turns of the loop; [maxAttempts - attempts] turns
    are always enough ([UploadFacts.upload_loop_fuel]), so the first
    branch of the [match] is never taken from [poll_and_respond]. *)
Fixpoint poll_loop (fuel attempts : nat) (currentFile : GFile) : M loop_exit :=
  if state_is PROCESSING currentFile && (attempts <? maxAttempts)%nat then
    match fuel with
    | O => ret (Fell currentFile attempts)
    | S fuel' =>
      sleep 1000 ;;;
      fileName <- match file_name currentFile with
                  | Some n => if nonempty n then ret n
                              else throw (JsError "File name not found")
                  | None => throw (JsError "File name not found")
                  end ;;
      let answer := files_get attempts fileName in
      currentFile <- call (FilesGet fileName answer) answer ;;
      let attempts := S attempts in
      if state_is FAILED currentFile then
        ret (Returned (json 500 (ErrorBody (failure_message currentFile))))
      else poll_loop fuel' attempts currentFile
    end
  else ret (Fell currentFile attempts).

(** Lines 58-76, the code after the loop. *)
Definition after_loop (out : loop_exit) : Response :=
  match out with
  | Returned r => r
  | Fell currentFile _ =>
    if negb (state_is ACTIVE currentFile) then
      json 500 (ErrorBody "File processing timeout")
    else json 200 (UploadOk (file_info currentFile))
  end.

(** Lines 34-76: from the upload's answer to the response. *)
Definition poll_and_respond (uploadResponse : GFile) : M Response :=
  out <- poll_loop maxAttempts 0 uploadResponse ;;
  ret (after_loop out).

(** One poll session: the polling part of the handler under its [catch]. *)
Definition poll_session (uploadResponse : GFile) : list event * Response :=
  try_catch (poll_and_respond uploadResponse) on_error.

Definition POST (request : Request) : list event * Response :=
  try_catch
    (form <- lift (formData request) ;;
     match lookup "file" form with
     | None => ret (json 400 (ErrorBody "No file provided"))
     | Some (EntryString s) =>
       if nonempty s then throw (JsError (not_a_function "file.arrayBuffer"))
       else ret (json 400 (ErrorBody "No file provided"))
     | Some (EntryFile file) =>
       let mime := if nonempty (web_type file) then web_type file
                   else "application/octet-stream" in
       let blob := {| blob_bytes := web_bytes file; blob_type := mime |} in
       uploadResponse <-
         call (FilesUpload blob (web_name file) mime)
              (files_upload blob (web_name file) mime) ;;
       poll_and_respond uploadResponse
     end)
    on_error.

(** *** The loop as a relation: one constructor per way through its body *)

Inductive runs : nat -> GFile -> list event -> res loop_exit -> Prop :=
| runs_exit attempts cur :
    state_is PROCESSING cur && (attempts <? maxAttempts)%nat = false ->
    runs attempts cur [] (Ok (Fell cur attempts))
| runs_nameless attempts cur :
    state_is PROCESSING cur && (attempts <? maxAttempts)%nat = true ->
    truthy_str (file_name cur) = false ->
    runs attempts cur [Sleep 1000] (Throw (JsError "File name not found"))
| runs_thrown attempts cur name e :
    state_is PROCESSING cur && (attempts <? maxAttempts)%nat = true ->
    file_name cur = Some name -> nonempty name = true ->
    files_get attempts name = Throw e ->
    runs attempts cur [Sleep 1000; FilesGet name (Throw e)] (Throw e)
| runs_failed attempts cur name next :
    state_is PROCESSING cur && (attempts <? maxAttempts)%nat = true ->
    file_name cur = Some name -> nonempty name = true ->
    files_get attempts name = Ok next ->
    state_is FAILED next = true ->
    runs attempts cur [Sleep 1000; FilesGet name (Ok next)]
         (Ok (Returned (json 500 (ErrorBody (failure_message next)))))
| runs_again attempts cur name next t out :
    state_is PROCESSING cur && (attempts <? maxAttempts)%nat = true ->
    file_name cur = Some name -> nonempty name = true ->
    files_get attempts name = Ok next ->
    state_is FAILED next = false ->
    runs (S attempts) next t out ->
    runs attempts cur (Sleep 1000 :: FilesGet name (Ok next) :: t) out.

(** How a session ended, read off the loop rather than off the response:
    the budget ran out on a file still PROCESSING, or the last re-fetch
    answered a FAILED file. *)
Definition budget_exhausted (initial : GFile) : Prop :=
  exists last,
    snd (poll_loop maxAttempts 0 initial) = Ok (Fell last maxAttempts)
    /\ state_is PROCESSING last = true.

(** The remote keeps answering a PROCESSING file that carries its name. *)
Definition always_pending : Prop :=
  forall k name, exists f,
    files_get k name = Ok f
    /\ state_is PROCESSING f = true
    /\ truthy_str (file_name f) = true.

Definition remote_failure (initial failed : GFile) : Prop :=
  state_is FAILED failed = true
  /\ exists t name,
       fst (poll_loop maxAttempts 0 initial) = t ++ [FilesGet name (Ok failed)].

End Handler.

End Upload.

(** ** POST /api/file-search-stores/[storeName]/import *)

Module ImportRoute.

(** The JSON body as parsed by [request.json()] and the route parameter. *)
Record Request := { json_body : res jsval; storeName : string }.

Definition maxAttempts : nat := 30.

Definition slash : ascii := "/"%char.

(** The longest prefix free of '/': what a greedy [[^/]*] consumes. *)
Fixpoint non_slash_run (s : string) : string :=
  match s with
  | EmptyString => EmptyString
  | String c rest =>
    if Ascii.eqb c slash then EmptyString else String c (non_slash_run rest)
  end.

Fixpoint drop (n : nat) (s : string) : string :=
  match n, s with
  | S n', String _ rest => drop n' rest
  | _, _ => s
  end.

(** The pattern [files\/[^/]+] tried at the very start of [s]. *)
Definition match_here (s : string) : option string :=
  if String.prefix "files/" s then
    let run := non_slash_run (drop 6 s) in
    if nonempty run then Some ("files/" ++ run)%string else None
  else None.

(** [s.match(/files\/[^/]+/)]: the leftmost start that matches; [None] is
    JavaScript's null, [Some m] is [match[0]]. *)
Fixpoint regex_match (s : string) : option string :=
  match match_here s with
  | Some m => Some m
  | None =>
    match s with
    | EmptyString => None
    | String _ rest => regex_match rest
    end
  end.

(** The same match told on the text rather than computed: [m] is "files/"
    and a non-empty run without '/', which stops at a '/' or at the end. *)
Fixpoint slash_free (s : string) : Prop :=
  match s with
  | EmptyString => True
  | String c rest => c <> slash /\ slash_free rest
  end.

Definition run_ends (post : string) : Prop :=
  post = EmptyString \/ exists rest, post = String slash rest.

Definition matches_here (s m : string) : Prop :=
  exists run post,
    s = ("files/" ++ run ++ post)%string
    /\ run <> EmptyString /\ slash_free run /\ run_ends post
    /\ m = ("files/" ++ run)%string.

(** [m] is the first match in [s]: it matches after some [pre], and the
    pattern matches at no earlier start. *)
Definition first_match (s m : string) : Prop :=
  exists pre suf,
    s = (pre ++ suf)%string
    /\ matches_here suf m
    /\ forall pre1 pre2 m',
         pre = (pre1 ++ pre2)%string -> pre2 <> EmptyString ->
         ~ matches_here (pre2 ++ suf) m'.

Definition on_error (e : exn) : Response :=
  json 500 (ErrorBody (message_or "Failed to import" e)).

Section Handler.

Variable decodeURIComponent : string -> res string.
(** [ai.fileSearchStores.importFile] and the [n]-th [ai.operations.get]. *)
Variable importFile : string -> jsval -> res Operation.
Variable operations_get : nat -> Operation -> res Operation.
(** Built-ins of the engine: [JSON.stringify], [String] on a value that
    is not a string, and the text of its TypeErrors. *)
Variable JSON_stringify : jsval -> jsval.
Variable String_of : jsval -> string.
Variable cannot_destructure : string -> string.
Variable not_a_function : string -> string.

(** Lines 21-27.  A string has [includes] and [match]; an array has
    [includes] only; any other value has neither. *)
Definition file_name_of (fileUri : jsval) : M jsval :=
  match fileUri with
  | JStr s =>
    if includes "/files/" s then
      match regex_match s with
      | Some m => ret (JStr m)
      | None => ret fileUri
      end
    else ret fileUri
  | JArr items =>
    if existsb (is_string "/files/") items then
      throw (JsError (not_a_function "fileUri.match"))
    else ret fileUri
  | _ => throw (JsError (not_a_function "fileUri.includes"))
  end.

(** Lines 58-63, the text given to [new Error]. *)
Definition error_message (error : jsval) : string :=
  match error with
  | JStr s => s
  | _ =>
    let message := prop "message" error in
    if truthy message then to_string String_of message
    else
      let serialised := JSON_stringify error in
      if truthy serialised then to_string String_of serialised
      else "Operation failed"
  end.

(** [while (!current.done && attempts < maxAttempts)]; the loop is left
    by falling through or by a throw.  [fuel] as in the upload poller. *)
Fixpoint poll_loop (fuel attempts : nat) (current : Operation)
  : M (Operation * nat) :=
  if negb (truthy_flag (op_done current)) && (attempts <? maxAttempts)%nat then
    match fuel with
    | O => ret (current, attempts)
    | S fuel' =>
      sleep 5000 ;;;
      let answer := operations_get attempts current in
      current <- call (OperationsGet current answer) answer ;;
      let attempts := S attempts in
      if truthy (op_error current) then
        throw (JsError (error_message (op_error current)))
      else poll_loop fuel' attempts current
    end
  else ret (current, attempts).

(** Lines 68-76, the code after the loop. *)
Definition after_loop (out : Operation * nat) : M Response :=
  let current := fst out in
  if negb (truthy_flag (op_done current)) then
    throw (JsError "Import timeout")
  else ret (json 200 (ImportOk (op_response current) (op_name current))).

(** Lines 44-76: from the import's answer to the response. *)
Definition poll_and_respond (operation : Operation) : M Response :=
  out <- poll_loop maxAttempts 0 operation ;;
  after_loop out.

Definition poll_session (operation : Operation) : list event * Response :=
  try_catch (poll_and_respond operation) on_error.

Definition POST (request : Request) : list event * Response :=
  try_catch
    (body <- lift (json_body request) ;;
     fileUri <- (if destructurable body then ret (prop "fileUri" body)
                 else throw (JsError (cannot_destructure "fileUri"))) ;;
     if negb (truthy fileUri) then
       ret (json 400 (ErrorBody "fileUri is required"))
     else
       fileName <- file_name_of fileUri ;;
       decodedStoreName <- lift (decodeURIComponent (storeName request)) ;;
       operation <-
         call (StoresImportFile decodedStoreName fileName)
              (importFile decodedStoreName fileName) ;;
       poll_and_respond operation)
    on_error.

Inductive runs : nat -> Operation -> list event -> res (Operation * nat) -> Prop :=
| runs_exit attempts cur :
    negb (truthy_flag (op_done cur)) && (attempts <? maxAttempts)%nat = false ->
    runs attempts cur [] (Ok (cur, attempts))
| runs_thrown attempts cur e :
    negb (truthy_flag (op_done cur)) && (attempts <? maxAttempts)%nat = true ->
    operations_get attempts cur = Throw e ->
    runs attempts cur [Sleep 5000; OperationsGet cur (Throw e)] (Throw e)
| runs_failed attempts cur next :
    negb (truthy_flag (op_done cur)) && (attempts <? maxAttempts)%nat = true ->
    operations_get attempts cur = Ok next ->
    truthy (op_error next) = true ->
    runs attempts cur [Sleep 5000; OperationsGet cur (Ok next)]
         (Throw (JsError (error_message (op_error next))))
| runs_again attempts cur next t out :
    negb (truthy_flag (op_done cur)) && (attempts <? maxAttempts)%nat = true ->
    operations_get attempts cur = Ok next ->
    truthy (op_error next) = false ->
    runs (S attempts) next t out ->
    runs attempts cur (Sleep 5000 :: OperationsGet cur (Ok next) :: t) out.

Definition budget_exhausted (initial : Operation) : Prop :=
  exists last,
    snd (poll_loop maxAttempts 0 initial) = Ok (last, maxAttempts)
    /\ truthy_flag (op_done last) = false.

(** The remote keeps answering an operation that is neither done nor
    carries an error. *)
Definition always_pending : Prop :=
  forall k arg, exists op,
    operations_get k arg = Ok op
    /\ truthy_flag (op_done op) = false
    /\ truthy (op_error op) = false.

Definition remote_failure (initial failed : Operation) : Prop :=
  truthy (op_error failed) = true
  /\ exists t arg,
       fst (poll_loop maxAttempts 0 initial) = t ++ [OperationsGet arg (Ok failed)].

End Handler.

End ImportRoute.

(** ** DELETE /api/files *)

Module FilesRoute.

(** The query string as [new URL(request.url).searchParams] holds it. *)
Record Request := { searchParams : list (string * string) }.

Definition on_error (e : exn) : Response :=
  json 500 (ErrorBody (message_or "Failed to delete file" e)).

Section Handler.

Variable files_delete : string -> res unit.

Definition DELETE (request : Request) : list event * Response :=
  try_catch
    (let fileName := lookup "name" (searchParams request) in
     match fileName with
     | Some name =>
       if nonempty name then
         call (FilesDelete name) (files_delete name) ;;;
         ret (json 200 (DeletedOk "File deleted successfully"))
       else ret (json 400 (ErrorBody "File name is required"))
     | None => ret (json 400 (ErrorBody "File name is required"))
     end)
    on_error.

End Handler.

End FilesRoute.

(** ** DELETE on the store collection route *)

Module StoresRoute.

Record Request := { searchParams : list (string * string) }.

Definition on_error (e : exn) : Response :=
  json 500 (ErrorBody (message_or "Failed to delete store" e)).

Section Handler.

Variable stores_delete : string -> bool -> res unit.

Definition DELETE (request : Request) : list event * Response :=
  try_catch
    (let storeName := lookup "name" (searchParams request) in
     let force :=
       match lookup "force" (searchParams request) with
       | Some v => String.eqb v "true"
       | None => false
       end in
     match storeName with
     | Some name =>
       if nonempty name then
         call (StoresDelete name force) (stores_delete name force) ;;;
         ret (json 200 (DeletedOk "File Search Store deleted successfully"))
       else ret (json 400 (ErrorBody "Store name is required"))
     | None => ret (json 400 (ErrorBody "Store name is required"))
     end)
    on_error.

End Handler.

End StoresRoute.

(** ** POST on the query route *)

Module Query.

Record Request := { json_body : res jsval }.

(** [process.env], as far as the handler reads it. *)
Record Env := {
  GEMINI_API_KEY : option string;
  GOOGLE_APPLICATION_CREDENTIALS : option string
}.

Definition newline : string := String (ascii_of_nat 10) EmptyString.

(** What the template literal appends to the query, line by line. *)
Definition instructions : list string :=
    ["";
     "";
     "## Instructions";
     "You MUST format your response using markdown syntax. Follow these rules:";
     "1. Use headings (# for main title, ## for sections, ### for subsections)";
     "2. Use **bold** for emphasis and key terms";
     "3. Use bullet lists with - (not *) for better compatibility";
     "4. Use numbered lists (1., 2., 3.) for sequential items";
     "5. Use code blocks with ```language for code examples";
     "6. Use [link text](url) for links";
     "7. Separate sections with blank lines";
     "8. Do NOT use plain text paragraphs - structure everything with markdown";
     "";
     "Example format:";
     "## Main Topic";
     "Brief introduction paragraph.";
     "";
     "### Section 1";
     "- **Key Point 1**: Description";
     "- **Key Point 2**: Description";
     "";
     "### Section 2";
     "1. First item";
     "2. Second item";
     "";
     "Return your response in markdown format only."].

(** `${query}` followed by the formatting instructions. *)
Definition markdownQuery (query : string) : string :=
  (query ++ String.concat newline instructions)%string.

(** [chunk.web?.uri] and [chunk.retrievedContext?.uri] *)
Definition web_uri (chunk : GroundingChunk) : option string :=
  match web chunk with Some w => uri w | None => None end.

Definition context_uri (chunk : GroundingChunk) : option string :=
  match retrievedContext chunk with Some r => uri r | None => None end.

(** [chunk.web?.uri || chunk.retrievedContext?.uri || ""] *)
Definition segment_of (chunk : GroundingChunk) : string :=
  or_else (web_uri chunk) (or_else (context_uri chunk) "").

Definition citation_of (chunk : GroundingChunk) : Citation :=
  {| segment := segment_of chunk;
     cite_confidenceScore := confidenceScore chunk |}.

(** Lines 272-284. *)
Definition citations_of (result : GenerateContentResponse) : list Citation :=
  let candidates := match candidates result with Some l => l | None => [] end in
  let groundingMetadata :=
    match candidates with
    | first :: _ => groundingMetadata first
    | [] => None
    end in
  match groundingMetadata with
  | Some metadata =>
    match groundingChunks metadata with
    | Some chunks => map citation_of chunks
    | None => []
    end
  | None => []
  end.

(** The grounding chunks of the first candidate; none where a level of
    the answer is missing. *)
Definition first_candidate_chunks (result : GenerateContentResponse)
  : list GroundingChunk :=
  match candidates result with
  | Some (first :: _) =>
    match groundingMetadata first with
    | Some metadata =>
      match groundingChunks metadata with Some chunks => chunks | None => [] end
    | None => []
    end
  | _ => []
  end.

(** The source locator in the words of the specification, with "present"
    read as "defined": the web URI if present, otherwise the
    retrieved-context URI, otherwise the empty string. *)
Definition locator_as_specified (chunk : GroundingChunk) : string :=
  match web_uri chunk with
  | Some u => u
  | None => match context_uri chunk with Some u => u | None => EmptyString end
  end.

(** [Array.isArray(x) ? x : [x]] *)
Definition as_array (v : jsval) : list jsval :=
  match v with JArr items => items | _ => [v] end.

Definition on_error (e : exn) : Response :=
  json 500 (ErrorBody (message_or "Failed to process query" e)).

Section Handler.

Variable env : Env.
(** [ai.models.generateContent] by model, contents and store names. *)
Variable generateContent :
  string -> string -> list jsval -> res GenerateContentResponse.
(** The two slide helpers of the file work against the generation and
    the presentation services; the handler only sequences them, so they
    are taken as they come: any log, any result, any exception. *)
Variable generateSlideContentFromQuery : jsval -> list jsval -> M SlideContent.
Variable createGoogleSlides : SlideContent -> M string.
Variable String_of : jsval -> string.
Variable cannot_destructure : string -> string.

Definition POST (request : Request) : list event * Response :=
  try_catch
    (body <- lift (json_body request) ;;
     if negb (destructurable body) then
       throw (JsError (cannot_destructure "query"))
     else
     let query := prop "query" body in
     let fileSearchStoreNames := prop "fileSearchStoreNames" body in
     let createSlides := prop "createSlides" body in
     if negb (truthy query) then
       ret (json 400 (ErrorBody "Query is required"))
     else if negb (truthy fileSearchStoreNames)
             || is_zero (length_of fileSearchStoreNames) then
       ret (json 400 (ErrorBody "At least one fileSearchStoreName is required"))
     else
       let storeNames := as_array fileSearchStoreNames in
       let contents := markdownQuery (to_string String_of query) in
       result <-
         call (GenerateContent "gemini-2.5-flash" contents storeNames)
              (generateContent "gemini-2.5-flash" contents storeNames) ;;
       if negb (truthy_str (text result)) then
         ret (json 500 (ErrorBody "No response from Gemini"))
       else
         let text := match text result with Some t => t | None => "" end in
         let citations := citations_of result in
         if truthy createSlides then
           if negb (truthy_str (GEMINI_API_KEY env)) then
             ret (json 500 (ErrorBody "GEMINI_API_KEY environment variable missing"))
           else if negb (truthy_str (GOOGLE_APPLICATION_CREDENTIALS env)) then
             ret (json 500 (ErrorBody
               "GOOGLE_APPLICATION_CREDENTIALS environment variable missing"))
           else
             slideData <- generateSlideContentFromQuery query storeNames ;;
             presentationId <- createGoogleSlides slideData ;;
             let presentationUrl :=
               ("https://docs.google.com/presentation/d/"
                  ++ presentationId ++ "/edit")%string in
             ret (json 200 (QueryOk text citations (Some
               {| presentationId := presentationId;
                  presentationUrl := presentationUrl;
                  slideCount := List.length (slides slideData);
                  slides_title := deck_title slideData;
                  preview := firstn 2 (slides slideData) |})))
         else ret (json 200 (QueryOk text citations None)))
    on_error.

End Handler.

End Query.

(** ** Concrete remotes and requests used to run the handlers *)

Module Scenarios.

Definition file (name : option string) (st : FileState) (err : option string)
  : GFile :=
  {| file_name := name;
     file_displayName := Some "report.pdf";
     file_mimeType := Some "application/pdf";
     file_sizeBytes := Some "1024";
     file_uri := Some "https://generativelanguage.googleapis.com/v1beta/files/abc";
     file_state := Some st;
     file_error :=
       match err with
       | Some m => Some {| status_message := Some m; status_code := None |}
       | None => None
       end |}.

Definition processing : GFile := file (Some "files/abc") PROCESSING None.
Definition active : GFile := file (Some "files/abc") ACTIVE None.
Definition failed (detail : string) : GFile :=
  file (Some "files/abc") FAILED (Some detail).
Definition nameless : GFile := file None PROCESSING None.

(** A remote that answers every [files.get] with the same file. *)
Definition always (f : GFile) : nat -> string -> res GFile := fun _ _ => Ok f.

(** Scenario A of the specification: pending, pending, done. *)
Definition done_on_third_call : nat -> string -> res GFile :=
  fun k _ => match k with 0 | 1 => Ok processing | _ => Ok active end%nat.

Definition operation (done : option bool) (error response : jsval) : Operation :=
  {| op_name := Some "fileSearchStores/kb/operations/op1";
     op_done := done;
     op_error := error;
     op_response := response |}.

Definition running : Operation := operation None JUndefined JUndefined.
Definition finished : Operation :=
  operation (Some true) JUndefined (JObj [("documentName", JStr "doc1")]).
Definition broken (detail : string) : Operation :=
  operation (Some true) (JObj [("message", JStr detail)]) JUndefined.
(** An error reported on an operation that is not marked done. *)
Definition stalled (detail : string) : Operation :=
  operation (Some false) (JObj [("message", JStr detail)]) JUndefined.

Definition answers (op : Operation) : nat -> Operation -> res Operation :=
  fun _ _ => Ok op.

(** Stand-ins for the engine built-ins, which no scenario below reaches
    with a value that is not a string. *)
Definition no_json : jsval -> jsval := fun _ => JUndefined.
Definition no_text : jsval -> string := fun _ => EmptyString.
Definition type_error : string -> string :=
  fun what => (what ++ " is not a function")%string.

(** A grounding chunk whose web URI is there but empty. *)
Definition blank_web_chunk : GroundingChunk :=
  {| web := Some {| uri := Some EmptyString |};
     retrievedContext := Some {| uri := Some "fileSearchStores/kb/documents/doc1" |};
     confidenceScore := None |}.

Definition web_chunk : GroundingChunk :=
  {| web := Some {| uri := Some "https://example.org/a" |};
     retrievedContext := None;
     confidenceScore := Some (87 # 100)%Q |}.

Definition grounded (chunks : list GroundingChunk) : GenerateContentResponse :=
  {| text := Some "## Answer";
     candidates :=
       Some [{| groundingMetadata := Some {| groundingChunks := Some chunks |} |}] |}.

Definition generates (result : GenerateContentResponse)
  : string -> string -> list jsval -> res GenerateContentResponse :=
  fun _ _ _ => Ok result.

Definition no_env : Query.Env :=
  {| Query.GEMINI_API_KEY := None; Query.GOOGLE_APPLICATION_CREDENTIALS := None |}.

(** Slide helpers that fail at once; no scenario asks for slides. *)
Definition no_deck : jsval -> list jsval -> M SlideContent :=
  fun _ _ => throw NonError.
Definition no_slides : SlideContent -> M string := fun _ => throw NonError.

Definition query_request (fields : list (string * jsval)) : Query.Request :=
  {| Query.json_body := Ok (JObj fields) |}.

Definition import_request (fileUri : string) : ImportRoute.Request :=
  {| ImportRoute.json_body := Ok (JObj [("fileUri", JStr fileUri)]);
     ImportRoute.storeName := "fileSearchStores/kb" |}.

(** Stand-in for [decodeURIComponent] on names without escapes. *)
Definition decoded : string -> res string := fun s => Ok s.

Definition imports (op : Operation) : string -> jsval -> res Operation :=
  fun _ _ => Ok op.

End Scenarios.

(** ** Measures on a log *)

Module Budget.

(** The time a handler spends in its own timers, in milliseconds. *)
Fixpoint slept (log : list event) : Z :=
  match log with
  | [] => 0
  | Sleep ms :: rest => ms + slept rest
  | _ :: rest => slept rest
  end.

(** The calls to [ai.files.upload] in a log. *)
Definition upload_calls (log : list event) : nat :=
  List.length
    (filter (fun e => match e with FilesUpload _ _ _ => true | _ => false end) log).

(** The calls to [ai.fileSearchStores.importFile] in a log. *)
Definition import_calls (log : list event) : nat :=
  List.length
    (filter (fun e => match e with StoresImportFile _ _ => true | _ => false end)
       log).

End Budget.
Export Budget.

(** ** The slide helpers of the query route

    [generateSlideContentFromQuery] and [createGoogleSlides] talk to the
    generation and the presentation services.  Their catch blocks look
    at the [code] of what they caught, so an exception is kept here with
    its code, and the helpers log the calls of their own. *)

Module Deck.

(** What a catch block can see of the value it caught: whether it is an
    [Error], and then its [message] and its [code] ([JUndefined] where it
    has none). *)
Inductive thrown := AnError (code : jsval) (message : string) | NotAnError.

Inductive outcome (A : Type) : Type :=
| Returns (a : A)
| Raises (t : thrown).
Arguments Returns {A} a.
Arguments Raises {A} t.

(** [new Error(message)], and a TypeError of the engine: neither has a code. *)
Definition Error (message : string) : thrown := AnError JUndefined message.

(** [error instanceof Error ? error.message : fallback] *)
Definition message_of (fallback : string) (error : thrown) : string :=
  match error with AnError _ m => m | NotAnError => fallback end.

(** [errorObj = error instanceof Error ? error : {}] and then
    ["code" in errorObj ? errorObj.code : undefined] *)
Definition code_of (error : thrown) : jsval :=
  match error with AnError c _ => c | NotAnError => JUndefined end.

(** [v === n] for a number literal [n] *)
Definition is_number (n : Z) (v : jsval) : bool :=
  match v with JNum q => Qeq_bool q (inject_Z n) | _ => false end.

(** [Array.isArray(v)] *)
Definition is_array (v : jsval) : bool :=
  match v with JArr _ => true | _ => false end.

(** One entry of the [requests] array of a batch update. *)
Inductive SlidesRequest : Type :=
| CreateSlide (objectId : string) (insertionIndex : nat)
              (predefinedLayout : string)
| InsertText (objectId : string) (insertionIndex : nat) (text : jsval).

(** The calls of the helpers.  [GenerateJson] is [models.generateContent]
    with the file search tool and the fixed configuration of the helper
    (JSON response type, temperature 0.1, at most 4096 output tokens). *)
Inductive remote : Type :=
| GenerateJson (model contents : string) (fileSearchStoreNames : list jsval)
| PresentationsCreate (title : jsval)
| PresentationsBatchUpdate (presentationId : option string)
                           (requests : list SlidesRequest).

Definition T (A : Type) : Type := list remote * outcome A.

Definition ret {A} (a : A) : T A := ([], Returns a).

Definition throw {A} (t : thrown) : T A := ([], Raises t).

Definition bind {A B} (m : T A) (k : A -> T B) : T B :=
  match m with
  | (t, Returns a) => let (t', r) := k a in (t ++ t', r)
  | (t, Raises e) => (t, Raises e)
  end.

Definition lift {A} (o : outcome A) : T A := ([], o).

Definition call {A} (c : remote) (answer : outcome A) : T A := ([c], answer).

(** [try { body } catch (error) { handler }] inside a function: the
    handler may itself throw. *)
Definition try_catch {A} (body : T A) (handler : thrown -> T A) : T A :=
  match body with
  | (t, Returns a) => (t, Returns a)
  | (t, Raises e) => let (t', r) := handler e in (t ++ t', r)
  end.

Declare Scope deck_scope.
Notation "x <- m ;; k" := (bind m (fun x => k))
  (at level 61, m at next level, right associativity) : deck_scope.
Notation "m ;;; k" := (bind m (fun _ => k))
  (at level 61, right associativity) : deck_scope.
Local Open Scope deck_scope.

(** The double quote, and a text between two of them. *)
Definition dq : string := String (ascii_of_nat 34) EmptyString.

Definition quoted (s : string) : string := (dq ++ s ++ dq)%string.

(** The JSON shape both prompts end in, line by line. *)
Definition deck_format : list string :=
  ["Return VALID JSON only - no markdown or explanations:";
   "{";
   "  " ++ quoted "title" ++ ": " ++ quoted "Presentation Title" ++ ",";
   "  " ++ quoted "subtitle" ++ ": " ++ quoted "Subtitle" ++ ",";
   "  " ++ quoted "slides" ++ ": [";
   "    {";
   "      " ++ quoted "title" ++ ": " ++ quoted "Slide Title" ++ ",";
   "      " ++ quoted "bulletPoints" ++ ": [" ++ quoted "Point 1" ++ ", "
     ++ quoted "Point 2" ++ ", " ++ quoted "Point 3" ++ "],";
   "      " ++ quoted "notes" ++ ": "
     ++ quoted "Speaker notes with citations" ++ ",";
   "      " ++ quoted "citations" ++ ": [" ++ quoted "doc1.pdf" ++ ", "
     ++ quoted "doc2.pdf" ++ "]";
   "    }";
   "  ]";
   "}"]%string.

(** Lines 23-39, the prompt of the query route. *)
Definition query_prompt (query : string) : string :=
  String.concat Query.newline
    ([("Based on the following query: " ++ quoted query)%string;
      "";
      "Create a 5-slide presentation using the file search documents to answer this query.";
      ""]
     ++ deck_format).

(** The decimal text of an array index, as [`${index}`] gives it. *)
Definition decimal (n : nat) : string :=
  NilEmpty.string_of_uint (Nat.to_uint n).

(** "• ": the bullet sign (U+2022, three bytes in UTF-8) and a space. *)
Definition bullet : string :=
  String (ascii_of_nat 226) (String (ascii_of_nat 128)
    (String (ascii_of_nat 162) " ")).

Definition slideId (index : nat) : string := ("slide_" ++ decimal index)%string.

(** The object ids of the slides a batch creates, in order. *)
Definition created_ids (requests : list SlidesRequest) : list string :=
  flat_map (fun r => match r with
                     | CreateSlide id _ _ => [id]
                     | InsertText _ _ _ => []
                     end) requests.

(** The positions the batch asks for, one per created slide, in order. *)
Definition insertion_indices (requests : list SlidesRequest) : list nat :=
  flat_map (fun r => match r with
                     | CreateSlide _ i _ => [i]
                     | InsertText _ _ _ => []
                     end) requests.

(** A thrown TypeError or [new Error]: an Error without a code. *)
Definition plain (t : thrown) : Prop := exists message, t = Error message.

(** Every text insertion of [requests] is at position 0 of a placeholder
    of a slide created before it, in [before] or in [requests]. *)
Definition texts_follow_slides (before requests : list SlidesRequest) : Prop :=
  forall pre oid i text post,
    requests = pre ++ InsertText oid i text :: post ->
    i = 0
    /\ exists id,
         In id (created_ids (before ++ pre))
         /\ (oid = (id ++ ".p1-t1")%string \/ oid = (id ++ ".p2")%string).

Section Helpers.

(** [genAI.models.generateContent] by model, contents and store names;
    [JSON.parse] ([None] where it throws); [presentations.create] by
    title, answering the new presentation's id if it has one;
    [presentations.batchUpdate]; and the engine's [String] on a value
    that is not a string and the texts of its TypeErrors. *)
Variable generateContent :
  string -> string -> list jsval -> outcome GenerateContentResponse.
Variable JSON_parse : string -> option jsval.
Variable presentations_create : jsval -> outcome (option string).
Variable presentations_batchUpdate :
  option string -> list SlidesRequest -> outcome unit.
Variable String_of : jsval -> string.
Variable cannot_read : jsval -> string -> string.
Variable not_a_function : string -> string.

(** [v.key] as an expression of its own: reading a property of null or
    undefined throws a TypeError. *)
Definition member (key : string) (v : jsval) : outcome jsval :=
  match v with
  | JUndefined | JNull => Raises (Error (cannot_read v key))
  | _ => Returns (prop key v)
  end.

(** Lines 75-85. *)
Definition validated (jsonContent : jsval) : outcome jsval :=
  match member "title" jsonContent with
  | Raises t => Raises t
  | Returns title =>
    if negb (truthy title)
       || negb (is_array (prop "slides" jsonContent))
       || is_zero (length_of (prop "slides" jsonContent))
    then Raises (Error
           "Incomplete slide structure - missing title or slides array")
    else Returns jsonContent
  end.

(** Lines 41-98 with the prompt already built: the two routes differ in
    the prompt and the store names only. *)
Definition generate_deck (prompt : string) (fileSearchStoreNames : list jsval)
  : T jsval :=
  try_catch
    (result <-
       call (GenerateJson "gemini-2.5-flash" prompt fileSearchStoreNames)
            (generateContent "gemini-2.5-flash" prompt fileSearchStoreNames) ;;
     match text result with
     | Some t =>
       if nonempty t then
         jsonContent <-
           match JSON_parse t with
           | Some v => ret v
           | None =>
             throw (Error
               "Invalid JSON response from Gemini - check prompt structure")
           end ;;
         lift (validated jsonContent)
       else throw (Error "No response from Gemini")
     | None => throw (Error "No response from Gemini")
     end)
    (fun error =>
       let errorMessage := message_of "Unknown Gemini error" error in
       throw (Error ("Gemini generation failed: " ++ errorMessage))).

(** Lines 18-99. *)
Definition generateSlideContentFromQuery
           (query : jsval) (fileSearchStoreNames : list jsval) : T jsval :=
  generate_deck (query_prompt (to_string String_of query)) fileSearchStoreNames.

(** Lines 156-163: [slide.bulletPoints.map((p) => `• ${p}`).join("\n")];
    only an array has [map]. *)
Definition bulletText (slide : jsval) : outcome string :=
  match prop "bulletPoints" slide with
  | JArr points =>
    Returns (String.concat Query.newline
               (map (fun p => (bullet ++ to_string String_of p)%string) points))
  | JUndefined => Raises (Error (cannot_read JUndefined "map"))
  | JNull => Raises (Error (cannot_read JNull "map"))
  | _ => Raises (Error (not_a_function "slide.bulletPoints.map"))
  end.

(** Lines 135-164, the body of the [forEach] callback: the three requests
    of one content slide. *)
Definition slide_requests (index : nat) (slide : jsval)
  : outcome (list SlidesRequest) :=
  let slideId := slideId index in
  match member "title" slide with
  | Raises t => Raises t
  | Returns title =>
    match bulletText slide with
    | Raises t => Raises t
    | Returns bulletText =>
      Returns [CreateSlide slideId (index + 1) "TITLE_AND_BODY";
               InsertText (slideId ++ ".p1-t1") 0 title;
               InsertText (slideId ++ ".p2") 0 (JStr bulletText)]
    end
  end.

(** [forEach((slide, index) => ...)] from [index] on. *)
Fixpoint content_requests (index : nat) (slides : list jsval)
  : outcome (list SlidesRequest) :=
  match slides with
  | [] => Returns []
  | slide :: rest =>
    match slide_requests index slide with
    | Raises t => Raises t
    | Returns first =>
      match content_requests (S index) rest with
      | Raises t => Raises t
      | Returns others => Returns (first ++ others)
      end
    end
  end.

(** Lines 125-164: the title slide, then the content slides; only an
    array has [forEach]. *)
Definition batch_requests (slideData : jsval) : outcome (list SlidesRequest) :=
  match prop "slides" slideData with
  | JArr slides =>
    match content_requests 0 slides with
    | Raises t => Raises t
    | Returns content => Returns (CreateSlide "title_slide" 0 "TITLE" :: content)
    end
  | JUndefined => Raises (Error (cannot_read JUndefined "forEach"))
  | JNull => Raises (Error (cannot_read JNull "forEach"))
  | _ => Raises (Error (not_a_function "slideData.slides.forEach"))
  end.

(** Lines 173-195, the catch block. *)
Definition slides_failure (error : thrown) : thrown :=
  let errorCode := code_of error in
  let errorMessage := message_of "Unknown error" error in
  if is_number 403 errorCode then
    Error "Permission denied - check service account scopes"
  else if is_number 429 errorCode then
    Error "Rate limit exceeded - try again later"
  else if is_number 400 errorCode then
    Error "Invalid request - check slide structure"
  else Error ("Slides creation failed: " ++ errorMessage).

(** Lines 101-196.  The id is [presentation.data.presentationId!]: the
    assertion checks nothing, so an absent id goes on as it is. *)
Definition createGoogleSlides (slideData : jsval) : T (option string) :=
  try_catch
    (title <- lift (member "title" slideData) ;;
     presentationId <-
       call (PresentationsCreate title) (presentations_create title) ;;
     requests <- lift (batch_requests slideData) ;;
     call (PresentationsBatchUpdate presentationId requests)
          (presentations_batchUpdate presentationId requests) ;;;
     ret presentationId)
    (fun error => throw (slides_failure error)).

End Helpers.

End Deck.

(** ** POST /api/slides

    The slides route builds a deck on a topic with the same two helpers
    (its copies differ from the query route's in the prompt and in the
    store, which is taken from the environment). *)

Module SlidesRoute.

Import Deck.
Local Open Scope deck_scope.

(** [process.env], as far as the route reads it. *)
Record Env := {
  GEMINI_API_KEY : option string;
  GEMINI_FILE_SEARCH_STORE : option string;
  GOOGLE_APPLICATION_CREDENTIALS : option string;
  NODE_ENV : option string
}.

Record Request := { json_body : outcome jsval }.

(** The three shapes of body the route sends: [{ error }] for a request or
    an environment it turns down; the success body; and the body of the
    catch block, which in development also carries the stack and the
    code of what was caught. *)
Inductive Body : Type :=
| Refused (error : string)
| Created (presentationId : option string) (presentationUrl : string)
          (slideCount : jsval) (title : jsval) (preview : jsval)
| Failed (error : string) (development : option (jsval * jsval)).

Record Response := { status : Z; body : Body }.

Definition json (st : Z) (b : Body) : Response := {| status := st; body := b |}.

(** Lines 20-34 of the route's file, the prompt on a topic. *)
Definition topic_prompt (topic : string) : string :=
  String.concat Query.newline
    ([("Create a 5-slide presentation about " ++ quoted topic
         ++ " using the file search documents.")%string;
      ""]
     ++ deck_format).

Section Handler.

Variable env : Env.
Variable generateContent :
  string -> string -> list jsval -> outcome GenerateContentResponse.
Variable JSON_parse : string -> option jsval.
Variable presentations_create : jsval -> outcome (option string).
Variable presentations_batchUpdate :
  option string -> list SlidesRequest -> outcome unit.
(** Engine built-ins: [String.prototype.trim], [String] on a value that
    is not a string, the text a template literal gives an absent id, the
    [stack] of an Error, and the texts of TypeErrors. *)
Variable trim : string -> string.
Variable String_of : jsval -> string.
Variable absent : string.
Variable stack_of : thrown -> jsval.
Variable cannot_read : jsval -> string -> string.
Variable not_a_function : string -> string.
Variable cannot_destructure : string -> string.

(** Lines 16-94: the store is [process.env.GEMINI_FILE_SEARCH_STORE!]. *)
Definition generateSlideContent (topic : jsval) : T jsval :=
  generate_deck generateContent JSON_parse cannot_read
    (topic_prompt (to_string String_of topic))
    [match GEMINI_FILE_SEARCH_STORE env with
     | Some store => JStr store
     | None => JUndefined
     end].

(** [!topic?.trim()]: only a string has [trim]. *)
Definition topic_missing (topic : jsval) : outcome bool :=
  match topic with
  | JUndefined | JNull => Returns true
  | JStr s => Returns (negb (nonempty (trim s)))
  | _ => Raises (Error (not_a_function "topic?.trim"))
  end.

(** [slideData.slides.length] *)
Definition slide_count (slideData : jsval) : outcome jsval :=
  match prop "slides" slideData with
  | JUndefined => Raises (Error (cannot_read JUndefined "length"))
  | JNull => Raises (Error (cannot_read JNull "length"))
  | slides => Returns (length_of slides)
  end.

(** [slideData.slides.slice(0, 2)]: arrays and strings have [slice]. *)
Definition first_two (slideData : jsval) : outcome jsval :=
  match prop "slides" slideData with
  | JArr slides => Returns (JArr (firstn 2 slides))
  | JStr s => Returns (JStr (String.substring 0 2 s))
  | JUndefined => Raises (Error (cannot_read JUndefined "slice"))
  | JNull => Raises (Error (cannot_read JNull "slice"))
  | _ => Raises (Error (not_a_function "slideData.slides.slice"))
  end.

(** Lines 261-277, the catch block. *)
Definition on_error (error : thrown) : Response :=
  let errorMessage := message_of "Unknown error" error in
  json 500
    (Failed errorMessage
       (match NODE_ENV env with
        | Some mode =>
          if String.eqb mode "development" then
            Some (match error with
                  | AnError _ _ => stack_of error
                  | NotAnError => JUndefined
                  end,
                  code_of error)
          else None
        | None => None
        end)).

(** Lines 193-279. *)
Definition POST (request : Request) : list remote * Response :=
  match
    (sent <- lift (json_body request) ;;
     topic <- (if destructurable sent then ret (prop "topic" sent)
               else throw (Error (cannot_destructure "topic"))) ;;
     missing <- lift (topic_missing topic) ;;
     if missing then ret (json 400 (Refused "Topic is required"))
     else if negb (truthy_str (GEMINI_API_KEY env)) then
       ret (json 500 (Refused "GEMINI_API_KEY environment variable missing"))
     else if negb (truthy_str (GEMINI_FILE_SEARCH_STORE env)) then
       ret (json 500
              (Refused "GEMINI_FILE_SEARCH_STORE environment variable missing"))
     else if negb (truthy_str (GOOGLE_APPLICATION_CREDENTIALS env)) then
       ret (json 500
              (Refused
                 "GOOGLE_APPLICATION_CREDENTIALS environment variable missing"))
     else
       slideData <- generateSlideContent topic ;;
       lift (slide_count slideData) ;;;
       presentationId <-
         createGoogleSlides presentations_create presentations_batchUpdate
           String_of cannot_read not_a_function slideData ;;
       let presentationUrl :=
         ("https://docs.google.com/presentation/d/"
            ++ match presentationId with Some id => id | None => absent end
            ++ "/edit")%string in
       slideCount <- lift (slide_count slideData) ;;
       title <- lift (member cannot_read "title" slideData) ;;
       preview <- lift (first_two slideData) ;;
       ret (json 200 (Created presentationId presentationUrl slideCount
                              title preview)))
  with
  | (log, Returns response) => (log, response)
  | (log, Raises error) => (log, on_error error)
  end.

End Handler.

End SlidesRoute.

(** Decks and services for the worked cases of the slide helpers. *)

Module DeckScenarios.

Import Deck.

Definition slide (title : string) (points : list string) : jsval :=
  JObj [("title", JStr title);
        ("bulletPoints", JArr (map JStr points));
        ("notes", JStr "See the report.")].

(** A slide as the model may answer it: no bullet points at all. *)
Definition bare_slide : jsval := JObj [("title", JStr "Summary")].

Definition deck (slides : list jsval) : jsval :=
  JObj [("title", JStr "Findings");
        ("subtitle", JStr "Quarterly review");
        ("slides", JArr slides)].

Definition answers_text (t : string)
  : string -> string -> list jsval -> outcome GenerateContentResponse :=
  fun _ _ _ => Returns {| text := Some t; candidates := None |}.

(** A parser that knows one text. *)
Definition parses (t : string) (v : jsval) : string -> option jsval :=
  fun s => if String.eqb s t then Some v else None.

Definition creates (id : string) : jsval -> outcome (option string) :=
  fun _ => Returns (Some id).

Definition updates : option string -> list SlidesRequest -> outcome unit :=
  fun _ _ => Returns tt.

(** The presentation service turning a batch down with a numeric code. *)
Definition refuses (code : Z) (message : string)
  : option string -> list SlidesRequest -> outcome unit :=
  fun _ _ => Raises (AnError (JNum (inject_Z code)) message).

Definition cannot_read : jsval -> string -> string :=
  fun _ key => ("Cannot read properties of undefined (reading '" ++ key ++ "')")%string.

End DeckScenarios.

(** ** The components that call the handlers

    [FileUpload] (src/components/FileUpload.tsx) posts a picked file to
    the upload route and then the uploaded file's URI to the import
    route; [QueryInterface] posts the typed query to the query route.  A
    handler of a component takes what the component was rendered with
    (its props and state), and gives what it did to the outside and the
    state it leaves. *)

Module Client.

(** [response.ok]: a status from 200 to 299. *)
Definition ok (r : Response) : bool :=
  ((200 <=? status r) && (status r <=? 299))%Z.

(** [data.error] of a parsed response body. *)
Definition error_of (data : Body) : option string :=
  match data with ErrorBody e => Some e | _ => None end.

(** What a component does that the outside can observe: the requests it
    sends, the call of the [onUploadSuccess] callback of its parent and
    the reset of the file input. *)
Inductive action : Type :=
| PostUpload (form : list (string * Upload.FormEntry))
| PostImport (storeSegment : string) (body : jsval)
| PostQuery (body : jsval)
| OnUploadSuccess
| ResetInput.

Definition C (A : Type) : Type := list action * res A.

Definition ret {A} (a : A) : C A := ([], Ok a).

Definition throw {A} (e : exn) : C A := ([], Throw e).

Definition bind {A B} (m : C A) (k : A -> C B) : C B :=
  match m with
  | (t, Ok a) => let (t', r) := k a in (t ++ t', r)
  | (t, Throw e) => (t, Throw e)
  end.

Definition lift {A} (r : res A) : C A := ([], r).

(** [await fetch(...)] followed by [await response.json()]: the request
    is logged; a failing connection or a body that is no JSON throws. *)
Definition fetch_json (a : action) (answer : res Response) : C Response :=
  ([a], answer).

Declare Scope client_scope.
Notation "x <- m ;; k" := (bind m (fun x => k))
  (at level 61, m at next level, right associativity) : client_scope.
Local Open Scope client_scope.

(** *** FileUpload *)


(** [JSON.stringify({ fileUri })]: a key whose value is undefined is left
    out. *)
Definition import_body (fileUri : option string) : jsval :=
  match fileUri with
  | Some u => JObj [("fileUri", JStr u)]
  | None => JObj []
  end.

Definition success_message (file : Upload.WebFile) : string :=
  ("File " ++ Deck.quoted (Upload.web_name file)
     ++ " uploaded and imported successfully!")%string.

Section FileUpload.

Variable fetch_upload : list (string * Upload.FormEntry) -> res Response.
Variable fetch_import : string -> jsval -> res Response.
Variable encodeURIComponent : string -> res string.
(** What the parent's [onUploadSuccess] does when it is called: it
    returns, or it throws. *)
Variable onUploadSuccess : res unit.
Variable cannot_read : string -> string.

(** [uploadData.file.uri]: only the success body has a [file]. *)
Definition uploaded_uri (uploadData : Body) : res (option string) :=
  match uploadData with
  | UploadOk file => Ok (info_uri file)
  | _ => Throw (JsError (cannot_read "uri"))
  end.

(** Lines 32-65, the two requests of the [try] block; they yield the text
    for [setSuccess]. *)
Definition requests (file : Upload.WebFile) (store : string) : C string :=
  let formData := [("file", Upload.EntryFile file)] in
  uploadResponse <-
    fetch_json (PostUpload formData) (fetch_upload formData) ;;
  let uploadData := body uploadResponse in
  if negb (ok uploadResponse) then
    throw (JsError (or_else (error_of uploadData) "Upload failed"))
  else
    segment <- lift (encodeURIComponent store) ;;
    fileUri <- lift (uploaded_uri uploadData) ;;
    importResponse <-
      fetch_json (PostImport segment (import_body fileUri))
                 (fetch_import segment (import_body fileUri)) ;;
    let importData := body importResponse in
    if negb (ok importResponse) then
      throw (JsError (or_else (error_of importData)
                              "Failed to import file into store"))
    else ret (success_message file).



End FileUpload.

(** *** QueryInterface *)

Record QueryView := {
  query : string;
  loading : bool;
  response : option Body;
  query_error : option string
}.

(** The body of the query request; [createSlides] is a state without a
    setter and stays at its initial [false]. *)
Definition query_body (query store : string) : jsval :=
  JObj [("query", JStr query);
        ("fileSearchStoreNames", JArr [JStr store]);
        ("createSlides", JBool false)].

Section QueryInterface.

(** [String.prototype.trim] *)
Variable trim : string -> string.
Variable fetch_query : jsval -> res Response.

(** Lines 175-217 of the component's file. *)
Definition handleSubmit (fileSearchStoreName : option string)
           (view : QueryView) : list action * QueryView :=
  if negb (nonempty (trim (query view))) then
    ([], {| query := query view; loading := loading view;
            response := response view;
            query_error := Some "Please enter a query" |})
  else if negb (truthy_str fileSearchStoreName) then
    ([], {| query := query view; loading := loading view;
            response := response view;
            query_error := Some "Please select a File Search Store" |})
  else
    let store := match fileSearchStoreName with
                 | Some s => s
                 | None => EmptyString
                 end in
    let sent := query_body (query view) store in
    let outcome :=
      res <- fetch_json (PostQuery sent) (fetch_query sent) ;;
      let data := body res in
      if negb (ok res) then
        throw (JsError (or_else (error_of data) "Query failed"))
      else ret data in
    match outcome with
    | (log, Ok data) =>
      (log, {| query := query view; loading := false;
               response := Some data; query_error := None |})
    | (log, Throw err) =>
      (log, {| query := query view; loading := false;
               response := None;
               query_error := Some (message_or "Query failed" err) |})
    end.

End QueryInterface.

(** *** The routes behind the requests

    A request of a component is answered by the route's handler run on
    the body that was sent.  [route] is how the framework hands the path
    segment of the store to the import handler. *)


Definition import_request (route : string -> string)
           (segment : string) (sent : jsval) : ImportRoute.Request :=
  {| ImportRoute.json_body := Ok sent;
     ImportRoute.storeName := route segment |}.


Definition query_route env generateContent generateSlideContentFromQuery
           createGoogleSlides String_of cannot_destructure
  : jsval -> res Response :=
  fun sent =>
    Ok (snd (Query.POST env generateContent generateSlideContentFromQuery
               createGoogleSlides String_of cannot_destructure
               {| Query.json_body := Ok sent |})).

End Client.

(** A picked file, and a run of the upload component over both routes in
    which the upload and the import succeed and the parent's callback
    throws. *)

Module ClientScenarios.

Import Scenarios.



End ClientScenarios.

(** * Theorems *)

Module EffFacts.

Lemma paced_refresh_after_wait d t :
  paced d t ->
  forall t1 e t2, t = t1 ++ e :: t2 -> is_refresh e = true ->
  exists t0, t1 = t0 ++ [Sleep d].
Proof.
  induction 1 as [| |e' t' He' Ht' IH]; intros t1 e t2 Heq He.
  - destruct t1; discriminate.
  - destruct t1 as [|x [|y t1]]; simpl in Heq; try discriminate.
    injection Heq as <- _. discriminate.
  - destruct t1 as [|x [|y t1]]; simpl in Heq.
    + injection Heq as <- _. discriminate.
    + injection Heq as <- _ _. now exists [].
    + injection Heq as <- <- Heq.
      destruct (IH _ _ _ Heq He) as [t0 ->].
      now exists (Sleep d :: e' :: t0).
Qed.

Lemma paced_same_delay d t :
  paced d t -> forall ms, In (Sleep ms) t -> ms = d.
Proof.
  induction 1 as [| |e' t' He' Ht' IH]; intros ms Hin.
  - destruct Hin.
  - destruct Hin as [[= ->]|[]]. reflexivity.
  - destruct Hin as [[= ->]|[->|Hin]]; auto. discriminate.
Qed.

Lemma paced_only_waits_and_refreshes d t :
  paced d t -> forall e, In e t -> e = Sleep d \/ is_refresh e = true.
Proof.
  induction 1 as [| |e' t' He' Ht' IH]; intros e Hin.
  - destruct Hin.
  - destruct Hin as [<-|[]]. now left.
  - destruct Hin as [<-|[<-|Hin]]; auto.
Qed.

End EffFacts.

(** ** The upload poller *)

Module UploadFacts.
Import Upload EffFacts.

Lemma state_is_unique s s' f :
  state_is s f = true -> state_is s' f = true -> s = s'.
Proof.
  unfold state_is. destruct (file_state f) as [x|]; [|discriminate].
  destruct x, s, s'; simpl; congruence.
Qed.

Section Session.

Variable files_get : nat -> string -> res GFile.

Local Abbreviation loop := (poll_loop files_get).
Local Abbreviation runs := (Upload.runs files_get).

(** The executable loop follows the relation as soon as the fuel covers
    what is left of the attempt budget. *)
Lemma upload_loop_runs fuel : forall attempts cur,
  (maxAttempts - attempts <= fuel)%nat ->
  runs attempts cur (fst (loop fuel attempts cur)) (snd (loop fuel attempts cur)).
Proof.
  induction fuel as [|fuel IH]; intros attempts cur Hfuel; simpl;
    destruct (state_is PROCESSING cur && (attempts <? maxAttempts)%nat) eqn:Hguard;
    try (now constructor).
  - exfalso. apply andb_prop in Hguard as [_ Hlt].
    apply Nat.ltb_lt in Hlt. lia.
  - destruct (file_name cur) as [name|] eqn:Hname;
      [destruct (nonempty name) eqn:Hne|]; simpl;
      try (apply runs_nameless; [assumption | now rewrite Hname]).
    destruct (files_get attempts name) as [next|e] eqn:Hget; simpl;
      [|now apply runs_thrown].
    destruct (state_is FAILED next) eqn:Hfailed; simpl;
      [now apply runs_failed|].
    assert (Hrec : (maxAttempts - S attempts <= fuel)%nat) by lia.
    apply IH with (cur := next) in Hrec.
    destruct (loop fuel (S attempts) next) as [t out].
    now apply runs_again.
Qed.

(** Totality: past the budget, more fuel changes nothing. *)
Lemma upload_loop_fuel fuel : forall attempts cur,
  (maxAttempts - attempts <= fuel)%nat ->
  loop fuel attempts cur = loop (maxAttempts - attempts) attempts cur.
Proof.
  induction fuel as [|fuel IH]; intros attempts cur Hfuel.
  - now replace (maxAttempts - attempts)%nat with 0%nat by lia.
  - destruct (Nat.ltb_spec attempts maxAttempts) as [Hlt|Hge].
    + replace (maxAttempts - attempts)%nat
        with (S (maxAttempts - S attempts)) by lia.
      assert (Hrec := fun next => IH (S attempts) next ltac:(lia)).
      remember (maxAttempts - S attempts)%nat as left eqn:Hleft.
      cbn [poll_loop]. unfold bind, ret, throw, sleep, call.
      destruct (state_is PROCESSING cur && _); [|reflexivity].
      destruct (file_name cur) as [name|]; [|reflexivity].
      destruct (nonempty name); [|reflexivity].
      destruct (files_get attempts name) as [next|e]; [|reflexivity].
      destruct (state_is FAILED next); [reflexivity|].
      now rewrite Hrec.
    + replace (maxAttempts - attempts)%nat with 0%nat by lia.
      simpl. apply Nat.ltb_ge in Hge. rewrite Hge, andb_false_r.
      reflexivity.
Qed.

Lemma upload_session_runs initial :
  runs 0 initial (fst (loop maxAttempts 0 initial))
       (snd (loop maxAttempts 0 initial)).
Proof. apply upload_loop_runs. lia. Qed.

(** The code after the loop performs no call: a session's log is the
    loop's, and its response is read off the loop's exit. *)
Lemma upload_session_log initial :
  fst (poll_session files_get initial) = fst (loop maxAttempts 0 initial).
Proof.
  unfold poll_session, poll_and_respond, bind, ret, try_catch.
  destruct (loop maxAttempts 0 initial) as [t [out|e]]; simpl;
    [now rewrite app_nil_r | reflexivity].
Qed.

Lemma upload_session_response initial :
  snd (poll_session files_get initial) =
  match snd (loop maxAttempts 0 initial) with
  | Ok out => after_loop out
  | Throw e => on_error e
  end.
Proof.
  unfold poll_session, poll_and_respond, bind, ret, try_catch.
  now destruct (loop maxAttempts 0 initial) as [t [out|e]].
Qed.

(** A FAILED answer ends the loop on the spot. *)
Lemma upload_failed_stops attempts cur t out :
  runs attempts cur t out ->
  forall t1 name f t2,
    t = t1 ++ FilesGet name (Ok f) :: t2 ->
    state_is FAILED f = true ->
    t2 = [] /\ out = Ok (Returned (json 500 (ErrorBody (failure_message f)))).
Proof.
  induction 1 as [a c Hg|a c Hg Hn|a c n e Hg Hn Hne Hget
                 |a c n next Hg Hn Hne Hget Hf
                 |a c n next t out Hg Hn Hne Hget Hf Hrun IH];
    intros t1 name f t2 Heq Hfailed.
  - destruct t1; discriminate.
  - destruct t1 as [|x [|y t1]]; discriminate.
  - destruct t1 as [|x [|y [|z t1]]]; discriminate.
  - destruct t1 as [|x [|y [|z t1]]]; try discriminate.
    injection Heq as _ _ <- <-. now split.
  - destruct t1 as [|x [|y t1]]; simpl in Heq; try discriminate.
    + injection Heq as _ _ <- _. congruence.
    + injection Heq as _ _ Heq. eauto.
Qed.

Lemma upload_calls_bounded attempts cur t out :
  runs attempts cur t out ->
  (refresh_calls t <= maxAttempts - attempts)%nat.
Proof.
  induction 1 as [a c Hg|a c Hg Hn|a c n e Hg Hn Hne Hget
                 |a c n next Hg Hn Hne Hget Hf
                 |a c n next t out Hg Hn Hne Hget Hf Hrun IH];
    try (apply andb_prop in Hg as [_ Hlt]; apply Nat.ltb_lt in Hlt);
    unfold refresh_calls in *; cbn [filter is_refresh length] in *; lia.
Qed.

Lemma upload_paced attempts cur t out :
  runs attempts cur t out -> paced 1000 t.
Proof.
  induction 1; repeat constructor; assumption.
Qed.

(** The only response issued from inside the loop is the failure one. *)
Lemma upload_returned attempts cur t out :
  runs attempts cur t out ->
  forall r, out = Ok (Returned r) ->
  exists f, r = json 500 (ErrorBody (failure_message f)).
Proof.
  induction 1; intros r Hout; try discriminate; eauto.
  injection Hout as <-. eauto.
Qed.

(** Where the file the loop hands over comes from. *)
Lemma upload_fell attempts cur t out :
  runs attempts cur t out ->
  forall last n, out = Ok (Fell last n) ->
  (last = cur /\ t = [])
  \/ exists t0 name, t = t0 ++ [FilesGet name (Ok last)].
Proof.
  induction 1 as [a c Hg|a c Hg Hn|a c n e Hg Hn Hne Hget
                 |a c n next Hg Hn Hne Hget Hf
                 |a c n next t out Hg Hn Hne Hget Hf Hrun IH];
    intros last k Hout; try discriminate.
  - injection Hout as <- <-. now left.
  - right. destruct (IH _ _ Hout) as [[-> ->]|(t0 & name & ->)].
    + now exists [Sleep 1000], n.
    + now exists (Sleep 1000 :: FilesGet n (Ok next) :: t0), name.
Qed.

Lemma upload_pending attempts cur t out :
  always_pending files_get ->
  runs attempts cur t out ->
  (attempts <= maxAttempts)%nat ->
  state_is PROCESSING cur = true ->
  truthy_str (file_name cur) = true ->
  refresh_calls t = (maxAttempts - attempts)%nat
  /\ exists last, out = Ok (Fell last maxAttempts)
                  /\ state_is PROCESSING last = true.
Proof.
  intros Hremote.
  induction 1 as [a c Hg|a c Hg Hn|a c n e Hg Hn Hne Hget
                 |a c n next Hg Hn Hne Hget Hf
                 |a c n next t out Hg Hn Hne Hget Hf Hrun IH];
    intros Hle Hproc Hnamed;
    try (destruct (Hremote a n) as (f & Hf' & Hpf & Hnf));
    try congruence.
  - rewrite Hproc in Hg. apply Nat.ltb_ge in Hg.
    assert (a = maxAttempts) as -> by lia.
    split; [reflexivity|]. now exists c.
  - assert (f = next) as -> by congruence.
    now discriminate (state_is_unique _ _ _ Hpf Hf).
  - assert (f = next) as -> by congruence.
    apply andb_prop in Hg as [_ Hlt]. apply Nat.ltb_lt in Hlt.
    destruct IH as [Hcalls Hlast]; auto.
    split; [|exact Hlast].
    change (S (refresh_calls t) = (maxAttempts - a)%nat). lia.
Qed.

(** A file that is ACTIVE from the start is answered at once. *)
Lemma upload_initially_active initial :
  state_is ACTIVE initial = true ->
  poll_session files_get initial
  = ([], json 200 (UploadOk (file_info initial))).
Proof.
  intros Hactive. unfold poll_session, poll_and_respond. simpl.
  destruct (state_is PROCESSING initial) eqn:Hproc.
  - discriminate (state_is_unique _ _ _ Hproc Hactive).
  - simpl. now rewrite Hactive.
Qed.

End Session.

End UploadFacts.

(** ** The import poller *)

Module ImportFacts.
Import ImportRoute EffFacts.

Section Session.

Variable operations_get : nat -> Operation -> res Operation.
Variable JSON_stringify : jsval -> jsval.
Variable String_of : jsval -> string.

Local Abbreviation loop := (poll_loop operations_get JSON_stringify String_of).
Local Abbreviation runs := (ImportRoute.runs operations_get JSON_stringify String_of).
Local Abbreviation session := (poll_session operations_get JSON_stringify String_of).
Local Abbreviation detail := (error_message JSON_stringify String_of).

Lemma import_loop_runs fuel : forall attempts cur,
  (maxAttempts - attempts <= fuel)%nat ->
  runs attempts cur (fst (loop fuel attempts cur)) (snd (loop fuel attempts cur)).
Proof.
  induction fuel as [|fuel IH]; intros attempts cur Hfuel;
    cbn [poll_loop]; unfold bind, ret, throw, sleep, call;
    destruct (negb _ && (attempts <? maxAttempts)%nat) eqn:Hguard;
    try (now constructor).
  - exfalso. apply andb_prop in Hguard as [_ Hlt].
    apply Nat.ltb_lt in Hlt. lia.
  - destruct (operations_get attempts cur) as [next|e] eqn:Hget;
      [|now apply runs_thrown].
    destruct (truthy (op_error next)) eqn:Hfailed;
      [now apply runs_failed|].
    assert (Hrec : (maxAttempts - S attempts <= fuel)%nat)
      by (apply andb_prop in Hguard as [_ Hlt]; apply Nat.ltb_lt in Hlt; lia).
    apply IH with (cur := next) in Hrec.
    destruct (loop fuel (S attempts) next) as [t out].
    now apply runs_again.
Qed.

Lemma import_loop_fuel fuel : forall attempts cur,
  (maxAttempts - attempts <= fuel)%nat ->
  loop fuel attempts cur = loop (maxAttempts - attempts) attempts cur.
Proof.
  induction fuel as [|fuel IH]; intros attempts cur Hfuel.
  - now replace (maxAttempts - attempts)%nat with 0%nat by lia.
  - destruct (Nat.ltb_spec attempts maxAttempts) as [Hlt|Hge].
    + replace (maxAttempts - attempts)%nat
        with (S (maxAttempts - S attempts)) by lia.
      assert (Hrec := fun next => IH (S attempts) next ltac:(lia)).
      remember (maxAttempts - S attempts)%nat as left eqn:Hleft.
      cbn [poll_loop]. unfold bind, ret, throw, sleep, call.
      destruct (negb _ && _); [|reflexivity].
      destruct (operations_get attempts cur) as [next|e]; [|reflexivity].
      destruct (truthy (op_error next)); [reflexivity|].
      now rewrite Hrec.
    + replace (maxAttempts - attempts)%nat with 0%nat by lia.
      cbn [poll_loop]. apply Nat.ltb_ge in Hge.
      rewrite Hge, andb_false_r. reflexivity.
Qed.

Lemma import_session_runs initial :
  runs 0 initial (fst (loop maxAttempts 0 initial))
       (snd (loop maxAttempts 0 initial)).
Proof. apply import_loop_runs. lia. Qed.

Lemma import_session_log initial :
  fst (session initial) = fst (loop maxAttempts 0 initial).
Proof.
  unfold poll_session, poll_and_respond, after_loop, bind, ret, throw,
    try_catch.
  destruct (loop maxAttempts 0 initial) as [t [out|e]]; simpl;
    [|reflexivity].
  destruct (negb _); simpl; now rewrite app_nil_r.
Qed.

Lemma import_session_response initial :
  snd (session initial) =
  match snd (loop maxAttempts 0 initial) with
  | Ok out => snd (try_catch (after_loop out) on_error)
  | Throw e => on_error e
  end.
Proof.
  unfold poll_session, poll_and_respond, after_loop, bind, ret, throw,
    try_catch.
  destruct (loop maxAttempts 0 initial) as [t [out|e]]; simpl;
    [|reflexivity].
  now destruct (negb _).
Qed.

(** An answer carrying an error ends the loop on the spot. *)
Lemma import_failed_stops attempts cur t out :
  runs attempts cur t out ->
  forall t1 arg f t2,
    t = t1 ++ OperationsGet arg (Ok f) :: t2 ->
    truthy (op_error f) = true ->
    t2 = [] /\ out = Throw (JsError (detail (op_error f))).
Proof.
  induction 1 as [a c Hg|a c e Hg Hget|a c next Hg Hget Hf
                 |a c next t out Hg Hget Hf Hrun IH];
    intros t1 arg f t2 Heq Hfailed.
  - destruct t1; discriminate.
  - destruct t1 as [|x [|y [|z t1]]]; discriminate.
  - destruct t1 as [|x [|y [|z t1]]]; try discriminate.
    injection Heq as _ _ <- <-. now split.
  - destruct t1 as [|x [|y t1]]; simpl in Heq; try discriminate.
    + injection Heq as _ _ <- _. congruence.
    + injection Heq as _ _ Heq. eauto.
Qed.

Lemma import_calls_bounded attempts cur t out :
  runs attempts cur t out ->
  (refresh_calls t <= maxAttempts - attempts)%nat.
Proof.
  induction 1 as [a c Hg|a c e Hg Hget|a c next Hg Hget Hf
                 |a c next t out Hg Hget Hf Hrun IH];
    try (apply andb_prop in Hg as [_ Hlt]; apply Nat.ltb_lt in Hlt);
    unfold refresh_calls in *; cbn [filter is_refresh length] in *; lia.
Qed.

Lemma import_paced attempts cur t out :
  runs attempts cur t out -> paced 5000 t.
Proof.
  induction 1; repeat constructor; assumption.
Qed.

Lemma import_fell attempts cur t out :
  runs attempts cur t out ->
  forall last n, out = Ok (last, n) ->
  (last = cur /\ t = [])
  \/ exists t0 arg, t = t0 ++ [OperationsGet arg (Ok last)].
Proof.
  induction 1 as [a c Hg|a c e Hg Hget|a c next Hg Hget Hf
                 |a c next t out Hg Hget Hf Hrun IH];
    intros last k Hout; try discriminate.
  - injection Hout as <- <-. now left.
  - right. destruct (IH _ _ Hout) as [[-> ->]|(t0 & arg & ->)].
    + now exists [Sleep 5000], c.
    + now exists (Sleep 5000 :: OperationsGet c (Ok next) :: t0), arg.
Qed.

Lemma import_pending attempts cur t out :
  always_pending operations_get ->
  runs attempts cur t out ->
  (attempts <= maxAttempts)%nat ->
  truthy_flag (op_done cur) = false ->
  refresh_calls t = (maxAttempts - attempts)%nat
  /\ exists last, out = Ok (last, maxAttempts)
                  /\ truthy_flag (op_done last) = false.
Proof.
  intros Hremote.
  induction 1 as [a c Hg|a c e Hg Hget|a c next Hg Hget Hf
                 |a c next t out Hg Hget Hf Hrun IH];
    intros Hle Hpending;
    try (destruct (Hremote a c) as (f & Hf' & Hpf & Hnf));
    try congruence.
  - rewrite Hpending in Hg. apply Nat.ltb_ge in Hg.
    assert (a = maxAttempts) as -> by lia.
    split; [reflexivity|]. now exists c.
  - assert (f = next) as -> by congruence.
    apply andb_prop in Hg as [_ Hlt]. apply Nat.ltb_lt in Hlt.
    destruct IH as [Hcalls Hlast]; auto.
    split; [|exact Hlast].
    change (S (refresh_calls t) = (maxAttempts - a)%nat). lia.
Qed.

(** An operation that is done from the start is answered at once, with
    its response and name; whether it carries an error is not looked at. *)
Lemma import_initially_done initial :
  truthy_flag (op_done initial) = true ->
  session initial
  = ([], json 200 (ImportOk (op_response initial) (op_name initial))).
Proof.
  intros Hdone. unfold poll_session, poll_and_respond, after_loop. simpl.
  rewrite Hdone. simpl. now rewrite Hdone.
Qed.

End Session.

End ImportFacts.

(** ** The pattern [files\/[^/]+] *)

Module RegexFacts.
Import ImportRoute.

Lemma append_assoc (a b c : string) :
  ((a ++ b) ++ c = a ++ (b ++ c))%string.
Proof. induction a as [|x a IH]; simpl; [reflexivity | now rewrite IH]. Qed.

Lemma prefix_drop p : forall s,
  String.prefix p s = true -> s = (p ++ drop (String.length p) s)%string.
Proof.
  induction p as [|x p IH]; intros [|y s] H; simpl in *;
    try reflexivity; try discriminate.
  destruct (ascii_dec x y) as [->|]; [|discriminate].
  now rewrite <- IH.
Qed.

Lemma non_slash_run_split s :
  exists post,
    s = (non_slash_run s ++ post)%string
    /\ slash_free (non_slash_run s) /\ run_ends post.
Proof.
  induction s as [|c s (post & Hs & Hfree & Hend)]; simpl.
  - exists EmptyString. repeat split. now left.
  - destruct (Ascii.eqb_spec c slash) as [->|Hc].
    + exists (String slash s). repeat split. right. now exists s.
    + exists post. simpl. rewrite <- Hs. repeat split; assumption.
Qed.

Lemma non_slash_run_exact run post :
  slash_free run -> run_ends post -> non_slash_run (run ++ post) = run.
Proof.
  induction run as [|c run IH]; simpl; intros Hfree Hend.
  - destruct Hend as [->|[rest ->]]; reflexivity.
  - destruct Hfree as [Hc Hfree].
    destruct (Ascii.eqb_spec c slash); [contradiction|].
    now rewrite IH.
Qed.

Lemma nonempty_true s : nonempty s = true <-> s <> EmptyString.
Proof. destruct s; simpl; split; congruence. Qed.

Lemma match_here_sound s m : match_here s = Some m -> matches_here s m.
Proof.
  unfold match_here. destruct (String.prefix "files/" s) eqn:Hp; [|discriminate].
  destruct (nonempty (non_slash_run (drop 6 s))) eqn:Hne; [|discriminate].
  intros [= <-]. apply prefix_drop in Hp. simpl String.length in Hp.
  destruct (non_slash_run_split (drop 6 s)) as (post & Hs & Hfree & Hend).
  exists (non_slash_run (drop 6 s)), post. repeat split; auto.
  - rewrite <- Hs. exact Hp.
  - now apply nonempty_true.
Qed.

Lemma match_here_complete s m : matches_here s m -> match_here s = Some m.
Proof.
  intros (run & post & -> & Hne & Hfree & Hend & ->).
  unfold match_here. simpl.
  replace (String.prefix "" (run ++ post)) with true
    by now destruct (run ++ post)%string.
  rewrite non_slash_run_exact by assumption.
  apply nonempty_true in Hne. now rewrite Hne.
Qed.

Lemma regex_match_unfold s :
  regex_match s =
  match match_here s with
  | Some m => Some m
  | None =>
    match s with
    | EmptyString => None
    | String _ rest => regex_match rest
    end
  end.
Proof. now destruct s. Qed.

Lemma regex_match_sound s : forall m,
  regex_match s = Some m -> first_match s m.
Proof.
  induction s as [|c s IH]; intros m; rewrite regex_match_unfold.
  - discriminate.
  - destruct (match_here (String c s)) as [m'|] eqn:Hhere.
    + intros [= <-]. exists EmptyString, (String c s).
      repeat split; [now apply match_here_sound|].
      intros [|x pre1] pre2 m2 Hpre Hne; simpl in Hpre; congruence.
    + intros Hrest. destruct (IH _ Hrest) as (pre & suf & -> & Hm & Hleft).
      exists (String c pre), suf. repeat split; [assumption|].
      intros [|x pre1] pre2 m2 Hpre Hne Hbad; simpl in Hpre.
      * subst pre2. apply match_here_complete in Hbad.
        simpl in Hbad. congruence.
      * injection Hpre as _ Hpre. exact (Hleft _ _ _ Hpre Hne Hbad).
Qed.

Lemma regex_match_complete s m : first_match s m -> regex_match s = Some m.
Proof.
  intros (pre & suf & -> & Hm & Hleft).
  induction pre as [|c pre IH]; rewrite regex_match_unfold.
  - simpl. now rewrite (match_here_complete _ _ Hm).
  - destruct (match_here (String c pre ++ suf)) as [m'|] eqn:Hhere.
    + exfalso. apply match_here_sound in Hhere.
      now apply (Hleft EmptyString (String c pre) m').
    + simpl. apply IH. intros pre1 pre2 m2 -> Hne.
      now apply (Hleft (String c pre1) pre2 m2).
Qed.

Lemma regex_match_none s :
  regex_match s = None <-> forall m, ~ first_match s m.
Proof.
  split.
  - intros Hnone m Hm. apply regex_match_complete in Hm. congruence.
  - intros Hno. destruct (regex_match s) as [m|] eqn:Hm; [|reflexivity].
    now apply regex_match_sound, Hno in Hm.
Qed.

End RegexFacts.

(** * The poll sessions *)

(** ** The turns of a poll session *)

Module PacingFacts.

(** A loop that is left by falling through has waited once per re-fetch. *)
Lemma upload_waits_match files_get attempts cur t out :
  Upload.runs files_get attempts cur t out ->
  forall last n, out = Ok (Upload.Fell last n) ->
  slept t = (1000 * Z.of_nat (refresh_calls t))%Z.
Proof.
  induction 1 as [a c Hg|a c Hg Hn|a c n e Hg Hn Hne Hget
                 |a c n next Hg Hn Hne Hget Hf
                 |a c n next t out Hg Hn Hne Hget Hf Hrun IH];
    intros last' n' Hout; try discriminate.
  - reflexivity.
  - specialize (IH last' n' Hout).
    change (slept (Sleep 1000 :: FilesGet n (Ok next) :: t))
      with (1000 + slept t)%Z.
    change (refresh_calls (Sleep 1000 :: FilesGet n (Ok next) :: t))
      with (S (refresh_calls t)).
    rewrite IH. lia.
Qed.

Lemma import_waits_match operations_get js so attempts cur t out :
  ImportRoute.runs operations_get js so attempts cur t out ->
  forall last n, out = Ok (last, n) ->
  slept t = (5000 * Z.of_nat (refresh_calls t))%Z.
Proof.
  induction 1 as [a c Hg|a c e Hg Hget|a c next Hg Hget Hf
                 |a c next t out Hg Hget Hf Hrun IH];
    intros last' n' Hout; try discriminate.
  - reflexivity.
  - specialize (IH last' n' Hout).
    change (slept (Sleep 5000 :: OperationsGet c (Ok next) :: t))
      with (5000 + slept t)%Z.
    change (refresh_calls (Sleep 5000 :: OperationsGet c (Ok next) :: t))
      with (S (refresh_calls t)).
    rewrite IH. lia.
Qed.

(** A session on a pending job opens with the wait and then the first
    re-fetch. *)
Lemma upload_first_turn files_get initial name :
  state_is PROCESSING initial = true ->
  file_name initial = Some name ->
  nonempty name = true ->
  exists rest,
    fst (Upload.poll_session files_get initial)
    = Sleep 1000 :: FilesGet name (files_get 0%nat name) :: rest.
Proof.
  intros Hproc Hname Hne.
  rewrite UploadFacts.upload_session_log.
  assert (Hruns := UploadFacts.upload_session_runs files_get initial).
  remember (fst (Upload.poll_loop files_get Upload.maxAttempts 0 initial))
    as log eqn:Hlog.
  remember (snd (Upload.poll_loop files_get Upload.maxAttempts 0 initial))
    as exit eqn:Hexit.
  clear Hlog Hexit.
  inversion Hruns as [a c Hg|a c Hg Hn|a c n e Hg Hn Hn' Hget
                     |a c n next Hg Hn Hn' Hget Hf
                     |a c n next t out Hg Hn Hn' Hget Hf Hrun]; subst.
  - rewrite Hproc in Hg. discriminate.
  - rewrite Hname in Hn. cbn in Hn. congruence.
  - assert (n = name) as -> by congruence. rewrite Hget. now eexists.
  - assert (n = name) as -> by congruence. rewrite Hget. now eexists.
  - assert (n = name) as -> by congruence. rewrite Hget. now eexists.
Qed.

Lemma import_first_turn operations_get js so initial :
  truthy_flag (op_done initial) = false ->
  exists rest,
    fst (ImportRoute.poll_session operations_get js so initial)
    = Sleep 5000
        :: OperationsGet initial (operations_get 0%nat initial) :: rest.
Proof.
  intros Hpending.
  rewrite ImportFacts.import_session_log.
  assert (Hruns := ImportFacts.import_session_runs operations_get js so
                     initial).
  remember (fst (ImportRoute.poll_loop operations_get js so
                   ImportRoute.maxAttempts 0 initial)) as log eqn:Hlog.
  remember (snd (ImportRoute.poll_loop operations_get js so
                   ImportRoute.maxAttempts 0 initial)) as exit eqn:Hexit.
  clear Hlog Hexit.
  inversion Hruns as [a c Hg|a c e Hg Hget|a c next Hg Hget Hf
                     |a c next t out Hg Hget Hf Hrun]; subst.
  - rewrite Hpending in Hg. discriminate.
  - rewrite Hget. now eexists.
  - rewrite Hget. now eexists.
  - rewrite Hget. now eexists.
Qed.

End PacingFacts.

Module PollerTheorems.
Import Scenarios.



(** C2 as stated fails.  Upload: a PROCESSING file without a name makes
    the loop throw "File name not found" after its first wait, before any
    re-fetch.  Import: an operation that is not done but carries an error
    is answered as a failure after one re-fetch. *)
Lemma pending_session_counterexample :
  ~ (forall files_get initial,
        state_is PROCESSING initial = true ->
        (forall k name, exists f,
            files_get k name = Ok f /\ state_is PROCESSING f = true) ->
        snd (Upload.poll_session files_get initial)
          = json 500 (ErrorBody "File processing timeout")
        /\ refresh_calls (fst (Upload.poll_session files_get initial)) = 30%nat)
  /\ ~ (forall operations_get JSON_stringify String_of initial,
          truthy_flag (op_done initial) = false ->
          (forall k arg, exists op,
              operations_get k arg = Ok op /\ truthy_flag (op_done op) = false) ->
          snd (ImportRoute.poll_session operations_get JSON_stringify
                 String_of initial)
            = json 500 (ErrorBody "Import timeout")
          /\ refresh_calls
               (fst (ImportRoute.poll_session operations_get JSON_stringify
                       String_of initial)) = 30%nat)
  /\ Upload.poll_session (always nameless) nameless
     = ([Sleep 1000], json 500 (ErrorBody "File name not found"))
  /\ ImportRoute.poll_session (answers (stalled "boom")) no_json no_text running
     = ([Sleep 5000; OperationsGet running (Ok (stalled "boom"))],
        json 500 (ErrorBody "boom")).
Proof.
  repeat split.
  - intros H.
    destruct (H (always nameless) nameless eq_refl
                (fun _ _ => ex_intro _ nameless (conj eq_refl eq_refl)))
      as [Hresp _].
    vm_compute in Hresp. discriminate.
  - intros H.
    destruct (H (answers (stalled "boom")) no_json no_text running eq_refl
                (fun _ _ => ex_intro _ (stalled "boom") (conj eq_refl eq_refl)))
      as [Hresp _].
    vm_compute in Hresp. discriminate.
Qed.

(** C2, amended.  If the job is pending at the start and every re-fetch
    answers a pending job (upload: state PROCESSING and a non-empty name;
    import: not done and no error), the session performs exactly 30
    re-fetches and answers the timeout error.  No session at all performs
    more than 30. *)
Theorem pending_session_times_out_after_30_calls :
  (forall files_get initial,
      state_is PROCESSING initial = true ->
      truthy_str (file_name initial) = true ->
      Upload.always_pending files_get ->
      snd (Upload.poll_session files_get initial)
        = json 500 (ErrorBody "File processing timeout")
      /\ refresh_calls (fst (Upload.poll_session files_get initial)) = 30%nat)
  /\ (forall operations_get JSON_stringify String_of initial,
        truthy_flag (op_done initial) = false ->
        ImportRoute.always_pending operations_get ->
        snd (ImportRoute.poll_session operations_get JSON_stringify String_of
               initial)
          = json 500 (ErrorBody "Import timeout")
        /\ refresh_calls
             (fst (ImportRoute.poll_session operations_get JSON_stringify
                     String_of initial)) = 30%nat)
  /\ (forall files_get initial,
        (refresh_calls (fst (Upload.poll_session files_get initial)) <= 30)%nat)
  /\ (forall operations_get JSON_stringify String_of initial,
        (refresh_calls
           (fst (ImportRoute.poll_session operations_get JSON_stringify
                   String_of initial)) <= 30)%nat).
Proof.
  split; [|split; [|split]].
  - intros files_get initial Hproc Hname Hremote.
    destruct (UploadFacts.upload_pending _ _ _ _ _ Hremote
                (UploadFacts.upload_session_runs files_get initial)
                (Nat.le_0_l _) Hproc Hname)
      as (Hcalls & last & Hout & Hlast).
    rewrite UploadFacts.upload_session_log, UploadFacts.upload_session_response, Hout.
    split; [|exact Hcalls].
    simpl. destruct (state_is ACTIVE last) eqn:Hactive; [|reflexivity].
    discriminate (UploadFacts.state_is_unique _ _ _ Hlast Hactive).
  - intros operations_get js so initial Hpending Hremote.
    destruct (ImportFacts.import_pending _ js so _ _ _ _ Hremote
                (ImportFacts.import_session_runs operations_get js so initial)
                (Nat.le_0_l _) Hpending)
      as (Hcalls & last & Hout & Hlast).
    rewrite ImportFacts.import_session_log, ImportFacts.import_session_response, Hout.
    split; [|exact Hcalls].
    unfold ImportRoute.after_loop. simpl. now rewrite Hlast.
  - intros files_get initial. rewrite UploadFacts.upload_session_log.
    apply (UploadFacts.upload_calls_bounded _ _ _ _ _
             (UploadFacts.upload_session_runs files_get initial)).
  - intros operations_get js so initial. rewrite ImportFacts.import_session_log.
    apply (ImportFacts.import_calls_bounded _ _ _ _ _ _ _
             (ImportFacts.import_session_runs operations_get js so initial)).
Qed.

Lemma pending_session_times_out_after_30_calls_witness :
  (snd (Upload.poll_session (always processing) processing)
     = json 500 (ErrorBody "File processing timeout")
   /\ refresh_calls (fst (Upload.poll_session (always processing) processing))
      = 30%nat)
  /\ (snd (ImportRoute.poll_session (answers running) no_json no_text running)
        = json 500 (ErrorBody "Import timeout")
      /\ refresh_calls
           (fst (ImportRoute.poll_session (answers running) no_json no_text
                   running)) = 30%nat).
Proof.
  destruct pending_session_times_out_after_30_calls as (HU & HI & _).
  split.
  - apply (HU (always processing) processing eq_refl eq_refl).
    intros k name. exists processing. repeat split.
  - apply (HI (answers running) no_json no_text running eq_refl).
    intros k arg. exists running. repeat split.
Defined.

(** C3, the defect.  An upload whose first answer is already FAILED skips
    the loop, so no re-fetch happens, but the code after the loop knows
    only ACTIVE and "anything else": the response is the timeout error,
    whatever failure detail the file carried. *)
Theorem initially_failed_upload_answered_as_timeout files_get initial :
  state_is FAILED initial = true ->
  Upload.poll_session files_get initial
    = ([], json 500 (ErrorBody "File processing timeout")).
Proof.
  intros Hfailed.
  unfold Upload.poll_session, Upload.poll_and_respond. simpl.
  destruct (state_is PROCESSING initial) eqn:Hproc.
  - discriminate (UploadFacts.state_is_unique _ _ _ Hproc Hfailed).
  - simpl. destruct (state_is ACTIVE initial) eqn:Hactive; [|reflexivity].
    discriminate (UploadFacts.state_is_unique _ _ _ Hactive Hfailed).
Qed.

Lemma initially_failed_upload_answered_as_timeout_witness :
  state_is FAILED (failed "unsupported file type") = true
  /\ Upload.poll_session (always processing) (failed "unsupported file type")
     = ([], json 500 (ErrorBody "File processing timeout")).
Proof.
  split; [reflexivity|].
  apply (initially_failed_upload_answered_as_timeout
           (always processing) (failed "unsupported file type")).
  reflexivity.
Defined.

(** A session ends in one of two ways: with the success response, which
    carries the last file/operation seen (the initial one, or the answer
    of the last re-fetch), and that one is not pending (ACTIVE, hence not
    PROCESSING; [done] true); or with a 500 error response.  A pending job
    is never answered as success.  Whether a done operation carries an
    error is not part of this. *)
Lemma success_is_never_pending :
  (forall files_get initial,
      let session := Upload.poll_session files_get initial in
      (exists last,
          snd session = json 200 (UploadOk (Upload.file_info last))
          /\ state_is ACTIVE last = true
          /\ state_is PROCESSING last = false
          /\ ((last = initial /\ fst session = [])
              \/ exists t0 name, fst session = t0 ++ [FilesGet name (Ok last)]))
      \/ (status (snd session) = 500%Z /\ is_success (snd session) = false))
  /\ (forall operations_get JSON_stringify String_of initial,
        let session :=
          ImportRoute.poll_session operations_get JSON_stringify String_of
            initial in
        (exists last,
            snd session = json 200 (ImportOk (op_response last) (op_name last))
            /\ truthy_flag (op_done last) = true
            /\ ((last = initial /\ fst session = [])
                \/ exists t0 arg,
                    fst session = t0 ++ [OperationsGet arg (Ok last)]))
        \/ (status (snd session) = 500%Z /\ is_success (snd session) = false)).
Proof.
  split.
  - intros files_get initial session. subst session.
    rewrite UploadFacts.upload_session_log, UploadFacts.upload_session_response.
    assert (Hruns := UploadFacts.upload_session_runs files_get initial).
    destruct (snd (Upload.poll_loop files_get Upload.maxAttempts 0 initial))
      as [[last n|r]|e] eqn:Hout.
    + simpl. destruct (state_is ACTIVE last) eqn:Hactive; simpl.
      * left. exists last.
        split; [reflexivity|]. split; [exact Hactive|]. split.
        -- destruct (state_is PROCESSING last) eqn:Hproc; [|reflexivity].
           discriminate (UploadFacts.state_is_unique _ _ _ Hproc Hactive).
        -- exact (UploadFacts.upload_fell _ _ _ _ _ Hruns _ _ eq_refl).
      * right. now split.
    + right. destruct (UploadFacts.upload_returned _ _ _ _ _ Hruns _ eq_refl)
        as [f ->]. now split.
    + right. now split.
  - intros operations_get js so initial session. subst session.
    rewrite ImportFacts.import_session_log, ImportFacts.import_session_response.
    assert (Hruns := ImportFacts.import_session_runs operations_get js so initial).
    destruct (snd (ImportRoute.poll_loop operations_get js so
                     ImportRoute.maxAttempts 0 initial))
      as [[last n]|e] eqn:Hout.
    + unfold ImportRoute.after_loop. simpl.
      destruct (truthy_flag (op_done last)) eqn:Hdone; simpl.
      * left. exists last.
        split; [reflexivity|]. split; [exact Hdone|].
        exact (ImportFacts.import_fell _ _ _ _ _ _ _ Hruns _ _ eq_refl).
      * right. now split.
    + right. now split.
Qed.

(** C4, the defect.  The import handler looks at [operation.error] only
    inside the loop, on the answer of a re-fetch.  An import whose first
    answer is already done skips the loop, so when that answer carries an
    error the operation is still answered as success: status 200, no
    re-fetch, with whatever [response] the failed operation has.  The
    same operation arriving as the answer of the first re-fetch is
    answered 500 with its error text. *)
Theorem done_operation_with_error_answered_as_success
        operations_get JSON_stringify String_of initial :
  truthy_flag (op_done initial) = true ->
  truthy (op_error initial) = true ->
  ImportRoute.poll_session operations_get JSON_stringify String_of initial
    = ([], json 200 (ImportOk (op_response initial) (op_name initial)))
  /\ forall pending,
       truthy_flag (op_done pending) = false ->
       operations_get 0%nat pending = Ok initial ->
       ImportRoute.poll_session operations_get JSON_stringify String_of
         pending
       = ([Sleep 5000; OperationsGet pending (Ok initial)],
          json 500
            (ErrorBody (ImportRoute.error_message JSON_stringify String_of
                          (op_error initial)))).
Proof.
  intros Hdone Herror. split.
  - now apply ImportFacts.import_initially_done.
  - intros pending Hpending Hget.
    unfold ImportRoute.poll_session, ImportRoute.poll_and_respond,
      ImportRoute.maxAttempts.
    cbn [ImportRoute.poll_loop]. rewrite Hpending.
    unfold ImportRoute.maxAttempts. cbn [negb andb Nat.ltb Nat.leb].
    unfold bind, sleep, call, throw, try_catch. rewrite Hget, Herror.
    reflexivity.
Qed.

Lemma done_operation_with_error_answered_as_success_witness :
  ImportRoute.poll_session (answers (broken "quota exceeded")) no_json no_text
    (broken "quota exceeded")
    = ([], json 200
             (ImportOk JUndefined (Some "fileSearchStores/kb/operations/op1")))
  /\ forall pending,
       truthy_flag (op_done pending) = false ->
       answers (broken "quota exceeded") 0%nat pending
         = Ok (broken "quota exceeded") ->
       ImportRoute.poll_session (answers (broken "quota exceeded")) no_json
         no_text pending
       = ([Sleep 5000; OperationsGet pending (Ok (broken "quota exceeded"))],
          json 500
            (ErrorBody (ImportRoute.error_message no_json no_text
                          (op_error (broken "quota exceeded"))))).
Proof.
  apply (done_operation_with_error_answered_as_success
           (answers (broken "quota exceeded")) no_json no_text
           (broken "quota exceeded"));
    reflexivity.
Defined.

(** C5 as stated fails: both outcomes are a status 500 with an [error]
    text, and the remote is free to word its failure exactly like the
    timeout. *)
Lemma timeout_and_failure_counterexample :
  ~ (forall getA initA getB initB failed,
        Upload.budget_exhausted getA initA ->
        Upload.remote_failure getB initB failed ->
        snd (Upload.poll_session getA initA)
          <> snd (Upload.poll_session getB initB))
  /\ ~ (forall getA initA getB initB JSON_stringify String_of failed,
          ImportRoute.budget_exhausted getA JSON_stringify String_of initA ->
          ImportRoute.remote_failure getB JSON_stringify String_of initB failed ->
          snd (ImportRoute.poll_session getA JSON_stringify String_of initA)
            <> snd (ImportRoute.poll_session getB JSON_stringify String_of initB)).
Proof.
  split; intros H.
  - apply (H (always processing) processing
             (always (failed "File processing timeout")) processing
             (failed "File processing timeout")).
    + exists processing. now split.
    + split; [reflexivity|]. now exists [Sleep 1000], "files/abc".
    + reflexivity.
  - apply (H (answers running) running
             (answers (broken "Import timeout")) running
             no_json no_text (broken "Import timeout")).
    + exists running. now split.
    + split; [reflexivity|]. now exists [Sleep 5000], running.
    + reflexivity.
Qed.

(** C5, amended.  A session that exhausts its budget on a pending job
    answers status 500 with the fixed text ("File processing timeout",
    "Import timeout"); a session whose last re-fetch reported a failure
    answers status 500 with the text taken from that answer.  The two
    responses are equal exactly when that text is the timeout text. *)
Theorem timeout_and_failure_differ_by_message_only :
  (forall getA initA getB initB failed,
      Upload.budget_exhausted getA initA ->
      Upload.remote_failure getB initB failed ->
      snd (Upload.poll_session getA initA)
        = json 500 (ErrorBody "File processing timeout")
      /\ snd (Upload.poll_session getB initB)
         = json 500 (ErrorBody (Upload.failure_message failed))
      /\ (snd (Upload.poll_session getA initA)
            = snd (Upload.poll_session getB initB)
          <-> Upload.failure_message failed = "File processing timeout"))
  /\ (forall getA initA getB initB JSON_stringify String_of failed,
        ImportRoute.budget_exhausted getA JSON_stringify String_of initA ->
        ImportRoute.remote_failure getB JSON_stringify String_of initB failed ->
        snd (ImportRoute.poll_session getA JSON_stringify String_of initA)
          = json 500 (ErrorBody "Import timeout")
        /\ snd (ImportRoute.poll_session getB JSON_stringify String_of initB)
           = json 500 (ErrorBody
               (ImportRoute.error_message JSON_stringify String_of
                  (op_error failed)))
        /\ (snd (ImportRoute.poll_session getA JSON_stringify String_of initA)
              = snd (ImportRoute.poll_session getB JSON_stringify String_of
                       initB)
            <-> ImportRoute.error_message JSON_stringify String_of
                  (op_error failed) = "Import timeout")).
Proof.
  split.
  - intros getA initA getB initB failed (last & HoutA & Hproc)
      (Hfailed & t & name & Hlog).
    assert (HA : snd (Upload.poll_session getA initA)
                 = json 500 (ErrorBody "File processing timeout")).
    { rewrite UploadFacts.upload_session_response, HoutA. simpl.
      destruct (state_is ACTIVE last) eqn:Hactive; [|reflexivity].
      discriminate (UploadFacts.state_is_unique _ _ _ Hproc Hactive). }
    assert (HB : snd (Upload.poll_session getB initB)
                 = json 500 (ErrorBody (Upload.failure_message failed))).
    { destruct (UploadFacts.upload_failed_stops _ _ _ _ _
                  (UploadFacts.upload_session_runs getB initB) _ _ _ _ Hlog Hfailed)
        as [_ Hout].
      now rewrite UploadFacts.upload_session_response, Hout. }
    rewrite HA, HB. unfold json.
    split; [reflexivity|]. split; [reflexivity|].
    split; [intros [= H]; now rewrite H | now intros ->].
  - intros getA initA getB initB js so failed (last & HoutA & Hpending)
      (Hfailed & t & arg & Hlog).
    assert (HA : snd (ImportRoute.poll_session getA js so initA)
                 = json 500 (ErrorBody "Import timeout")).
    { rewrite ImportFacts.import_session_response, HoutA.
      unfold ImportRoute.after_loop. simpl. now rewrite Hpending. }
    assert (HB : snd (ImportRoute.poll_session getB js so initB)
                 = json 500 (ErrorBody
                     (ImportRoute.error_message js so (op_error failed)))).
    { destruct (ImportFacts.import_failed_stops _ _ _ _ _ _ _
                  (ImportFacts.import_session_runs getB js so initB) _ _ _ _
                  Hlog Hfailed) as [_ Hout].
      now rewrite ImportFacts.import_session_response, Hout. }
    rewrite HA, HB. unfold json.
    split; [reflexivity|]. split; [reflexivity|].
    split; [intros [= H]; now rewrite H | now intros ->].
Qed.

Lemma timeout_and_failure_differ_by_message_only_witness :
  snd (Upload.poll_session (always processing) processing)
    <> snd (Upload.poll_session (always (failed "quota exceeded")) processing)
  /\ snd (ImportRoute.poll_session (answers running) no_json no_text running)
     <> snd (ImportRoute.poll_session (answers (broken "quota exceeded"))
               no_json no_text running).
Proof.
  destruct timeout_and_failure_differ_by_message_only as [HU HI].
  split.
  - destruct (HU (always processing) processing
                (always (failed "quota exceeded")) processing
                (failed "quota exceeded")) as (_ & _ & Hiff).
    + exists processing. split; reflexivity.
    + split; [reflexivity|]. exists [Sleep 1000], "files/abc". reflexivity.
    + intros Heq. apply Hiff in Heq. discriminate Heq.
  - destruct (HI (answers running) running
                (answers (broken "quota exceeded")) running
                no_json no_text (broken "quota exceeded")) as (_ & _ & Hiff).
    + exists running. split; reflexivity.
    + split; [reflexivity|]. exists [Sleep 5000], running. reflexivity.
    + intros Heq. apply Hiff in Heq. discriminate Heq.
Defined.

(** C6.  A session's log is a sequence of turns "wait, then re-fetch"
    (closed at most by a wait whose re-fetch was never issued): it holds
    nothing but waits and re-fetches, every re-fetch comes directly after
    a wait, and every wait of a session has the same length, 1000 ms for
    the upload poller and 5000 ms for the import poller.  The turns are
    really taken: a session on a pending job opens with the wait of that
    length followed by the first re-fetch, and a session whose job stays
    pending takes all 30 turns of its budget, 30 re-fetches behind 30
    waits, 30 s resp. 150 s in all.  No session takes more. *)
Theorem every_refresh_follows_the_fixed_delay :
  (forall files_get initial,
      let log := fst (Upload.poll_session files_get initial) in
      paced 1000 log
      /\ (forall t1 e t2,
          log = t1 ++ e :: t2 -> is_refresh e = true ->
          exists t0, t1 = t0 ++ [Sleep 1000])
      /\ (forall ms, In (Sleep ms) log -> ms = 1000%Z)
      /\ (forall e, In e log -> e = Sleep 1000 \/ is_refresh e = true)
      /\ (refresh_calls log <= Upload.maxAttempts)%nat
      /\ (forall name,
            state_is PROCESSING initial = true ->
            file_name initial = Some name ->
            nonempty name = true ->
            exists rest,
              log = Sleep 1000 :: FilesGet name (files_get 0%nat name) :: rest)
      /\ (Upload.always_pending files_get ->
          state_is PROCESSING initial = true ->
          truthy_str (file_name initial) = true ->
          refresh_calls log = 30%nat /\ slept log = 30000%Z))
  /\ (forall operations_get JSON_stringify String_of initial,
        let log :=
          fst (ImportRoute.poll_session operations_get JSON_stringify
                 String_of initial) in
        paced 5000 log
        /\ (forall t1 e t2,
            log = t1 ++ e :: t2 -> is_refresh e = true ->
            exists t0, t1 = t0 ++ [Sleep 5000])
        /\ (forall ms, In (Sleep ms) log -> ms = 5000%Z)
        /\ (forall e, In e log -> e = Sleep 5000 \/ is_refresh e = true)
        /\ (refresh_calls log <= ImportRoute.maxAttempts)%nat
        /\ (truthy_flag (op_done initial) = false ->
            exists rest,
              log = Sleep 5000
                      :: OperationsGet initial (operations_get 0%nat initial)
                      :: rest)
        /\ (ImportRoute.always_pending operations_get ->
            truthy_flag (op_done initial) = false ->
            refresh_calls log = 30%nat /\ slept log = 150000%Z))
  /\ Upload.maxAttempts = 30%nat
  /\ ImportRoute.maxAttempts = 30%nat.
Proof.
  split; [|split; [|split; reflexivity]].
  - intros files_get initial log. subst log.
    assert (Hruns := UploadFacts.upload_session_runs files_get initial).
    assert (Hpaced := UploadFacts.upload_paced _ _ _ _ _ Hruns).
    split; [now rewrite UploadFacts.upload_session_log|].
    split; [rewrite UploadFacts.upload_session_log;
            exact (EffFacts.paced_refresh_after_wait _ _ Hpaced)|].
    split; [rewrite UploadFacts.upload_session_log;
            exact (EffFacts.paced_same_delay _ _ Hpaced)|].
    split; [rewrite UploadFacts.upload_session_log;
            exact (EffFacts.paced_only_waits_and_refreshes _ _ Hpaced)|].
    split; [rewrite UploadFacts.upload_session_log;
            exact (UploadFacts.upload_calls_bounded _ _ _ _ _ Hruns)|].
    split; [intros name; apply PacingFacts.upload_first_turn|].
    intros Hremote Hproc Hname.
    rewrite UploadFacts.upload_session_log.
    destruct (UploadFacts.upload_pending _ _ _ _ _ Hremote Hruns
                (Nat.le_0_l _) Hproc Hname) as (Hcalls & last & Hout & _).
    rewrite (PacingFacts.upload_waits_match _ _ _ _ _ Hruns _ _ Hout), Hcalls.
    now split.
  - intros operations_get js so initial log. subst log.
    assert (Hruns := ImportFacts.import_session_runs operations_get js so
                       initial).
    assert (Hpaced := ImportFacts.import_paced _ _ _ _ _ _ _ Hruns).
    split; [now rewrite ImportFacts.import_session_log|].
    split; [rewrite ImportFacts.import_session_log;
            exact (EffFacts.paced_refresh_after_wait _ _ Hpaced)|].
    split; [rewrite ImportFacts.import_session_log;
            exact (EffFacts.paced_same_delay _ _ Hpaced)|].
    split; [rewrite ImportFacts.import_session_log;
            exact (EffFacts.paced_only_waits_and_refreshes _ _ Hpaced)|].
    split; [rewrite ImportFacts.import_session_log;
            exact (ImportFacts.import_calls_bounded _ _ _ _ _ _ _ Hruns)|].
    split; [apply PacingFacts.import_first_turn|].
    intros Hremote Hpending.
    rewrite ImportFacts.import_session_log.
    destruct (ImportFacts.import_pending _ js so _ _ _ _ Hremote Hruns
                (Nat.le_0_l _) Hpending) as (Hcalls & last & Hout & _).
    rewrite (PacingFacts.import_waits_match _ _ _ _ _ _ _ Hruns _ _ Hout),
      Hcalls.
    now split.
Qed.

(** Scenario A of the specification with the wait before its third
    re-fetch, and on both pollers the first turn and the full budget of a
    job that stays pending. *)
Lemma every_refresh_follows_the_fixed_delay_witness :
  (fst (Upload.poll_session done_on_third_call processing)
     = [Sleep 1000; FilesGet "files/abc" (Ok processing);
        Sleep 1000; FilesGet "files/abc" (Ok processing);
        Sleep 1000; FilesGet "files/abc" (Ok active)]
   /\ exists t0,
        [Sleep 1000; FilesGet "files/abc" (Ok processing);
         Sleep 1000; FilesGet "files/abc" (Ok processing); Sleep 1000]
        = t0 ++ [Sleep 1000])
  /\ (exists rest,
         fst (Upload.poll_session (always processing) processing)
         = Sleep 1000
             :: FilesGet "files/abc" (always processing 0%nat "files/abc")
             :: rest)
  /\ (refresh_calls (fst (Upload.poll_session (always processing) processing))
       = 30%nat
      /\ slept (fst (Upload.poll_session (always processing) processing))
         = 30000%Z)
  /\ (exists rest,
         fst (ImportRoute.poll_session (answers running) no_json no_text
                running)
         = Sleep 5000
             :: OperationsGet running (answers running 0%nat running) :: rest)
  /\ (refresh_calls
         (fst (ImportRoute.poll_session (answers running) no_json no_text
                 running)) = 30%nat
      /\ slept
           (fst (ImportRoute.poll_session (answers running) no_json no_text
                   running)) = 150000%Z).
Proof.
  destruct every_refresh_follows_the_fixed_delay as (HU & HI & _).
  split; [split; [reflexivity|]|split; [|split; [|split]]].
  - destruct (HU done_on_third_call processing) as (_ & Hbefore & _).
    apply (Hbefore _ (FilesGet "files/abc" (Ok active)) []); reflexivity.
  - destruct (HU (always processing) processing)
      as (_ & _ & _ & _ & _ & Hfirst & _).
    apply (Hfirst "files/abc"); reflexivity.
  - destruct (HU (always processing) processing)
      as (_ & _ & _ & _ & _ & _ & Hfull).
    apply Hfull; [|reflexivity|reflexivity].
    intros k name. exists processing. repeat split.
  - destruct (HI (answers running) no_json no_text running)
      as (_ & _ & _ & _ & _ & Hfirst & _).
    apply Hfirst. reflexivity.
  - destruct (HI (answers running) no_json no_text running)
      as (_ & _ & _ & _ & _ & _ & Hfull).
    apply Hfull; [|reflexivity].
    intros k arg. exists running. repeat split.
Defined.

End PollerTheorems.

(** * The request handlers *)

Module HandlerFacts.
Import Scenarios.

(** With a file in the form and an upload that answers, the handler is the
    upload call followed by the poll session. *)
Lemma upload_POST_polls files_upload files_get not_a_function
      request form file initial :
  Upload.formData request = Ok form ->
  lookup "file" form = Some (Upload.EntryFile file) ->
  let mime := if nonempty (Upload.web_type file) then Upload.web_type file
              else "application/octet-stream" in
  let blob := {| blob_bytes := Upload.web_bytes file; blob_type := mime |} in
  files_upload blob (Upload.web_name file) mime = Ok initial ->
  Upload.POST files_upload files_get not_a_function request
  = (FilesUpload blob (Upload.web_name file) mime
       :: fst (Upload.poll_session files_get initial),
     snd (Upload.poll_session files_get initial)).
Proof.
  intros Hform Hfile mime blob Hupload.
  unfold Upload.POST, Upload.poll_session, lift, call, bind, try_catch.
  rewrite Hform, Hfile. fold mime. fold blob. rewrite Hupload.
  now destruct (Upload.poll_and_respond files_get initial) as [t [r|e]].
Qed.


End HandlerFacts.

Module HandlerTheorems.
Import Scenarios.

(** C7 as stated fails on a request whose body is the JSON value null:
    it carries no query (no fileUri), yet the handler does not get to its
    test of the input; destructuring null throws, and the catch block
    answers 500. *)
Lemma unreadable_body_counterexample :
  ~ (forall env generateContent deck slides String_of cd request body,
        Query.json_body request = Ok body ->
        truthy (prop "query" body) = false ->
        rejected (Query.POST env generateContent deck slides String_of cd
                    request))
  /\ ~ (forall decode importFile operations_get js so cd naf request body,
          ImportRoute.json_body request = Ok body ->
          truthy (prop "fileUri" body) = false ->
          rejected (ImportRoute.POST decode importFile operations_get js so
                      cd naf request))
  /\ truthy (prop "query" JNull) = false
  /\ Query.POST no_env (generates (grounded [])) no_deck no_slides no_text
       type_error {| Query.json_body := Ok JNull |}
     = ([], json 500 (ErrorBody (type_error "query")))
  /\ truthy (prop "fileUri" JNull) = false
  /\ ImportRoute.POST decoded (imports finished) (answers finished) no_json
       no_text type_error type_error
       {| ImportRoute.json_body := Ok JNull;
          ImportRoute.storeName := "fileSearchStores/kb" |}
     = ([], json 500 (ErrorBody (type_error "fileUri"))).
Proof.
  split; [|split; [|now repeat split]].
  - intros H.
    destruct (H no_env (generates (grounded [])) no_deck no_slides no_text
                type_error {| Query.json_body := Ok JNull |} JNull
                eq_refl eq_refl) as (_ & Hstatus & _).
    discriminate Hstatus.
  - intros H.
    destruct (H decoded (imports finished) (answers finished) no_json no_text
                type_error type_error
                {| ImportRoute.json_body := Ok JNull;
                   ImportRoute.storeName := "fileSearchStores/kb" |} JNull
                eq_refl eq_refl) as (_ & Hstatus & _).
    discriminate Hstatus.
Qed.

(** C7, amended.  A request whose body can be read (form data that
    parses; a JSON body that parses to a value other than null) and that
    lacks a required input is rejected: the response has status 400 and an
    error body, and the log is empty, so no upload, generation, import or
    deletion call was made.  "Lacks" covers every value the handler's test
    treats as missing (undefined, null, "", ...); for the store names also
    the empty list.  A request whose body cannot be read, or is null, is
    answered 500 by the catch block, also with an empty log.  The two
    deletions read their input from the URL and always get to their
    test. *)
Theorem missing_input_is_rejected_before_any_call :
  (forall files_upload files_get not_a_function request form,
      Upload.formData request = Ok form ->
      lookup "file" form = None ->
      rejected (Upload.POST files_upload files_get not_a_function request))
  /\ (forall env generateContent deck slides String_of cd request body,
        Query.json_body request = Ok body ->
        destructurable body = true ->
        truthy (prop "query" body) = false
        \/ truthy (prop "fileSearchStoreNames" body) = false
        \/ prop "fileSearchStoreNames" body = JArr [] ->
        rejected (Query.POST env generateContent deck slides String_of cd
                    request))
  /\ (forall decode importFile operations_get js so cd naf request body,
        ImportRoute.json_body request = Ok body ->
        destructurable body = true ->
        truthy (prop "fileUri" body) = false ->
        rejected (ImportRoute.POST decode importFile operations_get js so cd
                    naf request))
  /\ (forall files_delete request,
        truthy_str (lookup "name" (FilesRoute.searchParams request)) = false ->
        rejected (FilesRoute.DELETE files_delete request))
  /\ (forall stores_delete request,
        truthy_str (lookup "name" (StoresRoute.searchParams request)) = false ->
        rejected (StoresRoute.DELETE stores_delete request))
  /\ (forall files_upload files_get not_a_function request e,
        Upload.formData request = Throw e ->
        Upload.POST files_upload files_get not_a_function request
        = ([], json 500 (ErrorBody (message_or "Failed to upload file" e))))
  /\ (forall env generateContent deck slides String_of cd request,
        (forall e,
            Query.json_body request = Throw e ->
            Query.POST env generateContent deck slides String_of cd request
            = ([], json 500
                     (ErrorBody (message_or "Failed to process query" e))))
        /\ (forall body,
              Query.json_body request = Ok body ->
              destructurable body = false ->
              Query.POST env generateContent deck slides String_of cd request
              = ([], json 500 (ErrorBody (cd "query")))))
  /\ (forall decode importFile operations_get js so cd naf request,
        (forall e,
            ImportRoute.json_body request = Throw e ->
            ImportRoute.POST decode importFile operations_get js so cd naf
              request
            = ([], json 500 (ErrorBody (message_or "Failed to import" e))))
        /\ (forall body,
              ImportRoute.json_body request = Ok body ->
              destructurable body = false ->
              ImportRoute.POST decode importFile operations_get js so cd naf
                request
              = ([], json 500 (ErrorBody (cd "fileUri"))))).
Proof.
  repeat apply conj.
  - intros fu fg naf request form Hform Hfile.
    unfold Upload.POST, lift, bind, try_catch. rewrite Hform, Hfile.
    now repeat split.
  - intros env gen deck slides so cd request body Hbody Hd Hmissing.
    unfold Query.POST, lift, bind, try_catch. rewrite Hbody, Hd. simpl.
    destruct (truthy (prop "query" body)) eqn:Hq; simpl;
      [|now repeat split].
    destruct Hmissing as [Hm|[Hm|Hm]]; [discriminate| |];
      rewrite Hm; now repeat split.
  - intros decode imp og js so cd naf request body Hbody Hd Huri.
    unfold ImportRoute.POST, lift, bind, try_catch. rewrite Hbody, Hd.
    simpl. rewrite Huri. now repeat split.
  - intros fd request Hname. unfold FilesRoute.DELETE.
    destruct (lookup "name" (FilesRoute.searchParams request)) as [n|];
      simpl in *; [rewrite Hname|]; now repeat split.
  - intros sd request Hname. unfold StoresRoute.DELETE.
    destruct (lookup "name" (StoresRoute.searchParams request)) as [n|];
      simpl in *; [rewrite Hname|]; now repeat split.
  - intros fu fg naf request e Hform.
    unfold Upload.POST, lift, bind, try_catch. now rewrite Hform.
  - intros env gen deck slides so cd request. split.
    + intros e Hbody.
      unfold Query.POST, lift, bind, try_catch. now rewrite Hbody.
    + intros body Hbody Hd.
      unfold Query.POST, lift, bind, try_catch, throw.
      now rewrite Hbody, Hd.
  - intros decode imp og js so cd naf request. split.
    + intros e Hbody.
      unfold ImportRoute.POST, lift, bind, try_catch. now rewrite Hbody.
    + intros body Hbody Hd.
      unfold ImportRoute.POST, lift, bind, try_catch, throw.
      now rewrite Hbody, Hd.
Qed.

(** Each handler on a request without the input it needs, and the query
    handler on a body that is null. *)
Lemma missing_input_is_rejected_before_any_call_witness :
  rejected (Upload.POST (fun _ _ _ => Ok active) (always active) type_error
              {| Upload.formData := Ok [("note", Upload.EntryString "hi")] |})
  /\ rejected (Query.POST no_env (generates (grounded [])) no_deck no_slides
                 no_text type_error
                 (query_request [("fileSearchStoreNames", JArr [JStr "kb"])]))
  /\ rejected (Query.POST no_env (generates (grounded [])) no_deck no_slides
                 no_text type_error
                 (query_request [("query", JStr "why?");
                                 ("fileSearchStoreNames", JArr [])]))
  /\ rejected (ImportRoute.POST decoded (imports finished) (answers finished)
                 no_json no_text type_error type_error
                 {| ImportRoute.json_body := Ok (JObj []);
                    ImportRoute.storeName := "fileSearchStores/kb" |})
  /\ rejected (FilesRoute.DELETE (fun _ => Ok tt)
                 {| FilesRoute.searchParams := [] |})
  /\ rejected (StoresRoute.DELETE (fun _ _ => Ok tt)
                 {| StoresRoute.searchParams := [("force", "true")] |})
  /\ Query.POST no_env (generates (grounded [])) no_deck no_slides no_text
       type_error {| Query.json_body := Ok JNull |}
     = ([], json 500 (ErrorBody (type_error "query")))
  /\ Upload.POST (fun _ _ _ => Ok active) (always active) type_error
       {| Upload.formData := Throw (JsError "Failed to parse body as FormData.") |}
     = ([], json 500 (ErrorBody
                       (message_or "Failed to upload file"
                          (JsError "Failed to parse body as FormData.")))).
Proof.
  destruct missing_input_is_rejected_before_any_call
    as (HU & HQ & HI & HF & HS & HU' & HQ' & _).
  split; [|split; [|split; [|split; [|split; [|split; [|split]]]]]].
  - apply (HU _ _ _ _ [("note", Upload.EntryString "hi")]); reflexivity.
  - apply (HQ _ _ _ _ _ _ _
             (JObj [("fileSearchStoreNames", JArr [JStr "kb"])]));
      [reflexivity | reflexivity | left; reflexivity].
  - apply (HQ _ _ _ _ _ _ _
             (JObj [("query", JStr "why?"); ("fileSearchStoreNames", JArr [])]));
      [reflexivity | reflexivity | right; right; reflexivity].
  - apply (HI _ _ _ _ _ _ _ _ (JObj [])); reflexivity.
  - apply HF. reflexivity.
  - apply HS. reflexivity.
  - destruct (HQ' no_env (generates (grounded [])) no_deck no_slides no_text
                type_error {| Query.json_body := Ok JNull |}) as [_ Hnull].
    apply (Hnull JNull); reflexivity.
  - apply HU'. reflexivity.
Defined.

(** C8 as stated fails on a chunk whose web URI is the empty string:
    [||] skips it and the citation points at the retrieved-context URI,
    where the specified locator is the (empty) web URI. *)
Lemma citation_locator_counterexample :
  ~ (forall env generateContent deck slides String_of cd request
            answer citations exported,
        snd (Query.POST env generateContent deck slides String_of cd request)
          = json 200 (QueryOk answer citations exported) ->
        exists contents stores result,
          generateContent "gemini-2.5-flash" contents stores = Ok result
          /\ citations
             = map (fun chunk =>
                      {| segment := Query.locator_as_specified chunk;
                         cite_confidenceScore := confidenceScore chunk |})
                   (Query.first_candidate_chunks result))
  /\ snd (Query.POST no_env (generates (grounded [blank_web_chunk])) no_deck
            no_slides no_text type_error
            (query_request [("query", JStr "why?");
                            ("fileSearchStoreNames", JArr [JStr "kb"])]))
     = json 200
         (QueryOk "## Answer"
            [{| segment := "fileSearchStores/kb/documents/doc1";
                cite_confidenceScore := None |}]
            None)
  /\ Query.locator_as_specified blank_web_chunk = EmptyString.
Proof.
  split; [|split; reflexivity].
  intros H.
  destruct (H no_env (generates (grounded [blank_web_chunk])) no_deck
              no_slides no_text type_error
              (query_request [("query", JStr "why?");
                              ("fileSearchStoreNames", JArr [JStr "kb"])])
              _ _ _ eq_refl)
    as (contents & stores & result & Hresult & Hcitations).
  injection Hresult as <-. discriminate Hcitations.
Qed.

(** C8, amended.  A success response of the query handler carries the
    text of the generation answer and one citation per grounding chunk of
    the first candidate, in order.  A citation's segment is the chunk's web
    URI if present and non-empty, otherwise its retrieved-context URI if
    present and non-empty, otherwise the empty string; it carries the
    chunk's optional confidence score.  Without candidates or grounding
    metadata there are no chunks, hence no citations. *)
Theorem successful_query_cites_every_chunk :
  (forall env generateContent deck slides String_of cd request
          answer citations exported,
      snd (Query.POST env generateContent deck slides String_of cd request)
        = json 200 (QueryOk answer citations exported) ->
      exists contents stores result rest,
        fst (Query.POST env generateContent deck slides String_of cd request)
          = GenerateContent "gemini-2.5-flash" contents stores :: rest
        /\ generateContent "gemini-2.5-flash" contents stores = Ok result
        /\ text result = Some answer
        /\ citations
           = map Query.citation_of (Query.first_candidate_chunks result)
        /\ List.length citations
           = List.length (Query.first_candidate_chunks result))
  /\ (forall chunk,
        cite_confidenceScore (Query.citation_of chunk) = confidenceScore chunk
        /\ (forall u,
              Query.web_uri chunk = Some u -> nonempty u = true ->
              segment (Query.citation_of chunk) = u)
        /\ (forall u,
              truthy_str (Query.web_uri chunk) = false ->
              Query.context_uri chunk = Some u -> nonempty u = true ->
              segment (Query.citation_of chunk) = u)
        /\ (truthy_str (Query.web_uri chunk) = false ->
            truthy_str (Query.context_uri chunk) = false ->
            segment (Query.citation_of chunk) = EmptyString))
  /\ (forall result,
        candidates result = None
        \/ candidates result = Some []
        \/ (exists first others,
               candidates result = Some (first :: others)
               /\ groundingMetadata first = None) ->
        Query.first_candidate_chunks result = []).
Proof.
  split; [|split].
  - intros env gen deck slides so cd request answer citations exported.
    unfold Query.POST, lift, call, bind, try_catch.
    destruct (Query.json_body request) as [body|e]; [|discriminate].
    destruct (destructurable body); [|discriminate]. cbn [negb].
    destruct (truthy (prop "query" body)); [|discriminate]. cbn [negb].
    destruct (negb _ || _); [discriminate|].
    match goal with
    | |- context [gen ?m ?c ?n] =>
      destruct (gen m c n) as [result|e] eqn:Hgen; [|discriminate]
    end.
    destruct (text result) as [t|] eqn:Htext; [|discriminate]. cbn [truthy_str].
    destruct (nonempty t); [|discriminate]. cbn [negb].
    assert (Hcites : Query.citations_of result
                     = map Query.citation_of (Query.first_candidate_chunks result)).
    { unfold Query.citations_of, Query.first_candidate_chunks.
      destruct (candidates result) as [[|first others]|]; try reflexivity.
      destruct (groundingMetadata first) as [metadata|]; [|reflexivity].
      now destruct (groundingChunks metadata). }
    destruct (truthy (prop "createSlides" body)).
    + destruct (truthy_str (Query.GEMINI_API_KEY env)); [|discriminate].
      destruct (truthy_str (Query.GOOGLE_APPLICATION_CREDENTIALS env));
        [|discriminate].
      cbn [negb].
      destruct (deck _ _) as [t1 [slideData|e1]]; [|discriminate].
      destruct (slides slideData) as [t2 [id|e2]]; [|discriminate].
      unfold ret. cbn. intros [= <- <- _].
      eexists _, _, result, _. split; [reflexivity|]. split; [exact Hgen|].
      split; [exact Htext|]. split; [exact Hcites|].
      rewrite Hcites. apply length_map.
    + unfold ret. cbn. intros [= <- <- _].
      eexists _, _, result, _. split; [reflexivity|]. split; [exact Hgen|].
      split; [exact Htext|]. split; [exact Hcites|].
      rewrite Hcites. apply length_map.
  - intros chunk. unfold Query.citation_of, Query.segment_of. cbn.
    split; [reflexivity|]. split; [|split].
    + intros u -> Hne. cbn. now rewrite Hne.
    + intros u Hweb -> Hne.
      destruct (Query.web_uri chunk) as [w|]; cbn in *.
      * rewrite Hweb, Hne. reflexivity.
      * now rewrite Hne.
    + intros Hweb Hctx.
      destruct (Query.web_uri chunk) as [w|],
               (Query.context_uri chunk) as [c|]; cbn in *;
        rewrite ?Hweb, ?Hctx; reflexivity.
  - intros result [H|[H|(first & others & H & Hmeta)]];
      unfold Query.first_candidate_chunks; rewrite H; try reflexivity.
    now rewrite Hmeta.
Qed.

Lemma successful_query_cites_every_chunk_witness :
  exists contents stores result rest,
    fst (Query.POST no_env (generates (grounded [web_chunk; blank_web_chunk]))
           no_deck no_slides no_text type_error
           (query_request [("query", JStr "why?");
                           ("fileSearchStoreNames", JStr "kb")]))
      = GenerateContent "gemini-2.5-flash" contents stores :: rest
    /\ generates (grounded [web_chunk; blank_web_chunk])
         "gemini-2.5-flash" contents stores = Ok result
    /\ text result = Some "## Answer"
    /\ [ {| segment := "https://example.org/a";
            cite_confidenceScore := Some (87 # 100)%Q |};
         {| segment := "fileSearchStores/kb/documents/doc1";
            cite_confidenceScore := None |} ]
       = map Query.citation_of (Query.first_candidate_chunks result)
    /\ List.length
         [ {| segment := "https://example.org/a";
              cite_confidenceScore := Some (87 # 100)%Q |};
           {| segment := "fileSearchStores/kb/documents/doc1";
              cite_confidenceScore := None |} ]
       = List.length (Query.first_candidate_chunks result).
Proof.
  destruct successful_query_cites_every_chunk as (H & _).
  apply (H no_env (generates (grounded [web_chunk; blank_web_chunk]))
           no_deck no_slides no_text type_error
           (query_request [("query", JStr "why?");
                           ("fileSearchStoreNames", JStr "kb")])
           "## Answer" _ None).
  reflexivity.
Defined.

(** C9 as stated fails on a fileUri that contains "/files/" with nothing
    but the end or another '/' behind it: the pattern has no match there
    and the handler forwards the fileUri as it is. *)
Lemma import_file_name_counterexample :
  ~ (forall decode importFile operations_get js so cd naf request body u store,
        ImportRoute.json_body request = Ok body ->
        prop "fileUri" body = JStr u ->
        decode (ImportRoute.storeName request) = Ok store ->
        includes "/files/" u = true ->
        exists m rest,
          ImportRoute.first_match u m
          /\ fst (ImportRoute.POST decode importFile operations_get js so cd
                    naf request)
             = StoresImportFile store (JStr m) :: rest)
  /\ fst (ImportRoute.POST decoded (imports finished) (answers finished)
            no_json no_text type_error type_error (import_request "/files/"))
     = [StoresImportFile "fileSearchStores/kb" (JStr "/files/")]
  /\ includes "/files/" "/files/" = true
  /\ forall m, ~ ImportRoute.first_match "/files/" m.
Proof.
  assert (Hnone : forall m, ~ ImportRoute.first_match "/files/" m)
    by now apply RegexFacts.regex_match_none.
  split; [|now repeat split].
  intros H.
  destruct (H decoded (imports finished) (answers finished) no_json no_text
              type_error type_error (import_request "/files/")
              _ "/files/" _ eq_refl eq_refl eq_refl eq_refl)
    as (m & _ & Hm & _).
  exact (Hnone m Hm).
Qed.

(** C9, amended.  For a non-empty string fileUri, the import call is the
    first call of the handler and the file name it is given is: the first
    match of files/<non-slash segment> if fileUri contains "/files/" and
    the pattern matches; fileUri itself if it contains "/files/" but the
    pattern matches nowhere; fileUri itself if it does not contain
    "/files/". *)
Theorem import_forwards_first_match_or_whole_uri
        decode importFile operations_get js so cd naf request body u store :
  ImportRoute.json_body request = Ok body ->
  prop "fileUri" body = JStr u ->
  nonempty u = true ->
  decode (ImportRoute.storeName request) = Ok store ->
  exists forwarded rest,
    fst (ImportRoute.POST decode importFile operations_get js so cd naf request)
      = StoresImportFile store (JStr forwarded) :: rest
    /\ (includes "/files/" u = true ->
        forall m, ImportRoute.first_match u m -> forwarded = m)
    /\ (includes "/files/" u = true ->
        (forall m, ~ ImportRoute.first_match u m) -> forwarded = u)
    /\ (includes "/files/" u = false -> forwarded = u).
Proof.
  intros Hbody Huri Hne Hstore.
  assert (Hd : destructurable body = true)
    by (destruct body; try reflexivity; discriminate).
  set (forwarded :=
         if includes "/files/" u then
           match ImportRoute.regex_match u with Some m => m | None => u end
         else u).
  assert (Hname : ImportRoute.file_name_of naf (JStr u) = ret (JStr forwarded)).
  { unfold ImportRoute.file_name_of, forwarded.
    destruct (includes "/files/" u); [|reflexivity].
    now destruct (ImportRoute.regex_match u). }
  exists forwarded.
  assert (Hlog : exists rest,
             fst (ImportRoute.POST decode importFile operations_get js so cd
                    naf request)
             = StoresImportFile store (JStr forwarded) :: rest).
  { unfold ImportRoute.POST, lift, call, bind, try_catch.
    rewrite Hbody, Hd. unfold ret at 1. cbv beta iota.
    rewrite Huri. cbn [truthy]. rewrite Hne. cbn [negb].
    rewrite Hname, Hstore. unfold ret. cbv beta iota.
    destruct (importFile store (JStr forwarded)) as [operation|e];
      [|now eexists].
    destruct (ImportRoute.poll_and_respond operations_get js so operation)
      as [t [r|e]]; now eexists. }
  destruct Hlog as [rest Hlog]. exists rest. split; [exact Hlog|].
  unfold forwarded. repeat split.
  - intros -> m Hm. now rewrite (RegexFacts.regex_match_complete _ _ Hm).
  - intros -> Hno. apply RegexFacts.regex_match_none in Hno. now rewrite Hno.
  - now intros ->.
Qed.

Lemma import_forwards_first_match_or_whole_uri_witness :
  exists forwarded rest,
    fst (ImportRoute.POST decoded (imports finished) (answers finished)
           no_json no_text type_error type_error
           (import_request
              "https://generativelanguage.googleapis.com/v1beta/files/abc123"))
      = StoresImportFile "fileSearchStores/kb" (JStr forwarded) :: rest
    /\ (includes "/files/"
          "https://generativelanguage.googleapis.com/v1beta/files/abc123" = true ->
        forall m,
          ImportRoute.first_match
            "https://generativelanguage.googleapis.com/v1beta/files/abc123" m ->
          forwarded = m)
    /\ (includes "/files/"
          "https://generativelanguage.googleapis.com/v1beta/files/abc123" = true ->
        (forall m,
            ~ ImportRoute.first_match
                "https://generativelanguage.googleapis.com/v1beta/files/abc123" m) ->
        forwarded
        = "https://generativelanguage.googleapis.com/v1beta/files/abc123")
    /\ (includes "/files/"
          "https://generativelanguage.googleapis.com/v1beta/files/abc123" = false ->
        forwarded
        = "https://generativelanguage.googleapis.com/v1beta/files/abc123").
Proof.
  apply (import_forwards_first_match_or_whole_uri
           decoded (imports finished) (answers finished) no_json no_text
           type_error type_error
           (import_request
              "https://generativelanguage.googleapis.com/v1beta/files/abc123")
           (JObj [("fileUri",
                   JStr "https://generativelanguage.googleapis.com/v1beta/files/abc123")]));
    reflexivity.
Defined.

(** C10.  A query request that gets to the store names (its query is
    not missing) and gives fileSearchStoreNames as one non-empty string
    is not turned down: the response is never a 400, and the handler's
    first call is the generation call, given the one-element list of that
    string.  The scalar and the one-element array are handled alike in
    every respect, same log and same response, whatever the rest of the
    body, query included. *)
Theorem scalar_store_name_is_wrapped :
  (forall env generateContent deck slides String_of cd request body name,
      Query.json_body request = Ok body ->
      truthy (prop "query" body) = true ->
      prop "fileSearchStoreNames" body = JStr name ->
      nonempty name = true ->
      let outcome :=
        Query.POST env generateContent deck slides String_of cd request in
      (exists rest,
          fst outcome
          = GenerateContent "gemini-2.5-flash"
              (Query.markdownQuery (to_string String_of (prop "query" body)))
              [JStr name] :: rest)
      /\ status (snd outcome) <> 400%Z)
  /\ (forall env generateContent deck slides String_of cd body body' name,
        prop "fileSearchStoreNames" body = JStr name ->
        nonempty name = true ->
        prop "fileSearchStoreNames" body' = JArr [JStr name] ->
        prop "query" body' = prop "query" body ->
        prop "createSlides" body' = prop "createSlides" body ->
        Query.POST env generateContent deck slides String_of cd
          {| Query.json_body := Ok body' |}
        = Query.POST env generateContent deck slides String_of cd
            {| Query.json_body := Ok body |}).
Proof.
  split.
  - intros env generateContent deck slides String_of cd request body name
      Hbody Hquery Hstores Hne outcome.
    assert (Hd : destructurable body = true)
      by (destruct body; try reflexivity; discriminate).
    assert (Hlen : is_zero (length_of (JStr name)) = false)
      by (destruct name; [discriminate | reflexivity]).
    subst outcome.
    unfold Query.POST, lift, call, bind, try_catch.
    rewrite Hbody, Hd. cbn [negb]. rewrite Hquery. cbn [negb].
    rewrite Hstores. cbn [truthy]. rewrite Hne, Hlen.
    cbn [negb orb Query.as_array].
    split.
    + destruct (generateContent _ _ _) as [result|e]; [|now eexists].
      destruct (negb _); [now eexists|].
      destruct (truthy (prop "createSlides" body)); [|now eexists].
      destruct (negb _); [now eexists|].
      destruct (negb _); [now eexists|].
      destruct (deck _ _) as [t1 [slideData|e1]]; [|now eexists].
      destruct (slides slideData) as [t2 [id|e2]]; now eexists.
    + destruct (generateContent _ _ _) as [result|e]; [|discriminate].
      destruct (negb _); [discriminate|].
      destruct (truthy (prop "createSlides" body)); [|discriminate].
      destruct (negb _); [discriminate|].
      destruct (negb _); [discriminate|].
      destruct (deck _ _) as [t1 [slideData|e1]]; [|discriminate].
      destruct (slides slideData) as [t2 [id|e2]]; discriminate.
  - intros env generateContent deck slides String_of cd body body' name
      Hstores Hne Hstores' Hq' Hc'.
    assert (Hd : destructurable body = true)
      by (destruct body; try reflexivity; discriminate).
    assert (Hd' : destructurable body' = true)
      by (destruct body'; try reflexivity; discriminate).
    assert (Hlen : is_zero (length_of (JStr name)) = false)
      by (destruct name; [discriminate | reflexivity]).
    unfold Query.POST, lift, call, bind, try_catch.
    cbn [Query.json_body].
    rewrite Hd, Hd', Hq', Hc', Hstores, Hstores'. cbn [negb].
    destruct (truthy (prop "query" body)); [|reflexivity].
    cbn [negb truthy]. rewrite Hne, Hlen. reflexivity.
Qed.

Lemma scalar_store_name_is_wrapped_witness :
  ((exists rest,
       fst (Query.POST no_env (generates (grounded [web_chunk])) no_deck
              no_slides no_text type_error
              (query_request [("query", JStr "why?");
                              ("fileSearchStoreNames", JStr "kb")]))
       = GenerateContent "gemini-2.5-flash"
           (Query.markdownQuery
              (to_string no_text
                 (prop "query"
                    (JObj [("query", JStr "why?");
                           ("fileSearchStoreNames", JStr "kb")]))))
           [JStr "kb"] :: rest)
   /\ status
        (snd (Query.POST no_env (generates (grounded [web_chunk])) no_deck
                no_slides no_text type_error
                (query_request [("query", JStr "why?");
                                ("fileSearchStoreNames", JStr "kb")])))
      <> 400%Z)
  /\ Query.POST no_env (generates (grounded [web_chunk])) no_deck no_slides
       no_text type_error
       {| Query.json_body :=
            Ok (JObj [("query", JStr "why?");
                      ("fileSearchStoreNames", JArr [JStr "kb"])]) |}
     = Query.POST no_env (generates (grounded [web_chunk])) no_deck no_slides
         no_text type_error
         {| Query.json_body :=
              Ok (JObj [("query", JStr "why?");
                        ("fileSearchStoreNames", JStr "kb")]) |}.
Proof.
  destruct scalar_store_name_is_wrapped as [Hfirst Hsame].
  split.
  - apply (Hfirst no_env (generates (grounded [web_chunk])) no_deck no_slides
             no_text type_error
             (query_request [("query", JStr "why?");
                             ("fileSearchStoreNames", JStr "kb")])
             (JObj [("query", JStr "why?");
                    ("fileSearchStoreNames", JStr "kb")])
             "kb");
      reflexivity.
  - apply (Hsame no_env (generates (grounded [web_chunk])) no_deck no_slides
             no_text type_error
             (JObj [("query", JStr "why?");
                    ("fileSearchStoreNames", JStr "kb")])
             (JObj [("query", JStr "why?");
                    ("fileSearchStoreNames", JArr [JStr "kb"])])
             "kb");
      reflexivity.
Defined.

End HandlerTheorems.

(** * Further properties of the poll sessions *)

Module PollerExtras.
Import Scenarios.

Section UploadSession.

Variable files_get : nat -> string -> res GFile.

Local Abbreviation uruns := (Upload.runs files_get).

(** A file that is not PROCESSING leaves the loop untouched. *)
Lemma upload_settled attempts cur t out :
  uruns attempts cur t out ->
  state_is PROCESSING cur = false ->
  t = [] /\ out = Ok (Upload.Fell cur attempts).
Proof.
  intros Hruns Hproc.
  destruct Hruns as [a c Hg|a c Hg Hn|a c n e Hg Hn Hne Hget
                    |a c n next Hg Hn Hne Hget Hf
                    |a c n next t out Hg Hn Hne Hget Hf Hrun];
    try (rewrite Hproc in Hg; discriminate).
  now split.
Qed.

Lemma upload_done_after n last attempts cur t out :
  (n < Upload.maxAttempts)%nat ->
  (forall k name, (k < n)%nat ->
     exists f, files_get k name = Ok f
               /\ state_is PROCESSING f = true
               /\ truthy_str (file_name f) = true) ->
  (forall name, files_get n name = Ok last) ->
  state_is ACTIVE last = true ->
  uruns attempts cur t out ->
  (attempts <= n)%nat ->
  state_is PROCESSING cur = true ->
  truthy_str (file_name cur) = true ->
  refresh_calls t = (S n - attempts)%nat
  /\ slept t = (1000 * Z.of_nat (S n - attempts))%Z
  /\ out = Ok (Upload.Fell last (S n)).
Proof.
  intros Hn Hbefore Hdone Hactive.
  assert (Hsettled : state_is PROCESSING last = false).
  { destruct (state_is PROCESSING last) eqn:H; [|reflexivity].
    discriminate (UploadFacts.state_is_unique _ _ _ H Hactive). }
  assert (Hnot_failed : state_is FAILED last = false).
  { destruct (state_is FAILED last) eqn:H; [|reflexivity].
    discriminate (UploadFacts.state_is_unique _ _ _ H Hactive). }
  induction 1 as [a c Hg|a c Hg Hn'|a c nm e Hg Hn' Hne Hget
                 |a c nm next Hg Hn' Hne Hget Hf
                 |a c nm next t out Hg Hn' Hne Hget Hf Hrun IH];
    intros Hle Hproc Hnamed.
  - rewrite Hproc in Hg. apply Nat.ltb_ge in Hg. lia.
  - congruence.
  - destruct (Nat.eq_dec a n) as [->|Hlt].
    + rewrite Hdone in Hget. discriminate.
    + destruct (Hbefore a nm) as (f & Hf & _); [lia|]. congruence.
  - destruct (Nat.eq_dec a n) as [->|Hlt].
    + rewrite Hdone in Hget. injection Hget as <-. congruence.
    + destruct (Hbefore a nm) as (f & Hget' & Hpf & _); [lia|].
      assert (f = next) as -> by congruence.
      discriminate (UploadFacts.state_is_unique _ _ _ Hpf Hf).
  - destruct (Nat.eq_dec a n) as [->|Hlt].
    + rewrite Hdone in Hget. injection Hget as <-.
      destruct (upload_settled _ _ _ _ Hrun Hsettled) as [-> ->].
      split; [|split; [|reflexivity]].
      * unfold refresh_calls. cbn [filter is_refresh length]. lia.
      * cbn [slept]. lia.
    + destruct (Hbefore a nm) as (f & Hget' & Hpf & Hnf); [lia|].
      assert (f = next) as -> by congruence.
      destruct IH as (Hcalls & Hslept & Hout); [lia|assumption|assumption|].
      split; [|split; [|exact Hout]].
      * change (S (refresh_calls t) = (S n - a)%nat). lia.
      * cbn [slept]. lia.
Qed.

(** A re-fetch that throws ends the loop with that exception. *)
Lemma upload_thrown_stops attempts cur t out :
  uruns attempts cur t out ->
  forall t1 name e t2,
    t = t1 ++ FilesGet name (Throw e) :: t2 ->
    t2 = [] /\ out = Throw e.
Proof.
  induction 1 as [a c Hg|a c Hg Hn|a c n e Hg Hn Hne Hget
                 |a c n next Hg Hn Hne Hget Hf
                 |a c n next t out Hg Hn Hne Hget Hf Hrun IH];
    intros t1 name e' t2 Heq.
  - destruct t1; discriminate.
  - destruct t1 as [|x [|y t1]]; discriminate.
  - destruct t1 as [|x [|y [|z t1]]]; try discriminate.
    injection Heq as _ <- <-. now split.
  - destruct t1 as [|x [|y [|z t1]]]; discriminate.
  - destruct t1 as [|x [|y t1]]; simpl in Heq; try discriminate.
    injection Heq as _ _ Heq. eauto.
Qed.

Lemma upload_slept_bounded attempts cur t out :
  uruns attempts cur t out ->
  (slept t <= 1000 * Z.of_nat (Upload.maxAttempts - attempts))%Z.
Proof.
  induction 1 as [a c Hg|a c Hg Hn|a c n e Hg Hn Hne Hget
                 |a c n next Hg Hn Hne Hget Hf
                 |a c n next t out Hg Hn Hne Hget Hf Hrun IH];
    try (apply andb_prop in Hg as [_ Hlt]; apply Nat.ltb_lt in Hlt);
    cbn [slept]; lia.
Qed.

End UploadSession.

Section ImportSession.

Variable operations_get : nat -> Operation -> res Operation.
Variable JSON_stringify : jsval -> jsval.
Variable String_of : jsval -> string.

Local Abbreviation iruns :=
  (ImportRoute.runs operations_get JSON_stringify String_of).

Lemma import_settled attempts cur t out :
  iruns attempts cur t out ->
  truthy_flag (op_done cur) = true ->
  t = [] /\ out = Ok (cur, attempts).
Proof.
  intros Hruns Hdone.
  destruct Hruns as [a c Hg|a c e Hg Hget|a c next Hg Hget Hf
                    |a c next t out Hg Hget Hf Hrun];
    try (rewrite Hdone in Hg; discriminate).
  now split.
Qed.

Lemma import_done_after n last attempts cur t out :
  (n < ImportRoute.maxAttempts)%nat ->
  (forall k arg, (k < n)%nat ->
     exists op, operations_get k arg = Ok op
                /\ truthy_flag (op_done op) = false
                /\ truthy (op_error op) = false) ->
  (forall arg, operations_get n arg = Ok last) ->
  truthy_flag (op_done last) = true ->
  truthy (op_error last) = false ->
  iruns attempts cur t out ->
  (attempts <= n)%nat ->
  truthy_flag (op_done cur) = false ->
  refresh_calls t = (S n - attempts)%nat
  /\ slept t = (5000 * Z.of_nat (S n - attempts))%Z
  /\ out = Ok (last, S n).
Proof.
  intros Hn Hbefore Hlast Hdone Hclean.
  induction 1 as [a c Hg|a c e Hg Hget|a c next Hg Hget Hf
                 |a c next t out Hg Hget Hf Hrun IH];
    intros Hle Hpending.
  - rewrite Hpending in Hg. apply Nat.ltb_ge in Hg. lia.
  - destruct (Nat.eq_dec a n) as [->|Hlt].
    + rewrite Hlast in Hget. discriminate.
    + destruct (Hbefore a c) as (f & Hf & _); [lia|]. congruence.
  - destruct (Nat.eq_dec a n) as [->|Hlt].
    + rewrite Hlast in Hget. injection Hget as <-. congruence.
    + destruct (Hbefore a c) as (f & Hget' & _ & Hef); [lia|].
      assert (f = next) as -> by congruence. congruence.
  - destruct (Nat.eq_dec a n) as [->|Hlt].
    + rewrite Hlast in Hget. injection Hget as <-.
      destruct (import_settled _ _ _ _ Hrun Hdone) as [-> ->].
      split; [|split; [|reflexivity]].
      * unfold refresh_calls. cbn [filter is_refresh length]. lia.
      * cbn [slept]. lia.
    + destruct (Hbefore a c) as (f & Hget' & Hpf & _); [lia|].
      assert (f = next) as -> by congruence.
      destruct IH as (Hcalls & Hslept & Hout); [lia|assumption|].
      split; [|split; [|exact Hout]].
      * change (S (refresh_calls t) = (S n - a)%nat). lia.
      * cbn [slept]. lia.
Qed.

Lemma import_thrown_stops attempts cur t out :
  iruns attempts cur t out ->
  forall t1 arg e t2,
    t = t1 ++ OperationsGet arg (Throw e) :: t2 ->
    t2 = [] /\ out = Throw e.
Proof.
  induction 1 as [a c Hg|a c e Hg Hget|a c next Hg Hget Hf
                 |a c next t out Hg Hget Hf Hrun IH];
    intros t1 arg e' t2 Heq.
  - destruct t1; discriminate.
  - destruct t1 as [|x [|y [|z t1]]]; try discriminate.
    injection Heq as _ <- <-. now split.
  - destruct t1 as [|x [|y [|z t1]]]; discriminate.
  - destruct t1 as [|x [|y t1]]; simpl in Heq; try discriminate.
    injection Heq as _ _ Heq. eauto.
Qed.

Lemma import_slept_bounded attempts cur t out :
  iruns attempts cur t out ->
  (slept t <= 5000 * Z.of_nat (ImportRoute.maxAttempts - attempts))%Z.
Proof.
  induction 1 as [a c Hg|a c e Hg Hget|a c next Hg Hget Hf
                 |a c next t out Hg Hget Hf Hrun IH];
    try (apply andb_prop in Hg as [_ Hlt]; apply Nat.ltb_lt in Hlt);
    cbn [slept]; lia.
Qed.

End ImportSession.

(** X1.  If the job is pending at the start, the first [n] re-fetches
    answer a pending job (upload: PROCESSING with a name; import: not done,
    no error) and the next one answers a finished job (ACTIVE; done and no
    error), with [n] below the budget of 30, then the session performs
    exactly [n + 1] re-fetches, has waited the fixed delay [n + 1] times,
    and answers success with the job of that last re-fetch. *)
Theorem job_done_on_a_refresh_is_returned :
  (forall files_get initial n last,
      (n < 30)%nat ->
      state_is PROCESSING initial = true ->
      truthy_str (file_name initial) = true ->
      (forall k name, (k < n)%nat ->
         exists f, files_get k name = Ok f
                   /\ state_is PROCESSING f = true
                   /\ truthy_str (file_name f) = true) ->
      (forall name, files_get n name = Ok last) ->
      state_is ACTIVE last = true ->
      snd (Upload.poll_session files_get initial)
        = json 200 (UploadOk (Upload.file_info last))
      /\ refresh_calls (fst (Upload.poll_session files_get initial)) = S n
      /\ slept (fst (Upload.poll_session files_get initial))
         = (1000 * Z.of_nat (S n))%Z)
  /\ (forall operations_get JSON_stringify String_of initial n last,
        (n < 30)%nat ->
        truthy_flag (op_done initial) = false ->
        (forall k arg, (k < n)%nat ->
           exists op, operations_get k arg = Ok op
                      /\ truthy_flag (op_done op) = false
                      /\ truthy (op_error op) = false) ->
        (forall arg, operations_get n arg = Ok last) ->
        truthy_flag (op_done last) = true ->
        truthy (op_error last) = false ->
        snd (ImportRoute.poll_session operations_get JSON_stringify String_of
               initial)
          = json 200 (ImportOk (op_response last) (op_name last))
        /\ refresh_calls
             (fst (ImportRoute.poll_session operations_get JSON_stringify
                     String_of initial)) = S n
        /\ slept
             (fst (ImportRoute.poll_session operations_get JSON_stringify
                     String_of initial))
           = (5000 * Z.of_nat (S n))%Z).
Proof.
  split.
  - intros files_get initial n last Hn Hproc Hnamed Hbefore Hlast Hactive.
    destruct (upload_done_after files_get n last 0 initial _ _
                Hn Hbefore Hlast Hactive
                (UploadFacts.upload_session_runs files_get initial)
                (Nat.le_0_l _) Hproc Hnamed) as (Hcalls & Hslept & Hout).
    rewrite UploadFacts.upload_session_log,
      UploadFacts.upload_session_response, Hout, Hcalls, Hslept.
    rewrite Nat.sub_0_r. simpl Upload.after_loop. rewrite Hactive.
    now repeat split.
  - intros operations_get js so initial n last Hn Hpending Hbefore Hlast
      Hdone Hclean.
    destruct (import_done_after operations_get js so n last 0 initial _ _
                Hn Hbefore Hlast Hdone Hclean
                (ImportFacts.import_session_runs operations_get js so initial)
                (Nat.le_0_l _) Hpending) as (Hcalls & Hslept & Hout).
    rewrite ImportFacts.import_session_log,
      ImportFacts.import_session_response, Hout, Hcalls, Hslept.
    rewrite Nat.sub_0_r. unfold ImportRoute.after_loop. simpl.
    rewrite Hdone. now repeat split.
Qed.

(** Scenario A of the specification: done on the third re-fetch. *)
Lemma job_done_on_a_refresh_is_returned_witness :
  snd (Upload.poll_session done_on_third_call processing)
    = json 200 (UploadOk (Upload.file_info active))
  /\ refresh_calls (fst (Upload.poll_session done_on_third_call processing))
     = 3%nat
  /\ slept (fst (Upload.poll_session done_on_third_call processing))
     = (1000 * Z.of_nat 3)%Z.
Proof.
  destruct job_done_on_a_refresh_is_returned as [HU _].
  apply (HU done_on_third_call processing 2%nat active).
  - lia.
  - reflexivity.
  - reflexivity.
  - intros k name Hk. exists processing.
    destruct k as [|[|k]]; [now repeat split | now repeat split | lia].
  - reflexivity.
  - reflexivity.
Defined.

(** X2.  A re-fetch that throws is the last entry of the session's log,
    and the response is the 500 error with the thrown Error's message,
    word for word; for a thrown value that is no Error, the route's fixed
    text ("Failed to upload file", "Failed to import"). *)
Theorem throwing_refresh_ends_session :
  (forall files_get initial t1 name e t2,
      fst (Upload.poll_session files_get initial)
        = t1 ++ FilesGet name (Throw e) :: t2 ->
      t2 = []
      /\ snd (Upload.poll_session files_get initial)
         = json 500 (ErrorBody (message_or "Failed to upload file" e)))
  /\ (forall operations_get JSON_stringify String_of initial t1 arg e t2,
        fst (ImportRoute.poll_session operations_get JSON_stringify String_of
               initial)
          = t1 ++ OperationsGet arg (Throw e) :: t2 ->
        t2 = []
        /\ snd (ImportRoute.poll_session operations_get JSON_stringify
                  String_of initial)
           = json 500 (ErrorBody (message_or "Failed to import" e))).
Proof.
  split.
  - intros files_get initial t1 name e t2 Hlog.
    rewrite UploadFacts.upload_session_log in Hlog.
    destruct (upload_thrown_stops _ _ _ _ _
                (UploadFacts.upload_session_runs files_get initial)
                _ _ _ _ Hlog) as [Hlast Hout].
    split; [exact Hlast|].
    now rewrite UploadFacts.upload_session_response, Hout.
  - intros operations_get js so initial t1 arg e t2 Hlog.
    rewrite ImportFacts.import_session_log in Hlog.
    destruct (import_thrown_stops _ _ _ _ _ _ _
                (ImportFacts.import_session_runs operations_get js so initial)
                _ _ _ _ Hlog) as [Hlast Hout].
    split; [exact Hlast|].
    now rewrite ImportFacts.import_session_response, Hout.
Qed.

Lemma throwing_refresh_ends_session_witness :
  snd (Upload.poll_session
         (fun _ _ => Throw (JsError "fetch failed")) processing)
    = json 500 (ErrorBody "fetch failed")
  /\ snd (ImportRoute.poll_session
            (fun _ _ => Throw NonError) no_json no_text running)
     = json 500 (ErrorBody "Failed to import").
Proof.
  destruct throwing_refresh_ends_session as [HU HI].
  split.
  - destruct (HU (fun _ _ => Throw (JsError "fetch failed")) processing
                [Sleep 1000] "files/abc" (JsError "fetch failed") []
                eq_refl) as [_ H].
    exact H.
  - destruct (HI (fun _ _ => Throw NonError) no_json no_text running
                [Sleep 5000] running NonError [] eq_refl) as [_ H].
    exact H.
Defined.

End PollerExtras.

(** * Further properties of the request handlers *)

Module HandlerExtras.
Import Scenarios.

(** What an upload request can put in the log. *)
Lemma upload_POST_log files_upload files_get naf request :
  fst (Upload.POST files_upload files_get naf request) = []
  \/ (exists blob name mime,
         fst (Upload.POST files_upload files_get naf request)
         = [FilesUpload blob name mime])
  \/ (exists blob name mime initial,
         fst (Upload.POST files_upload files_get naf request)
         = FilesUpload blob name mime
             :: fst (Upload.poll_session files_get initial)).
Proof.
  unfold Upload.POST, Upload.poll_session, lift, call, bind, try_catch.
  destruct (Upload.formData request) as [form|e]; [|now left].
  destruct (lookup "file" form) as [[file|s]|]; [| |now left].
  - destruct (files_upload _ _ _) as [initial|e].
    + right. right. eexists _, _, _, initial.
      now destruct (Upload.poll_and_respond files_get initial) as [t [r|e]].
    + right. left. now eexists _, _, _.
  - destruct (nonempty s); now left.
Qed.

Lemma import_POST_log decode importFile operations_get js so cd naf request :
  fst (ImportRoute.POST decode importFile operations_get js so cd naf request)
    = []
  \/ (exists store fileName,
         fst (ImportRoute.POST decode importFile operations_get js so cd naf
                request)
         = [StoresImportFile store fileName])
  \/ (exists store fileName initial,
         fst (ImportRoute.POST decode importFile operations_get js so cd naf
                request)
         = StoresImportFile store fileName
             :: fst (ImportRoute.poll_session operations_get js so initial)).
Proof.
  assert (Hpure : forall v,
             fst (ImportRoute.file_name_of naf v) = []).
  { intros v. unfold ImportRoute.file_name_of.
    destruct v as [| |b|q|s|items|fields]; try reflexivity.
    - destruct (includes "/files/" s); [|reflexivity].
      now destruct (ImportRoute.regex_match s).
    - now destruct (existsb _ items). }
  unfold ImportRoute.POST, ImportRoute.poll_session, lift, call, bind,
    try_catch, ret, throw.
  destruct (ImportRoute.json_body request) as [body|e]; [|now left].
  destruct (destructurable body); [|now left].
  cbv beta iota.
  destruct (negb (truthy (prop "fileUri" body))); [now left|].
  specialize (Hpure (prop "fileUri" body)).
  destruct (ImportRoute.file_name_of naf (prop "fileUri" body))
    as [t0 [fileName|e]]; simpl in Hpure; subst t0; [|now left].
  destruct (decode (ImportRoute.storeName request)) as [store|e];
    [|now left].
  destruct (importFile store fileName) as [initial|e].
  - right. right. exists store, fileName, initial.
    now destruct (ImportRoute.poll_and_respond operations_get js so initial)
      as [t [r|e]].
  - right. left. now exists store, fileName.
Qed.

Lemma paced_counts d t :
  paced d t -> upload_calls t = 0%nat /\ import_calls t = 0%nat.
Proof.
  induction 1 as [| |e t He Ht [IHu IHi]]; try (now split).
  destruct e; try discriminate; now split.
Qed.

(** X3.  Whatever the request and whatever the remote answers, one upload
    request makes at most one upload call, at most 30 status re-fetches,
    and sleeps at most 30 seconds in all; one import request makes at most
    one import call, at most 30 re-fetches, and sleeps at most 150
    seconds. *)
Theorem one_request_stays_within_its_budget :
  (forall files_upload files_get naf request,
      let log := fst (Upload.POST files_upload files_get naf request) in
      (upload_calls log <= 1)%nat
      /\ (refresh_calls log <= 30)%nat
      /\ (slept log <= 30000)%Z)
  /\ (forall decode importFile operations_get js so cd naf request,
        let log :=
          fst (ImportRoute.POST decode importFile operations_get js so cd naf
                 request) in
        (import_calls log <= 1)%nat
        /\ (refresh_calls log <= 30)%nat
        /\ (slept log <= 150000)%Z).
Proof.
  split.
  - intros fu fg naf request log. subst log.
    destruct (upload_POST_log fu fg naf request)
      as [->|[(blob & name & mime & ->)|(blob & name & mime & initial & ->)]];
      try (cbn; repeat split; lia).
    rewrite UploadFacts.upload_session_log.
    assert (Hruns := UploadFacts.upload_session_runs fg initial).
    assert (Hcalls := UploadFacts.upload_calls_bounded _ _ _ _ _ Hruns).
    assert (Hslept := PollerExtras.upload_slept_bounded _ _ _ _ _ Hruns).
    destruct (paced_counts _ _ (UploadFacts.upload_paced _ _ _ _ _ Hruns))
      as [Hu _].
    unfold upload_calls, refresh_calls in *.
    cbn [filter is_refresh length slept] in *.
    change Upload.maxAttempts with 30%nat in *. repeat split; lia.
  - intros decode imp og js so cd naf request log. subst log.
    destruct (import_POST_log decode imp og js so cd naf request)
      as [->|[(store & fileName & ->)|(store & fileName & initial & ->)]];
      try (cbn; repeat split; lia).
    rewrite ImportFacts.import_session_log.
    assert (Hruns := ImportFacts.import_session_runs og js so initial).
    assert (Hcalls := ImportFacts.import_calls_bounded _ _ _ _ _ _ _ Hruns).
    assert (Hslept := PollerExtras.import_slept_bounded _ _ _ _ _ _ _ Hruns).
    destruct (paced_counts _ _ (ImportFacts.import_paced _ _ _ _ _ _ _ Hruns))
      as [_ Hi].
    unfold import_calls, refresh_calls in *.
    cbn [filter is_refresh length slept] in *.
    change ImportRoute.maxAttempts with 30%nat in *. repeat split; lia.
Qed.

Lemma upload_session_status files_get initial :
  status (snd (Upload.poll_session files_get initial)) <> 400%Z.
Proof.
  rewrite UploadFacts.upload_session_response.
  assert (Hruns := UploadFacts.upload_session_runs files_get initial).
  destruct (snd (Upload.poll_loop files_get Upload.maxAttempts 0 initial))
    as [[last n|r]|e] eqn:Hout.
  - simpl. now destruct (state_is ACTIVE last).
  - now destruct (UploadFacts.upload_returned _ _ _ _ _ Hruns _ eq_refl)
      as [f ->].
  - discriminate.
Qed.

Lemma import_session_status operations_get js so initial :
  status (snd (ImportRoute.poll_session operations_get js so initial))
    <> 400%Z.
Proof.
  rewrite ImportFacts.import_session_response.
  destruct (snd (ImportRoute.poll_loop operations_get js so
                   ImportRoute.maxAttempts 0 initial)) as [[last n]|e].
  - unfold ImportRoute.after_loop. simpl.
    now destruct (truthy_flag (op_done last)).
  - discriminate.
Qed.

(** X4.  The handlers answer 400 for a missing input and for nothing
    else: every other failure (a body that does not parse, an input of an
    unusable type, a store name that cannot be decoded, a failing remote
    call, a timeout) has another status.  Upload: 400 exactly when the
    form has no "file" entry or an empty-string one.  Import: exactly
    when the body is not null and its fileUri is falsy.  Query: exactly
    when the body is not null and the query is falsy or the store names
    are falsy or of length 0.  Deletions: exactly when "name" is missing
    or empty. *)
Theorem status_400_exactly_for_missing_input :
  (forall files_upload files_get naf request,
      status (snd (Upload.POST files_upload files_get naf request)) = 400%Z
      <-> exists form,
            Upload.formData request = Ok form
            /\ (lookup "file" form = None
                \/ lookup "file" form = Some (Upload.EntryString "")))
  /\ (forall decode importFile operations_get js so cd naf request,
        status (snd (ImportRoute.POST decode importFile operations_get js so
                       cd naf request)) = 400%Z
        <-> exists body,
              ImportRoute.json_body request = Ok body
              /\ destructurable body = true
              /\ truthy (prop "fileUri" body) = false)
  /\ (forall env generateContent deck slides String_of cd request,
        status (snd (Query.POST env generateContent deck slides String_of cd
                       request)) = 400%Z
        <-> exists body,
              Query.json_body request = Ok body
              /\ destructurable body = true
              /\ (truthy (prop "query" body) = false
                  \/ truthy (prop "fileSearchStoreNames" body) = false
                  \/ is_zero (length_of (prop "fileSearchStoreNames" body))
                     = true))
  /\ (forall files_delete request,
        status (snd (FilesRoute.DELETE files_delete request)) = 400%Z
        <-> truthy_str (lookup "name" (FilesRoute.searchParams request))
            = false)
  /\ (forall stores_delete request,
        status (snd (StoresRoute.DELETE stores_delete request)) = 400%Z
        <-> truthy_str (lookup "name" (StoresRoute.searchParams request))
            = false).
Proof.
  split; [|split; [|split; [|split]]].
  - intros fu fg naf request. split.
    + destruct (Upload.formData request) as [form|e] eqn:Hform.
      * destruct (lookup "file" form) as [[file|[|c s]]|] eqn:Hfile;
          try (intros _; exists form; now auto).
        -- destruct (fu {| blob_bytes := Upload.web_bytes file;
                          blob_type :=
                            if nonempty (Upload.web_type file)
                            then Upload.web_type file
                            else "application/octet-stream" |}
                        (Upload.web_name file)
                        (if nonempty (Upload.web_type file)
                         then Upload.web_type file
                         else "application/octet-stream")) as [initial|e]
             eqn:Hup.
           ++ rewrite (HandlerFacts.upload_POST_polls fu fg naf request form
                         file initial Hform Hfile Hup). simpl snd.
              intros H. now apply upload_session_status in H.
           ++ unfold Upload.POST, lift, call, bind, try_catch.
              rewrite Hform, Hfile, Hup. discriminate.
        -- unfold Upload.POST, lift, call, bind, try_catch.
           rewrite Hform, Hfile. discriminate.
      * unfold Upload.POST, lift, call, bind, try_catch.
        rewrite Hform. discriminate.
    + intros (form & Hform & [Hfile|Hfile]);
        unfold Upload.POST, lift, call, bind, try_catch;
        now rewrite Hform, Hfile.
  - intros decode imp og js so cd naf request. split.
    + unfold ImportRoute.POST, lift, call, bind, try_catch, ret, throw.
      destruct (ImportRoute.json_body request) as [body|e]; [|discriminate].
      destruct (destructurable body) eqn:Hd; [|discriminate].
      cbv beta iota.
      destruct (truthy (prop "fileUri" body)) eqn:Huri;
        [|intros _; now exists body].
      cbn [negb].
      destruct (ImportRoute.file_name_of naf (prop "fileUri" body))
        as [t0 [fileName|e]] eqn:Hname.
      * destruct (decode (ImportRoute.storeName request)) as [store|e];
          [|discriminate].
        destruct (imp store fileName) as [initial|e]; [|discriminate].
        assert (Hs := import_session_status og js so initial).
        unfold ImportRoute.poll_session, try_catch in Hs.
        destruct (ImportRoute.poll_and_respond og js so initial)
          as [t [r|e]]; simpl in *; intros H; contradiction.
      * discriminate.
    + intros (body & Hbody & Hd & Huri).
      unfold ImportRoute.POST, lift, call, bind, try_catch, ret, throw.
      rewrite Hbody, Hd. cbv beta iota. now rewrite Huri.
  - intros env gen deck slides so cd request. split.
    + unfold Query.POST, lift, call, bind, try_catch, ret, throw.
      destruct (Query.json_body request) as [body|e]; [|discriminate].
      destruct (destructurable body) eqn:Hd; [|discriminate]. cbn [negb].
      destruct (truthy (prop "query" body)) eqn:Hq;
        [|intros _; exists body; now auto].
      cbn [negb].
      destruct (truthy (prop "fileSearchStoreNames" body)) eqn:Hs;
        [|intros _; exists body; now auto].
      cbn [negb orb].
      destruct (is_zero (length_of (prop "fileSearchStoreNames" body)))
        eqn:Hz; [intros _; exists body; now auto|].
      destruct (gen _ _ _) as [result|e]; [|discriminate].
      destruct (negb _); [discriminate|].
      destruct (truthy (prop "createSlides" body)); [|discriminate].
      destruct (negb _); [discriminate|].
      destruct (negb _); [discriminate|].
      destruct (deck _ _) as [t1 [slideData|e1]]; [|discriminate].
      destruct (slides slideData) as [t2 [id|e2]]; discriminate.
    + intros (body & Hbody & Hd & Hmissing).
      unfold Query.POST, lift, call, bind, try_catch, ret, throw.
      rewrite Hbody, Hd. cbn [negb].
      destruct (truthy (prop "query" body)); [|reflexivity]. cbn [negb].
      destruct Hmissing as [Hm|[Hm|Hm]]; [discriminate| |].
      * now rewrite Hm.
      * rewrite Hm. now rewrite orb_true_r.
  - intros fd request. unfold FilesRoute.DELETE, call, bind, try_catch, ret.
    destruct (lookup "name" (FilesRoute.searchParams request)) as [n|];
      simpl; [|now split].
    destruct (nonempty n); [|now split].
    destruct (fd n); split; discriminate.
  - intros sd request. unfold StoresRoute.DELETE, call, bind, try_catch, ret.
    destruct (lookup "name" (StoresRoute.searchParams request)) as [n|];
      simpl; [|now split].
    destruct (nonempty n); [|now split].
    destruct (sd n _); split; discriminate.
Qed.

Lemma status_400_exactly_for_missing_input_witness :
  exists body,
    ImportRoute.json_body
      {| ImportRoute.json_body := Ok (JObj [("fileUri", JStr "")]);
         ImportRoute.storeName := "fileSearchStores/kb" |} = Ok body
    /\ destructurable body = true
    /\ truthy (prop "fileUri" body) = false.
Proof.
  destruct status_400_exactly_for_missing_input as (_ & HI & _).
  apply (HI decoded (imports finished) (answers finished) no_json no_text
            type_error type_error
            {| ImportRoute.json_body := Ok (JObj [("fileUri", JStr "")]);
               ImportRoute.storeName := "fileSearchStores/kb" |}).
  reflexivity.
Defined.

Lemma prefix_slash_free p : forall s,
  String.prefix p s = true -> ImportRoute.slash_free s ->
  ImportRoute.slash_free p.
Proof.
  induction p as [|x p IH]; intros [|y s] H Hfree; simpl in *;
    try exact I; try discriminate.
  destruct (ascii_dec x y) as [->|]; [|discriminate].
  destruct Hfree as [Hy Hfree]. split; [exact Hy | now apply (IH s)].
Qed.

Lemma includes_cons needle c rest :
  includes needle (String c rest)
  = String.prefix needle (String c rest) || includes needle rest.
Proof. reflexivity. Qed.

Lemma slash_free_excludes run :
  ImportRoute.slash_free run -> includes "/files/" run = false.
Proof.
  induction run as [|c run IH]; intros Hfree; [reflexivity|].
  destruct Hfree as [Hc Hfree]. cbn [includes].
  rewrite (IH Hfree), orb_false_r.
  destruct (String.prefix "/files/" (String c run)) eqn:Hp; [|reflexivity].
  apply prefix_slash_free in Hp; [|now split].
  destruct Hp as [Hp _]. now contradiction Hp.
Qed.

Lemma short_name_excludes run :
  ImportRoute.slash_free run -> includes "/files/" ("files/" ++ run) = false.
Proof.
  intros Hfree.
  assert (Htail : includes "/files/" (String ImportRoute.slash run) = false).
  { cbn [includes]. rewrite (slash_free_excludes run Hfree), orb_false_r.
    destruct (String.prefix "/files/" (String ImportRoute.slash run)) eqn:Hp;
      [|reflexivity].
    simpl in Hp. apply prefix_slash_free in Hp; [|exact Hfree].
    simpl in Hp. destruct Hp as (_ & _ & _ & _ & _ & Hp & _).
    now contradiction Hp. }
  change ("files/" ++ run)%string
    with (String "f" (String "i" (String "l" (String "e" (String "s"
            (String ImportRoute.slash run)))))).
  do 5 rewrite includes_cons. rewrite Htail. reflexivity.
Qed.

(** X5.  The file name the import handler takes from a string fileUri:
    extraction never throws and calls nothing; what it yields is a piece
    of the fileUri (the fileUri is some text, the name, some text); and
    it is stable, that is, extracting from the yielded name yields that
    name again, so a name that went through the handler once (such as the
    short form files/<id>) is forwarded unchanged. *)
Theorem file_name_extraction_is_stable naf (fileUri : string) :
  exists name before behind,
    ImportRoute.file_name_of naf (JStr fileUri) = ([], Ok (JStr name))
    /\ fileUri = (before ++ name ++ behind)%string
    /\ ImportRoute.file_name_of naf (JStr name) = ([], Ok (JStr name)).
Proof.
  assert (Hwhole : fileUri = ("" ++ fileUri ++ "")%string).
  { simpl. induction fileUri as [|c s IH]; simpl; congruence. }
  unfold ImportRoute.file_name_of.
  destruct (includes "/files/" fileUri) eqn:Hinc.
  - destruct (ImportRoute.regex_match fileUri) as [m|] eqn:Hm.
    + apply RegexFacts.regex_match_sound in Hm.
      destruct Hm as (pre & suf & -> & (run & post & -> & _ & Hfree & _ & ->)
                      & _).
      exists ("files/" ++ run)%string, pre, post. split; [reflexivity|].
      split; [now rewrite !RegexFacts.append_assoc|].
      now rewrite (short_name_excludes run Hfree).
    + exists fileUri, EmptyString, EmptyString. rewrite Hinc, Hm. now auto.
  - exists fileUri, EmptyString, EmptyString. rewrite Hinc. now auto.
Qed.

(** X6.  What a query request can make the handler do, in order.  Either
    nothing at all, or first one search-grounded generation call on model
    gemini-2.5-flash with the query followed by the formatting
    instructions and a store list that is never empty.  The slide helpers
    run only behind that call, only for a truthy createSlides, only with
    both credentials set and a non-empty answer text; the presentation
    helper runs only on a deck the generation helper returned, with what
    the two helpers did logged in that order. *)
Theorem query_calls_in_order
        env generateContent deck slides String_of cd request :
  fst (Query.POST env generateContent deck slides String_of cd request) = []
  \/ exists body stores search,
       Query.json_body request = Ok body
       /\ stores = Query.as_array (prop "fileSearchStoreNames" body)
       /\ stores <> []
       /\ search = GenerateContent "gemini-2.5-flash"
                     (Query.markdownQuery
                        (to_string String_of (prop "query" body)))
                     stores
       /\ (fst (Query.POST env generateContent deck slides String_of cd
                  request) = [search]
           \/ exists answer,
                generateContent "gemini-2.5-flash"
                  (Query.markdownQuery
                     (to_string String_of (prop "query" body))) stores
                  = Ok answer
                /\ truthy_str (text answer) = true
                /\ truthy (prop "createSlides" body) = true
                /\ truthy_str (Query.GEMINI_API_KEY env) = true
                /\ truthy_str (Query.GOOGLE_APPLICATION_CREDENTIALS env)
                   = true
                /\ (fst (Query.POST env generateContent deck slides String_of
                           cd request)
                    = search :: fst (deck (prop "query" body) stores)
                    \/ exists slideData,
                         snd (deck (prop "query" body) stores) = Ok slideData
                         /\ fst (Query.POST env generateContent deck slides
                                   String_of cd request)
                            = search :: fst (deck (prop "query" body) stores)
                                ++ fst (slides slideData))).
Proof.
  unfold Query.POST, lift, call, bind, try_catch, ret, throw.
  destruct (Query.json_body request) as [body|e]; [|now left].
  destruct (destructurable body); [|now left]. cbn [negb].
  destruct (truthy (prop "query" body)); [|now left]. cbn [negb].
  destruct (truthy (prop "fileSearchStoreNames" body)) eqn:Hs; [|now left].
  cbn [negb orb].
  destruct (is_zero (length_of (prop "fileSearchStoreNames" body))) eqn:Hz;
    [now left|].
  right. eexists body, _, _. split; [reflexivity|]. split; [reflexivity|].
  split.
  { unfold Query.as_array.
    destruct (prop "fileSearchStoreNames" body) as [| |b|q|s|[|item items]|f];
      try discriminate. }
  split; [reflexivity|].
  destruct (generateContent _ _ _) as [answer|e] eqn:Hgen; [|now left].
  destruct (truthy_str (text answer)) eqn:Htext; [|now left]. cbn [negb].
  destruct (truthy (prop "createSlides" body)) eqn:Hc; [|now left].
  destruct (truthy_str (Query.GEMINI_API_KEY env)) eqn:Hkey; [|now left].
  destruct (truthy_str (Query.GOOGLE_APPLICATION_CREDENTIALS env)) eqn:Hcred;
    [|now left].
  cbn [negb].
  right. exists answer. split; [reflexivity|]. split; [exact Htext|].
  do 3 (split; [reflexivity|]).
  destruct (deck _ _) as [t1 [slideData|e1]]; [|left; cbn; f_equal;
                                                 now rewrite app_nil_r].
  right. exists slideData. split; [reflexivity|].
  destruct (slides slideData) as [t2 [id|e2]]; cbn;
    now rewrite ?app_nil_r.
Qed.

End HandlerExtras.

(** ** The slide helpers *)

Module DeckFacts.

Import Deck.

Lemma decimal_injective a b : decimal a = decimal b -> a = b.
Proof.
  unfold decimal. intros H.
  apply (f_equal NilEmpty.uint_of_string) in H.
  rewrite !NilEmpty.usu in H. injection H as H.
  apply (f_equal Nat.of_uint) in H.
  now rewrite !Unsigned.of_to in H.
Qed.

Lemma slideId_injective a b : slideId a = slideId b -> a = b.
Proof.
  unfold slideId. simpl. intros [= H]. now apply decimal_injective.
Qed.

Lemma created_ids_app a b :
  created_ids (a ++ b) = created_ids a ++ created_ids b.
Proof. unfold created_ids. now rewrite flat_map_app. Qed.

Lemma insertion_indices_app a b :
  insertion_indices (a ++ b) = insertion_indices a ++ insertion_indices b.
Proof. unfold insertion_indices. now rewrite flat_map_app. Qed.

Section Requests.

Variable String_of : jsval -> string.
Variable cannot_read : jsval -> string -> string.
Variable not_a_function : string -> string.

Local Abbreviation slide_requests :=
  (Deck.slide_requests String_of cannot_read not_a_function).
Local Abbreviation content_requests :=
  (Deck.content_requests String_of cannot_read not_a_function).
Local Abbreviation bulletText :=
  (Deck.bulletText String_of cannot_read not_a_function).

Lemma member_plain key v t : member cannot_read key v = Raises t -> plain t.
Proof.
  unfold member, plain. destruct v; intros [= <-]; eauto.
Qed.

Lemma bulletText_plain slide t : bulletText slide = Raises t -> plain t.
Proof.
  unfold Deck.bulletText, plain.
  destruct (prop "bulletPoints" slide); intros [= <-]; eauto.
Qed.

Lemma bulletText_returns slide :
  (exists text, bulletText slide = Returns text)
  <-> is_array (prop "bulletPoints" slide) = true.
Proof.
  unfold Deck.bulletText.
  destruct (prop "bulletPoints" slide); simpl; split;
    try (intros [text [=]]); try discriminate; eauto.
Qed.

Lemma slide_requests_returns index slide rs :
  slide_requests index slide = Returns rs ->
  exists text,
    bulletText slide = Returns text
    /\ rs = [CreateSlide (slideId index) (index + 1) "TITLE_AND_BODY";
             InsertText (slideId index ++ ".p1-t1") 0 (prop "title" slide);
             InsertText (slideId index ++ ".p2") 0 (JStr text)].
Proof.
  unfold Deck.slide_requests.
  destruct (member cannot_read "title" slide) as [title|t] eqn:Htitle;
    [|discriminate].
  destruct (bulletText slide) as [text|t]; [|discriminate].
  intros [= <-]. exists text. split; [reflexivity|].
  unfold member in Htitle.
  destruct slide; try discriminate; now injection Htitle as <-.
Qed.

Lemma slide_requests_plain index slide t :
  slide_requests index slide = Raises t -> plain t.
Proof.
  unfold Deck.slide_requests.
  destruct (member cannot_read "title" slide) as [title|t'] eqn:Htitle.
  - destruct (bulletText slide) as [text|t'] eqn:Htext; [discriminate|].
    intros [= <-]. now apply bulletText_plain in Htext.
  - intros [= <-]. now apply member_plain in Htitle.
Qed.

Lemma content_requests_plain slides : forall index t,
  content_requests index slides = Raises t -> plain t.
Proof.
  induction slides as [|slide rest IH]; intros index t; cbn [Deck.content_requests].
  - discriminate.
  - destruct (slide_requests index slide) as [first|t'] eqn:Hfirst.
    + destruct (content_requests (S index) rest) as [others|t'] eqn:Hrest;
        [discriminate|].
      intros [= <-]. now apply IH in Hrest.
    + intros [= <-]. now apply slide_requests_plain in Hfirst.
Qed.

Lemma content_requests_needs_bullets slides : forall index rs,
  content_requests index slides = Returns rs ->
  forall slide, In slide slides -> is_array (prop "bulletPoints" slide) = true.
Proof.
  induction slides as [|slide rest IH]; intros index rs H s Hin;
    [destruct Hin|].
  cbn [Deck.content_requests] in H.
  destruct (slide_requests index slide) as [first|t'] eqn:Hfirst;
    [|discriminate].
  destruct (content_requests (S index) rest) as [others|t'] eqn:Hrest;
    [|discriminate].
  destruct Hin as [<-|Hin]; [|now apply (IH _ _ Hrest)].
  apply slide_requests_returns in Hfirst. destruct Hfirst as (text & Ht & _).
  apply bulletText_returns. now exists text.
Qed.

Lemma content_requests_shape slides : forall index rs before,
  content_requests index slides = Returns rs ->
  List.length rs = 3 * List.length slides
  /\ created_ids rs = map slideId (seq index (List.length slides))
  /\ insertion_indices rs = seq (S index) (List.length slides)
  /\ texts_follow_slides before rs.
Proof.
  induction slides as [|slide rest IH]; intros index rs before;
    cbn [Deck.content_requests].
  - intros [= <-]. do 3 (split; [reflexivity|]).
    intros pre oid i text post H. destruct pre; discriminate.
  - destruct (slide_requests index slide) as [first|t'] eqn:Hfirst;
      [|discriminate].
    destruct (content_requests (S index) rest) as [others|t'] eqn:Hrest;
      [|discriminate].
    intros [= <-].
    apply slide_requests_returns in Hfirst.
    destruct Hfirst as (text & _ & ->).
    destruct (IH (S index) others
                 (before ++
                  [CreateSlide (slideId index) (index + 1) "TITLE_AND_BODY";
                   InsertText (slideId index ++ ".p1-t1") 0
                              (prop "title" slide);
                   InsertText (slideId index ++ ".p2") 0 (JStr text)])
                 Hrest)
      as (Hlen & Hids & Hidx & Htexts).
    split; [cbn [List.length app]; lia|].
    split; [now rewrite created_ids_app, Hids|].
    split.
    { rewrite insertion_indices_app, Hidx.
      replace (index + 1) with (S index) by lia. reflexivity. }
    intros pre oid i txt post Heq.
    assert (Hhere : In (slideId index)
                       (created_ids (before ++
                          CreateSlide (slideId index) (index + 1)
                                      "TITLE_AND_BODY" :: nil))).
    { rewrite created_ids_app. apply in_or_app. right. now left. }
    destruct pre as [|r1 [|r2 [|r3 pre]]]; cbn in Heq.
    + discriminate.
    + injection Heq as <- <- <- <- _. split; [reflexivity|].
      exists (slideId index). split; [exact Hhere | now left].
    + injection Heq as <- <- <- <- <- _. split; [reflexivity|].
      exists (slideId index). split; [|now right].
      rewrite created_ids_app in *. cbn in *.
      apply in_app_or in Hhere. apply in_or_app.
      destruct Hhere as [?|?]; [now left | right; now left].
    + injection Heq as <- <- <- Heq.
      destruct (Htexts pre oid i txt post Heq) as (Hi & id & Hin & Hoid).
      split; [exact Hi|]. exists id. split; [|exact Hoid].
      now rewrite <- app_assoc in Hin.
Qed.

End Requests.

End DeckFacts.

Module DeckTheorems.

Import Scenarios Deck DeckScenarios.

(** X7.  The generation helper of the query route performs exactly one
    call, on model gemini-2.5-flash with the prompt built from the query
    and the store names it was given.  A deck it returns is what
    [JSON.parse] made of the answer's non-empty text, and it has a truthy
    title and a slides array with at least one entry.  Whatever goes
    wrong (the call throws an Error or anything else, no text, text that
    does not parse, a null or incomplete deck) leaves the helper as an
    Error without a code whose message starts with
    "Gemini generation failed: ". *)
Theorem generated_deck_is_checked
        generateContent JSON_parse String_of cr query stores :
  let run := generateSlideContentFromQuery generateContent JSON_parse
               String_of cr query stores in
  let prompt := query_prompt (to_string String_of query) in
  fst run = [GenerateJson "gemini-2.5-flash" prompt stores]
  /\ (forall deck,
        snd run = Returns deck ->
        exists answer t slides,
          generateContent "gemini-2.5-flash" prompt stores = Returns answer
          /\ text answer = Some t /\ t <> EmptyString
          /\ JSON_parse t = Some deck
          /\ truthy (prop "title" deck) = true
          /\ prop "slides" deck = JArr slides
          /\ slides <> [])
  /\ (forall e,
        snd run = Raises e ->
        exists why, e = Error ("Gemini generation failed: " ++ why)).
Proof.
  cbv zeta.
  unfold generateSlideContentFromQuery, generate_deck, try_catch, bind, call,
    lift, ret, throw.
  destruct (generateContent _ _ _) as [answer|t0] eqn:Hgen.
  2:{ cbn. split; [reflexivity|]. split; [discriminate|].
      intros e [= <-]. eauto. }
  destruct (text answer) as [[|c t]|] eqn:Htext; cbn [nonempty].
  1,3: cbn; split; [reflexivity|]; split; [discriminate|];
       intros e [= <-]; eauto.
  destruct (JSON_parse (String c t)) as [v|] eqn:Hparse.
  2:{ cbn. split; [reflexivity|]. split; [discriminate|].
      intros e [= <-]. eauto. }
  unfold validated, member.
  destruct v as [| |b|q|s|items|fields];
    try (cbn; split; [reflexivity|]; split; [discriminate|];
         intros e [= <-]; eauto).
  destruct (truthy (prop "title" (JObj fields))) eqn:Htitle;
    [|cbn; split; [reflexivity|]; split; [discriminate|];
      intros e [= <-]; eauto].
  cbn [negb orb].
  destruct (prop "slides" (JObj fields)) as [| |b|q|s|[|item items]|fs]
    eqn:Hslides;
    try (cbn; split; [reflexivity|]; split; [discriminate|];
         intros e [= <-]; eauto).
  cbn. split; [reflexivity|]. split; [|discriminate].
  intros deck [= <-]. exists answer, (String c t), (item :: items).
  repeat split; try assumption; discriminate.
Qed.

Lemma generated_deck_is_checked_witness :
  exists answer t slides,
    answers_text "{...}" "gemini-2.5-flash"
      (query_prompt (to_string no_text (JStr "What changed?")))
      [JStr "fileSearchStores/kb"] = Returns answer
    /\ text answer = Some t /\ t <> EmptyString
    /\ parses "{...}" (deck [slide "Overview" ["Revenue up"; "Costs flat"]]) t
       = Some (deck [slide "Overview" ["Revenue up"; "Costs flat"]])
    /\ truthy (prop "title"
                 (deck [slide "Overview" ["Revenue up"; "Costs flat"]]))
       = true
    /\ prop "slides" (deck [slide "Overview" ["Revenue up"; "Costs flat"]])
       = JArr slides
    /\ slides <> [].
Proof.
  apply (generated_deck_is_checked
           (answers_text "{...}")
           (parses "{...}" (deck [slide "Overview" ["Revenue up"; "Costs flat"]]))
           no_text cannot_read (JStr "What changed?")
           [JStr "fileSearchStores/kb"]).
  reflexivity.
Defined.

Lemma slides_failure_cases caught :
  (is_number 403 (code_of caught) = true
   /\ slides_failure caught
      = Error "Permission denied - check service account scopes")
  \/ (is_number 429 (code_of caught) = true
      /\ slides_failure caught = Error "Rate limit exceeded - try again later")
  \/ (is_number 400 (code_of caught) = true
      /\ slides_failure caught = Error "Invalid request - check slide structure")
  \/ (is_number 403 (code_of caught) = false
      /\ is_number 429 (code_of caught) = false
      /\ is_number 400 (code_of caught) = false
      /\ slides_failure caught
         = Error ("Slides creation failed: "
                    ++ message_of "Unknown error" caught)).
Proof.
  unfold slides_failure.
  destruct (is_number 403 (code_of caught)); [now left|].
  destruct (is_number 429 (code_of caught)); [right; now left|].
  destruct (is_number 400 (code_of caught)); [right; right; now left|].
  right; right; right. now auto.
Qed.

Lemma batch_requests_plain so cr naf slideData t :
  batch_requests so cr naf slideData = Raises t -> plain t.
Proof.
  unfold batch_requests.
  destruct (prop "slides" slideData) as [| |b|q|s|slides|fs];
    try (intros [= <-]; unfold plain; now eauto).
  destruct (content_requests so cr naf 0 slides) as [content|t'] eqn:Hc;
    [discriminate|].
  intros [= <-]. now apply DeckFacts.content_requests_plain in Hc.
Qed.

(** X8.  A presentation id returned by the slides helper stands for two
    calls, in this order: the presentation was created under the deck's
    title, and one batch update was sent for it.  For a deck of n slides
    the batch holds 1 + 3n requests; it creates the slides "title_slide",
    "slide_0", ..., "slide_<n-1>", no id twice, at the positions
    0, 1, ..., n; and every text goes to position 0 of the title or body
    placeholder of a slide that the batch creates before that text. *)
Theorem returned_presentation_has_its_batch
        create update String_of cr naf slideData log presentationId :
  createGoogleSlides create update String_of cr naf slideData
    = (log, Returns presentationId) ->
  exists slides requests,
    prop "slides" slideData = JArr slides
    /\ create (prop "title" slideData) = Returns presentationId
    /\ update presentationId requests = Returns tt
    /\ log = [PresentationsCreate (prop "title" slideData);
              PresentationsBatchUpdate presentationId requests]
    /\ List.length requests = 1 + 3 * List.length slides
    /\ created_ids requests
       = "title_slide" :: map slideId (seq 0 (List.length slides))
    /\ NoDup (created_ids requests)
    /\ insertion_indices requests = seq 0 (1 + List.length slides)
    /\ texts_follow_slides [] requests.
Proof.
  unfold createGoogleSlides, try_catch, bind, call, lift, ret, throw.
  destruct (member cr "title" slideData) as [title|t0] eqn:Htitle;
    [|discriminate].
  assert (title = prop "title" slideData) as ->.
  { unfold member in Htitle.
    destruct slideData; try discriminate; now injection Htitle as <-. }
  destruct (create (prop "title" slideData)) as [pid|t0] eqn:Hcreate;
    [|discriminate].
  destruct (batch_requests String_of cr naf slideData) as [requests|t0]
    eqn:Hbatch; [|discriminate].
  destruct (update pid requests) as [[]|t0] eqn:Hupdate; [|discriminate].
  cbn. intros [= <- <-].
  unfold batch_requests in Hbatch.
  destruct (prop "slides" slideData) as [| |b|q|s|slides|fs];
    try discriminate.
  destruct (content_requests String_of cr naf 0 slides) as [content|t0]
    eqn:Hcontent; [|discriminate].
  injection Hbatch as <-.
  destruct (DeckFacts.content_requests_shape String_of cr naf slides 0 content
              [CreateSlide "title_slide" 0 "TITLE"] Hcontent)
    as (Hlen & Hids & Hidx & Htexts).
  assert (Hall : created_ids (CreateSlide "title_slide" 0 "TITLE" :: content)
                 = "title_slide" :: map slideId (seq 0 (List.length slides))).
  { change (created_ids (CreateSlide "title_slide" 0 "TITLE" :: content))
      with ("title_slide" :: created_ids content).
    now rewrite Hids. }
  exists slides, (CreateSlide "title_slide" 0 "TITLE" :: content).
  do 4 (split; [reflexivity || assumption|]).
  split; [cbn [List.length]; lia|].
  split; [exact Hall|].
  split.
  { rewrite Hall. constructor.
    - intros Hin. apply in_map_iff in Hin. destruct Hin as (i & Hi & _).
      discriminate.
    - apply Finite.Injective_map_NoDup; [|apply seq_NoDup].
      intros a b. apply DeckFacts.slideId_injective. }
  split.
  { change (insertion_indices (CreateSlide "title_slide" 0 "TITLE" :: content))
      with (0 :: insertion_indices content).
    now rewrite Hidx. }
  intros pre oid i txt post Heq.
  destruct pre as [|r pre]; cbn in Heq; [discriminate|].
  injection Heq as <- Heq.
  exact (Htexts pre oid i txt post Heq).
Qed.

Lemma returned_presentation_has_its_batch_witness :
  exists slides requests,
    prop "slides" (deck [slide "Overview" ["Revenue up"; "Costs flat"];
                         slide "Outlook" ["Hiring"]])
      = JArr slides
    /\ creates "p-1"
         (prop "title" (deck [slide "Overview" ["Revenue up"; "Costs flat"];
                              slide "Outlook" ["Hiring"]]))
       = Returns (Some "p-1")
    /\ updates (Some "p-1") requests = Returns tt
    /\ [PresentationsCreate (JStr "Findings");
        PresentationsBatchUpdate (Some "p-1")
          [CreateSlide "title_slide" 0 "TITLE";
           CreateSlide "slide_0" 1 "TITLE_AND_BODY";
           InsertText "slide_0.p1-t1" 0 (JStr "Overview");
           InsertText "slide_0.p2" 0
             (JStr (bullet ++ "Revenue up" ++ Query.newline
                      ++ bullet ++ "Costs flat"));
           CreateSlide "slide_1" 2 "TITLE_AND_BODY";
           InsertText "slide_1.p1-t1" 0 (JStr "Outlook");
           InsertText "slide_1.p2" 0 (JStr (bullet ++ "Hiring"))]]
       = [PresentationsCreate
            (prop "title" (deck [slide "Overview" ["Revenue up"; "Costs flat"];
                                 slide "Outlook" ["Hiring"]]));
          PresentationsBatchUpdate (Some "p-1") requests]
    /\ List.length requests = 1 + 3 * List.length slides
    /\ created_ids requests
       = "title_slide" :: map slideId (seq 0 (List.length slides))
    /\ NoDup (created_ids requests)
    /\ insertion_indices requests = seq 0 (1 + List.length slides)
    /\ texts_follow_slides [] requests.
Proof.
  apply (returned_presentation_has_its_batch
           (creates "p-1") updates no_text cannot_read type_error
           (deck [slide "Overview" ["Revenue up"; "Costs flat"];
                  slide "Outlook" ["Hiring"]])).
  reflexivity.
Defined.

(** X9.  How the slides helper fails.  What it throws is always an Error
    without a code, and it stems from one caught exception: a TypeError
    met while reading the deck (before or after the creation call, never
    after a batch update), the creation call's exception (then nothing
    else was called), or the batch update's (then the presentation had
    been created).  The message is "Permission denied - check service
    account scopes", "Rate limit exceeded - try again later" or "Invalid
    request - check slide structure" exactly for a caught Error whose
    code is the number 403, 429 or 400, in that order of precedence;
    otherwise it is "Slides creation failed: " and the caught message
    ("Unknown error" for a value that is not an Error). *)
Theorem slides_helper_failure
        create update String_of cr naf slideData log e :
  createGoogleSlides create update String_of cr naf slideData
    = (log, Raises e) ->
  exists caught,
    e = slides_failure caught
    /\ plain e
    /\ ((plain caught
         /\ (log = []
             \/ (log = [PresentationsCreate (prop "title" slideData)]
                 /\ exists id,
                      create (prop "title" slideData) = Returns id)))
        \/ (create (prop "title" slideData) = Raises caught
            /\ log = [PresentationsCreate (prop "title" slideData)])
        \/ (exists id requests,
               create (prop "title" slideData) = Returns id
               /\ update id requests = Raises caught
               /\ log = [PresentationsCreate (prop "title" slideData);
                         PresentationsBatchUpdate id requests]))
    /\ ((is_number 403 (code_of caught) = true
         /\ e = Error "Permission denied - check service account scopes")
        \/ (is_number 429 (code_of caught) = true
            /\ e = Error "Rate limit exceeded - try again later")
        \/ (is_number 400 (code_of caught) = true
            /\ e = Error "Invalid request - check slide structure")
        \/ (is_number 403 (code_of caught) = false
            /\ is_number 429 (code_of caught) = false
            /\ is_number 400 (code_of caught) = false
            /\ e = Error ("Slides creation failed: "
                            ++ message_of "Unknown error" caught))).
Proof.
  assert (Hplain : forall caught, plain (slides_failure caught)).
  { intros caught. unfold plain.
    destruct (slides_failure_cases caught)
      as [[_ ->]|[[_ ->]|[[_ ->]|(_ & _ & _ & ->)]]]; eauto. }
  unfold createGoogleSlides, try_catch, bind, call, lift, ret, throw.
  destruct (member cr "title" slideData) as [title|t0] eqn:Htitle.
  2:{ cbn. intros [= <- <-]. exists t0. split; [reflexivity|].
      split; [apply Hplain|]. split; [|apply slides_failure_cases].
      left. split; [|now left]. now apply DeckFacts.member_plain in Htitle. }
  assert (title = prop "title" slideData) as ->.
  { unfold member in Htitle.
    destruct slideData; try discriminate; now injection Htitle as <-. }
  destruct (create (prop "title" slideData)) as [pid|t0] eqn:Hcreate.
  2:{ cbn. intros [= <- <-]. exists t0. split; [reflexivity|].
      split; [apply Hplain|]. split; [|apply slides_failure_cases].
      right. left. now split. }
  destruct (batch_requests String_of cr naf slideData) as [requests|t0]
    eqn:Hbatch.
  2:{ cbn. intros [= <- <-]. exists t0. split; [reflexivity|].
      split; [apply Hplain|]. split; [|apply slides_failure_cases].
      left. split; [now apply batch_requests_plain in Hbatch|].
      right. split; [reflexivity|]. now exists pid. }
  destruct (update pid requests) as [[]|t0] eqn:Hupdate; [discriminate|].
  cbn. intros [= <- <-]. exists t0. split; [reflexivity|].
  split; [apply Hplain|]. split; [|apply slides_failure_cases].
  right. right. exists pid, requests. now repeat split.
Qed.

Lemma slides_helper_failure_witness :
  exists caught,
    Error "Rate limit exceeded - try again later" = slides_failure caught
    /\ plain (Error "Rate limit exceeded - try again later")
    /\ ((plain caught
         /\ ([PresentationsCreate (JStr "Findings");
              PresentationsBatchUpdate (Some "p-1")
                [CreateSlide "title_slide" 0 "TITLE";
                 CreateSlide "slide_0" 1 "TITLE_AND_BODY";
                 InsertText "slide_0.p1-t1" 0 (JStr "Outlook");
                 InsertText "slide_0.p2" 0 (JStr (bullet ++ "Hiring"))]] = []
             \/ ([PresentationsCreate (JStr "Findings");
                  PresentationsBatchUpdate (Some "p-1")
                    [CreateSlide "title_slide" 0 "TITLE";
                     CreateSlide "slide_0" 1 "TITLE_AND_BODY";
                     InsertText "slide_0.p1-t1" 0 (JStr "Outlook");
                     InsertText "slide_0.p2" 0 (JStr (bullet ++ "Hiring"))]]
                 = [PresentationsCreate
                      (prop "title" (deck [slide "Outlook" ["Hiring"]]))]
                 /\ exists id,
                      creates "p-1"
                        (prop "title" (deck [slide "Outlook" ["Hiring"]]))
                      = Returns id)))
        \/ (creates "p-1" (prop "title" (deck [slide "Outlook" ["Hiring"]]))
              = Raises caught
            /\ [PresentationsCreate (JStr "Findings");
                PresentationsBatchUpdate (Some "p-1")
                  [CreateSlide "title_slide" 0 "TITLE";
                   CreateSlide "slide_0" 1 "TITLE_AND_BODY";
                   InsertText "slide_0.p1-t1" 0 (JStr "Outlook");
                   InsertText "slide_0.p2" 0 (JStr (bullet ++ "Hiring"))]]
               = [PresentationsCreate
                    (prop "title" (deck [slide "Outlook" ["Hiring"]]))])
        \/ (exists id requests,
               creates "p-1"
                 (prop "title" (deck [slide "Outlook" ["Hiring"]]))
               = Returns id
               /\ refuses 429 "quota" id requests = Raises caught
               /\ [PresentationsCreate (JStr "Findings");
                   PresentationsBatchUpdate (Some "p-1")
                     [CreateSlide "title_slide" 0 "TITLE";
                      CreateSlide "slide_0" 1 "TITLE_AND_BODY";
                      InsertText "slide_0.p1-t1" 0 (JStr "Outlook");
                      InsertText "slide_0.p2" 0 (JStr (bullet ++ "Hiring"))]]
                  = [PresentationsCreate
                       (prop "title" (deck [slide "Outlook" ["Hiring"]]));
                     PresentationsBatchUpdate id requests]))
    /\ ((is_number 403 (code_of caught) = true
         /\ Error "Rate limit exceeded - try again later"
            = Error "Permission denied - check service account scopes")
        \/ (is_number 429 (code_of caught) = true
            /\ Error "Rate limit exceeded - try again later"
               = Error "Rate limit exceeded - try again later")
        \/ (is_number 400 (code_of caught) = true
            /\ Error "Rate limit exceeded - try again later"
               = Error "Invalid request - check slide structure")
        \/ (is_number 403 (code_of caught) = false
            /\ is_number 429 (code_of caught) = false
            /\ is_number 400 (code_of caught) = false
            /\ Error "Rate limit exceeded - try again later"
               = Error ("Slides creation failed: "
                          ++ message_of "Unknown error" caught))).
Proof.
  apply (slides_helper_failure
           (creates "p-1") (refuses 429 "quota") no_text cannot_read type_error
           (deck [slide "Outlook" ["Hiring"]])).
  reflexivity.
Defined.

(** X10.  The check of the generation helper does not look into the
    slides.  For a deck that passes it (truthy title, non-empty slides
    array) but has a slide that is null or whose bulletPoints is not an
    array, the slides helper first creates the presentation and only
    then fails on that slide: if the creation call returns, the helper's
    whole log is that one call, no batch update is sent, and it throws
    "Slides creation failed: " with the TypeError's text. *)
Theorem incomplete_slide_leaves_an_empty_presentation
        create update String_of cr naf slideData slides slide id :
  validated cr slideData = Returns slideData ->
  prop "slides" slideData = JArr slides ->
  In slide slides ->
  is_array (prop "bulletPoints" slide) = false ->
  create (prop "title" slideData) = Returns id ->
  exists why,
    createGoogleSlides create update String_of cr naf slideData
    = ([PresentationsCreate (prop "title" slideData)],
       Raises (Error ("Slides creation failed: " ++ why))).
Proof.
  intros Hvalid Hslides Hin Hbad Hcreate.
  unfold createGoogleSlides, try_catch, bind, call, lift, ret, throw.
  unfold validated in Hvalid.
  destruct (member cr "title" slideData) as [title|t0] eqn:Htitle;
    [|discriminate].
  assert (title = prop "title" slideData) as ->.
  { unfold member in Htitle.
    destruct slideData; try discriminate; now injection Htitle as <-. }
  rewrite Hcreate.
  destruct (batch_requests String_of cr naf slideData) as [requests|t0]
    eqn:Hbatch.
  - exfalso. unfold batch_requests in Hbatch. rewrite Hslides in Hbatch.
    destruct (content_requests String_of cr naf 0 slides) as [content|t0]
      eqn:Hcontent; [|discriminate].
    rewrite (DeckFacts.content_requests_needs_bullets
               String_of cr naf slides 0 content Hcontent slide Hin) in Hbad.
    discriminate.
  - destruct (batch_requests_plain _ _ _ _ _ Hbatch) as [why ->].
    exists why. reflexivity.
Qed.

Lemma incomplete_slide_leaves_an_empty_presentation_witness :
  exists why,
    createGoogleSlides (creates "p-1") updates no_text cannot_read type_error
      (deck [slide "Overview" ["Revenue up"]; bare_slide])
    = ([PresentationsCreate
          (prop "title" (deck [slide "Overview" ["Revenue up"]; bare_slide]))],
       Raises (Error ("Slides creation failed: " ++ why))).
Proof.
  apply (incomplete_slide_leaves_an_empty_presentation
           (creates "p-1") updates no_text cannot_read type_error
           (deck [slide "Overview" ["Revenue up"]; bare_slide])
           [slide "Overview" ["Revenue up"]; bare_slide] bare_slide
           (Some "p-1"));
    try reflexivity.
  right. now left.
Defined.

End DeckTheorems.

(** ** The components and the routes together *)

Module ClientFacts.

Import Scenarios.




End ClientFacts.

Module ClientTheorems.

Import Scenarios ClientScenarios.






(** X13.  A query sent from the page.  For a query that is not blank and
    a selected store the component sends one request, and the query
    route, run on that request, performs exactly one external call: the
    grounded generation on gemini-2.5-flash with the typed query followed
    by the formatting instructions and with the selected store as the
    only store.  The slide helpers are never run and the request is never
    turned down with 400.  The component ends not loading, and shows
    either the answer (the model's non-empty text with its citations and
    no slides) or a non-empty error text, never both. *)
Theorem page_query_is_one_grounded_call
        trim env generateContent deck slides String_of cd
        fileSearchStoreName view log view' :
  trim EmptyString = EmptyString ->
  nonempty (trim (Client.query view)) = true ->
  truthy_str fileSearchStoreName = true ->
  Client.handleSubmit trim
    (Client.query_route env generateContent deck slides String_of cd)
    fileSearchStoreName view = (log, view') ->
  exists storeName,
    fileSearchStoreName = Some storeName
    /\ log = [Client.PostQuery
                (Client.query_body (Client.query view) storeName)]
    /\ fst (Query.POST env generateContent deck slides String_of cd
              {| Query.json_body :=
                   Ok (Client.query_body (Client.query view) storeName) |})
       = [GenerateContent "gemini-2.5-flash"
            (Query.markdownQuery (Client.query view)) [JStr storeName]]
    /\ status (snd (Query.POST env generateContent deck slides String_of cd
                      {| Query.json_body :=
                           Ok (Client.query_body (Client.query view)
                                                 storeName) |}))
       <> 400%Z
    /\ Client.loading view' = false
    /\ Client.query view' = Client.query view
    /\ ((exists answer t,
            generateContent "gemini-2.5-flash"
              (Query.markdownQuery (Client.query view)) [JStr storeName]
            = Ok answer
            /\ text answer = Some t /\ nonempty t = true
            /\ Client.response view'
               = Some (QueryOk t (Query.citations_of answer) None)
            /\ Client.query_error view' = None)
        \/ (Client.response view' = None
            /\ exists shown,
                 Client.query_error view' = Some shown
                 /\ nonempty shown = true)).
Proof.
  intros Htrim Hquery Hstore.
  assert (Hq : nonempty (Client.query view) = true).
  { destruct (Client.query view); [|reflexivity].
    rewrite Htrim in Hquery. discriminate. }
  assert (Hor : forall o, nonempty (or_else o "Query failed") = true).
  { intros [[|c s]|]; reflexivity. }
  unfold Client.handleSubmit. rewrite Hquery, Hstore. cbn [negb].
  destruct fileSearchStoreName as [storeName|]; [|discriminate].
  unfold Client.bind, Client.fetch_json, Client.ret, Client.throw,
    Client.query_route.
  assert (Hserver :
    Query.POST env generateContent deck slides String_of cd
      {| Query.json_body :=
           Ok (Client.query_body (Client.query view) storeName) |}
    = ([GenerateContent "gemini-2.5-flash"
          (Query.markdownQuery (Client.query view)) [JStr storeName]],
       match generateContent "gemini-2.5-flash"
               (Query.markdownQuery (Client.query view)) [JStr storeName] with
       | Ok answer =>
         if truthy_str (text answer) then
           json 200 (QueryOk (match text answer with
                              | Some t => t
                              | None => EmptyString
                              end)
                             (Query.citations_of answer) None)
         else json 500 (ErrorBody "No response from Gemini")
       | Throw e => Query.on_error e
       end)).
  { unfold Query.POST, lift, call, bind, try_catch, ret, throw,
      Client.query_body.
    cbn [Query.json_body destructurable negb].
    change (prop "query" (JObj [("query", JStr (Client.query view));
                                ("fileSearchStoreNames", JArr [JStr storeName]);
                                ("createSlides", JBool false)]))
      with (JStr (Client.query view)).
    change (prop "fileSearchStoreNames"
              (JObj [("query", JStr (Client.query view));
                     ("fileSearchStoreNames", JArr [JStr storeName]);
                     ("createSlides", JBool false)]))
      with (JArr [JStr storeName]).
    change (prop "createSlides"
              (JObj [("query", JStr (Client.query view));
                     ("fileSearchStoreNames", JArr [JStr storeName]);
                     ("createSlides", JBool false)]))
      with (JBool false).
    cbn [truthy]. rewrite Hq.
    cbn [negb orb length_of is_zero Query.as_array to_string List.length].
    change (is_zero (JNum (inject_Z (Z.of_nat 1)))) with false.
    cbv beta iota.
    destruct (generateContent _ _ _) as [answer|e]; [|reflexivity].
    destruct (truthy_str (text answer)); reflexivity. }
  rewrite Hserver. cbn [snd fst].
  intros Hrun. exists storeName. rewrite Hserver. cbn [fst snd].
  split; [reflexivity|].
  destruct (generateContent "gemini-2.5-flash"
              (Query.markdownQuery (Client.query view)) [JStr storeName])
    as [answer|e] eqn:Hgen.
  - destruct (text answer) as [t|] eqn:Htext; cbn [truthy_str] in *.
    + destruct (nonempty t) eqn:Ht; injection Hrun as <- <-; cbn.
      * split; [reflexivity|]. split; [reflexivity|].
        split; [discriminate|]. do 2 (split; [reflexivity|]).
        left. exists answer, t. now repeat split.
      * split; [reflexivity|]. split; [reflexivity|].
        split; [discriminate|]. do 2 (split; [reflexivity|]).
        right. split; [reflexivity|]. now eexists.
    + injection Hrun as <- <-; cbn.
      split; [reflexivity|]. split; [reflexivity|].
      split; [discriminate|]. do 2 (split; [reflexivity|]).
      right. split; [reflexivity|]. now eexists.
  - injection Hrun as <- <-. cbn [fst snd].
    split; [reflexivity|]. split; [reflexivity|].
    split; [discriminate|]. do 2 (split; [reflexivity|]).
    right. split; [reflexivity|]. eexists. split; [reflexivity|].
    apply (Hor (Some (message_or "Failed to process query" e))).
Qed.

Lemma page_query_is_one_grounded_call_witness :
  exists storeName,
    Some "fileSearchStores/kb" = Some storeName
    /\ [Client.PostQuery (Client.query_body "why?" "fileSearchStores/kb")]
       = [Client.PostQuery
            (Client.query_body
               (Client.query
                  {| Client.query := "why?"; Client.loading := false;
                     Client.response := None;
                     Client.query_error := None |}) storeName)]
    /\ fst (Query.POST no_env (generates (grounded [web_chunk])) no_deck
              no_slides no_text type_error
              {| Query.json_body :=
                   Ok (Client.query_body
                         (Client.query
                            {| Client.query := "why?";
                               Client.loading := false;
                               Client.response := None;
                               Client.query_error := None |})
                         storeName) |})
       = [GenerateContent "gemini-2.5-flash"
            (Query.markdownQuery
               (Client.query
                  {| Client.query := "why?"; Client.loading := false;
                     Client.response := None;
                     Client.query_error := None |}))
            [JStr storeName]]
    /\ status (snd (Query.POST no_env (generates (grounded [web_chunk]))
                      no_deck no_slides no_text type_error
                      {| Query.json_body :=
                           Ok (Client.query_body
                                 (Client.query
                                    {| Client.query := "why?";
                                       Client.loading := false;
                                       Client.response := None;
                                       Client.query_error := None |})
                                 storeName) |}))
       <> 400%Z
    /\ Client.loading
         {| Client.query := "why?"; Client.loading := false;
            Client.response :=
              Some (QueryOk "## Answer"
                      (Query.citations_of (grounded [web_chunk])) None);
            Client.query_error := None |} = false
    /\ Client.query
         {| Client.query := "why?"; Client.loading := false;
            Client.response :=
              Some (QueryOk "## Answer"
                      (Query.citations_of (grounded [web_chunk])) None);
            Client.query_error := None |}
       = Client.query
           {| Client.query := "why?"; Client.loading := false;
              Client.response := None; Client.query_error := None |}
    /\ ((exists answer t,
            generates (grounded [web_chunk]) "gemini-2.5-flash"
              (Query.markdownQuery
                 (Client.query
                    {| Client.query := "why?"; Client.loading := false;
                       Client.response := None;
                       Client.query_error := None |}))
              [JStr storeName]
            = Ok answer
            /\ text answer = Some t /\ nonempty t = true
            /\ Client.response
                 {| Client.query := "why?"; Client.loading := false;
                    Client.response :=
                      Some (QueryOk "## Answer"
                              (Query.citations_of (grounded [web_chunk]))
                              None);
                    Client.query_error := None |}
               = Some (QueryOk t (Query.citations_of answer) None)
            /\ Client.query_error
                 {| Client.query := "why?"; Client.loading := false;
                    Client.response :=
                      Some (QueryOk "## Answer"
                              (Query.citations_of (grounded [web_chunk]))
                              None);
                    Client.query_error := None |} = None)
        \/ (Client.response
              {| Client.query := "why?"; Client.loading := false;
                 Client.response :=
                   Some (QueryOk "## Answer"
                           (Query.citations_of (grounded [web_chunk])) None);
                 Client.query_error := None |} = None
            /\ exists shown,
                 Client.query_error
                   {| Client.query := "why?"; Client.loading := false;
                      Client.response :=
                        Some (QueryOk "## Answer"
                                (Query.citations_of (grounded [web_chunk]))
                                None);
                      Client.query_error := None |} = Some shown
                 /\ nonempty shown = true)).
Proof.
  apply (page_query_is_one_grounded_call
           (fun s => s) no_env (generates (grounded [web_chunk])) no_deck
           no_slides no_text type_error (Some "fileSearchStores/kb")
           {| Client.query := "why?"; Client.loading := false;
              Client.response := None; Client.query_error := None |});
    reflexivity.
Defined.

End ClientTheorems.

(** ** The slides route *)

Module SlidesFacts.

Import Deck.

(** The generation helper on any prompt: one call; a returned deck
    passed the check; a failure has the helper's prefix. *)
Lemma generate_deck_run generateContent JSON_parse cr prompt stores :
  fst (generate_deck generateContent JSON_parse cr prompt stores)
    = [GenerateJson "gemini-2.5-flash" prompt stores]
  /\ (forall deck,
        snd (generate_deck generateContent JSON_parse cr prompt stores)
          = Returns deck ->
        truthy (prop "title" deck) = true
        /\ exists first others, prop "slides" deck = JArr (first :: others))
  /\ (forall e,
        snd (generate_deck generateContent JSON_parse cr prompt stores)
          = Raises e ->
        exists why, e = Error ("Gemini generation failed: " ++ why)).
Proof.
  unfold generate_deck, try_catch, bind, call, lift, ret, throw.
  destruct (generateContent _ _ _) as [answer|t0].
  2:{ cbn. split; [reflexivity|]. split; [discriminate|].
      intros e [= <-]. eauto. }
  destruct (text answer) as [[|c t]|]; cbn [nonempty].
  1,3: cbn; split; [reflexivity|]; split; [discriminate|];
       intros e [= <-]; eauto.
  destruct (JSON_parse (String c t)) as [v|].
  2:{ cbn. split; [reflexivity|]. split; [discriminate|].
      intros e [= <-]. eauto. }
  unfold validated, member.
  destruct v as [| |b|q|s|items|fields];
    try (cbn; split; [reflexivity|]; split; [discriminate|];
         intros e [= <-]; eauto).
  destruct (truthy (prop "title" (JObj fields))) eqn:Htitle;
    [|cbn; split; [reflexivity|]; split; [discriminate|];
      intros e [= <-]; eauto].
  cbn [negb orb].
  destruct (prop "slides" (JObj fields)) as [| |b|q|s|[|item items]|fs]
    eqn:Hslides;
    try (cbn; split; [reflexivity|]; split; [discriminate|];
         intros e [= <-]; eauto).
  cbn. split; [reflexivity|]. split; [|discriminate].
  intros deck [= <-]. split; [exact Htitle|]. rewrite Hslides. eauto.
Qed.

(** The slides helper: a returned id stands for the creation call and
    one batch of 1 + 3n requests; what it throws is one of its four
    kinds of Error. *)
Lemma createGoogleSlides_run create update so cr naf slideData :
  match createGoogleSlides create update so cr naf slideData with
  | (log, Returns id) =>
    exists slides requests,
      prop "slides" slideData = JArr slides
      /\ log = [PresentationsCreate (prop "title" slideData);
                PresentationsBatchUpdate id requests]
      /\ List.length requests = 1 + 3 * List.length slides
  | (log, Raises e) => exists caught, e = slides_failure caught
  end.
Proof.
  unfold createGoogleSlides, try_catch, bind, call, lift, ret, throw.
  destruct (member cr "title" slideData) as [title|t0] eqn:Htitle;
    [|now eauto].
  assert (title = prop "title" slideData) as ->.
  { unfold member in Htitle.
    destruct slideData; try discriminate; now injection Htitle as <-. }
  destruct (create (prop "title" slideData)) as [pid|t0]; [|now eauto].
  destruct (batch_requests so cr naf slideData) as [requests|t0] eqn:Hbatch;
    [|now eauto].
  destruct (update pid requests) as [[]|t0]; [|now eauto].
  cbn. unfold batch_requests in Hbatch.
  destruct (prop "slides" slideData) as [| |b|q|s|slides|fs];
    try discriminate.
  destruct (content_requests so cr naf 0 slides) as [content|t0]
    eqn:Hcontent; [|discriminate].
  injection Hbatch as <-.
  destruct (DeckFacts.content_requests_shape so cr naf slides 0 content []
              Hcontent) as (Hlen & _).
  exists slides, (CreateSlide "title_slide" 0 "TITLE" :: content).
  split; [reflexivity|]. split; [reflexivity|]. cbn [List.length]. lia.
Qed.

Lemma slides_failure_texts caught :
  slides_failure caught
    = Error "Permission denied - check service account scopes"
  \/ slides_failure caught = Error "Rate limit exceeded - try again later"
  \/ slides_failure caught = Error "Invalid request - check slide structure"
  \/ exists why, slides_failure caught = Error ("Slides creation failed: " ++ why).
Proof.
  unfold slides_failure.
  destruct (is_number 403 (code_of caught)); [now left|].
  destruct (is_number 429 (code_of caught)); [right; now left|].
  destruct (is_number 400 (code_of caught)); [right; right; now left|].
  right; right; right. now eauto.
Qed.

End SlidesFacts.

Module SlidesTheorems.

Import Scenarios Deck DeckScenarios.

(** X14.  The slides route.  It calls nothing unless the body carries a
    string topic that is not blank and the API key, the store and the
    credentials are all set; its first call is then the deck generation
    on gemini-2.5-flash with the prompt on that topic and the configured
    store as the only store.  A 200 answer stands for exactly three
    calls in this order (generation, creation of the presentation under
    the deck's title, one batch update of 1 + 3n requests for the n >= 1
    slides of the deck) and reports that id, n as the slide count, the
    deck's title and the first two slides at most.  When a call was made
    and the answer is not 200, it is a 500 whose error text starts with
    "Gemini generation failed: " or is one of the four texts of the
    slides helper. *)
Theorem slides_route_pipeline
        env generateContent JSON_parse create update trim String_of absent
        stack_of cr naf cd request :
  let run := SlidesRoute.POST env generateContent JSON_parse create update
               trim String_of absent stack_of cr naf cd request in
  (fst run <> [] ->
   exists sent topic store rest,
     SlidesRoute.json_body request = Returns sent
     /\ prop "topic" sent = JStr topic
     /\ nonempty (trim topic) = true
     /\ truthy_str (SlidesRoute.GEMINI_API_KEY env) = true
     /\ SlidesRoute.GEMINI_FILE_SEARCH_STORE env = Some store
     /\ nonempty store = true
     /\ truthy_str (SlidesRoute.GOOGLE_APPLICATION_CREDENTIALS env) = true
     /\ fst run = GenerateJson "gemini-2.5-flash"
                    (SlidesRoute.topic_prompt topic) [JStr store] :: rest
     /\ (SlidesRoute.status (snd run) = 200%Z ->
         exists deck slides id requests,
           snd (SlidesRoute.generateSlideContent env generateContent
                  JSON_parse String_of cr (JStr topic)) = Returns deck
           /\ prop "slides" deck = JArr slides
           /\ slides <> []
           /\ rest = [PresentationsCreate (prop "title" deck);
                      PresentationsBatchUpdate id requests]
           /\ List.length requests = 1 + 3 * List.length slides
           /\ SlidesRoute.body (snd run)
              = SlidesRoute.Created id
                  ("https://docs.google.com/presentation/d/"
                     ++ match id with Some i => i | None => absent end
                     ++ "/edit")
                  (JNum (inject_Z (Z.of_nat (List.length slides))))
                  (prop "title" deck)
                  (JArr (firstn 2 slides)))
     /\ (SlidesRoute.status (snd run) <> 200%Z ->
         exists shown development,
           snd run = SlidesRoute.json 500
                       (SlidesRoute.Failed shown development)
           /\ ((exists why,
                   shown = ("Gemini generation failed: " ++ why)%string)
               \/ shown = "Permission denied - check service account scopes"
               \/ shown = "Rate limit exceeded - try again later"
               \/ shown = "Invalid request - check slide structure"
               \/ exists why,
                    shown = ("Slides creation failed: " ++ why)%string))).
Proof.
  cbv zeta.
  unfold SlidesRoute.POST, bind, lift, ret, throw.
  destruct (SlidesRoute.json_body request) as [sent|t0] eqn:Hsent;
    [|intros H; now contradiction H].
  destruct (destructurable sent); [|intros H; now contradiction H].
  unfold SlidesRoute.topic_missing.
  destruct (prop "topic" sent) as [| |b|q|topic|items|fields] eqn:Htopic;
    try (intros H; now contradiction H).
  destruct (nonempty (trim topic)) eqn:Htrim; cbn [negb];
    [|intros H; now contradiction H].
  destruct (truthy_str (SlidesRoute.GEMINI_API_KEY env)) eqn:Hkey;
    cbn [negb]; [|intros H; now contradiction H].
  destruct (SlidesRoute.GEMINI_FILE_SEARCH_STORE env) as [store|] eqn:Hstore;
    cbn [truthy_str]; [|intros H; now contradiction H].
  destruct (nonempty store) eqn:Hne; cbn [negb];
    [|intros H; now contradiction H].
  destruct (truthy_str (SlidesRoute.GOOGLE_APPLICATION_CREDENTIALS env))
    eqn:Hcred; cbn [negb]; [|intros H; now contradiction H].
  intros _. exists sent, topic, store.
  unfold SlidesRoute.generateSlideContent. rewrite Hstore.
  cbn [to_string].
  destruct (SlidesFacts.generate_deck_run generateContent JSON_parse cr
              (SlidesRoute.topic_prompt topic) [JStr store])
    as (Hlog & Hdeck & Hfail).
  destruct (generate_deck generateContent JSON_parse cr
              (SlidesRoute.topic_prompt topic) [JStr store])
    as [t1 [deck|e1]]; cbn [fst snd] in Hlog, Hdeck, Hfail; subst t1.
  2:{ destruct (Hfail e1 eq_refl) as [why ->]. eexists.
      do 7 (split; [reflexivity || assumption|]). cbn.
      split; [reflexivity|]. split; [discriminate|].
      intros _. eexists _, _. split; [reflexivity|]. left.
      exists why. reflexivity. }
  destruct (Hdeck deck eq_refl) as (Htitle & first & others & Hslides).
  unfold SlidesRoute.slide_count, SlidesRoute.first_two, member.
  rewrite Hslides.
  assert (Hrun := SlidesFacts.createGoogleSlides_run
                    create update String_of cr naf deck).
  destruct (createGoogleSlides create update String_of cr naf deck)
    as [t2 [id|e2]].
  - destruct Hrun as (slides & requests & Hs & -> & Hlen).
    rewrite Hslides in Hs. injection Hs as <-.
    destruct deck as [| |b|q|s|items|fields]; try discriminate Hslides.
    eexists. do 7 (split; [reflexivity || assumption|]). cbn.
    split; [reflexivity|]. split; [|intros H; now contradiction H].
    intros _. exists (JObj fields), (first :: others), id, requests.
    repeat split; try reflexivity; try assumption. discriminate.
  - destruct Hrun as [caught ->]. eexists.
    do 7 (split; [reflexivity || assumption|]). cbn.
    split; [reflexivity|]. split; [discriminate|].
    intros _. eexists _, _. split; [reflexivity|]. right.
    destruct (SlidesFacts.slides_failure_texts caught)
      as [->|[->|[->|[why ->]]]].
    + left. reflexivity.
    + right. left. reflexivity.
    + right. right. left. reflexivity.
    + right. right. right. exists why. reflexivity.
Qed.

Lemma slides_route_pipeline_witness :
  exists sent topic store rest,
    Returns (JObj [("topic", JStr "Quarterly review")]) = Returns sent
    /\ prop "topic" sent = JStr topic
    /\ nonempty ((fun s => s) topic) = true
    /\ truthy_str (Some "key") = true
    /\ Some "fileSearchStores/kb" = Some store
    /\ nonempty store = true
    /\ truthy_str (Some "/etc/credentials.json") = true
    /\ [GenerateJson "gemini-2.5-flash"
          (SlidesRoute.topic_prompt "Quarterly review")
          [JStr "fileSearchStores/kb"];
        PresentationsCreate (JStr "Findings");
        PresentationsBatchUpdate (Some "p-1")
          [CreateSlide "title_slide" 0 "TITLE";
           CreateSlide "slide_0" 1 "TITLE_AND_BODY";
           InsertText "slide_0.p1-t1" 0 (JStr "Outlook");
           InsertText "slide_0.p2" 0 (JStr (bullet ++ "Hiring"))]]
       = GenerateJson "gemini-2.5-flash"
           (SlidesRoute.topic_prompt topic) [JStr store] :: rest
    /\ (200%Z = 200%Z ->
        exists made slides id requests,
          snd (SlidesRoute.generateSlideContent
                 {| SlidesRoute.GEMINI_API_KEY := Some "key";
                    SlidesRoute.GEMINI_FILE_SEARCH_STORE :=
                      Some "fileSearchStores/kb";
                    SlidesRoute.GOOGLE_APPLICATION_CREDENTIALS :=
                      Some "/etc/credentials.json";
                    SlidesRoute.NODE_ENV := Some "production" |}
                 (answers_text "{...}")
                 (parses "{...}" (deck [slide "Outlook" ["Hiring"]]))
                 no_text cannot_read (JStr topic)) = Returns made
          /\ prop "slides" made = JArr slides
          /\ slides <> []
          /\ rest = [PresentationsCreate (prop "title" made);
                     PresentationsBatchUpdate id requests]
          /\ List.length requests = 1 + 3 * List.length slides
          /\ SlidesRoute.Created (Some "p-1")
               "https://docs.google.com/presentation/d/p-1/edit"
               (JNum (inject_Z 1)) (JStr "Findings")
               (JArr [slide "Outlook" ["Hiring"]])
             = SlidesRoute.Created id
                 ("https://docs.google.com/presentation/d/"
                    ++ match id with Some i => i | None => "undefined" end
                    ++ "/edit")
                 (JNum (inject_Z (Z.of_nat (List.length slides))))
                 (prop "title" made)
                 (JArr (firstn 2 slides)))
    /\ (200%Z <> 200%Z ->
        exists shown development,
          SlidesRoute.json 200
            (SlidesRoute.Created (Some "p-1")
               "https://docs.google.com/presentation/d/p-1/edit"
               (JNum (inject_Z 1)) (JStr "Findings")
               (JArr [slide "Outlook" ["Hiring"]]))
          = SlidesRoute.json 500 (SlidesRoute.Failed shown development)
          /\ ((exists why,
                  shown = ("Gemini generation failed: " ++ why)%string)
              \/ shown = "Permission denied - check service account scopes"
              \/ shown = "Rate limit exceeded - try again later"
              \/ shown = "Invalid request - check slide structure"
              \/ exists why,
                   shown = ("Slides creation failed: " ++ why)%string)).
Proof.
  apply (slides_route_pipeline
           {| SlidesRoute.GEMINI_API_KEY := Some "key";
              SlidesRoute.GEMINI_FILE_SEARCH_STORE :=
                Some "fileSearchStores/kb";
              SlidesRoute.GOOGLE_APPLICATION_CREDENTIALS :=
                Some "/etc/credentials.json";
              SlidesRoute.NODE_ENV := Some "production" |}
           (answers_text "{...}")
           (parses "{...}" (deck [slide "Outlook" ["Hiring"]]))
           (creates "p-1") updates (fun s => s) no_text "undefined"
           (fun _ => JUndefined) cannot_read type_error type_error
           {| SlidesRoute.json_body :=
                Returns (JObj [("topic", JStr "Quarterly review")]) |}).
  discriminate.
Defined.

End SlidesTheorems.
